(** * taskmaster: a client of the Windows Task Scheduler service

    A shallow embedding of [src/errors.go], of its sibling revision
    [src/unnamed/part_000] and of [src/manage.go], with the properties the
    specification states about them.

    The native object bridge (go-ole) is outside the repository.  Its answers
    are taken as parameters, and every call the code makes on it is recorded in
    a trace, so that "no native call" and "exactly one delete, then one
    register" are statements about that trace.  The calls of the connection
    manager on the COM runtime and on the operating system, and those of
    [GetRunningTasks], are recorded in a second trace in the same way. *)

From Stdlib Require Import ZArith Ascii String List Bool Lia.
From stdpp Require Import base option list strings.
Import ListNotations.

Local Open Scope string_scope.
Local Open Scope list_scope.
Local Open Scope Z_scope.

(** ** Go values shared by the three files *)

(** [uint32(x)]: conversion of an unsigned machine integer to 32 bits. *)
Definition uint32 (x : Z) : Z := x mod 2 ^ 32.

(** Go [error] values.  An interface value of type [error] that may be [nil]
    is an [option error].  The six sentinels are the package variables of
    [errors.go]; [Errno] is [syscall.Errno]; [errorString] is what
    [errors.New] builds; [Errorf] keeps the format and the operands of a
    [fmt.Errorf] call; [OleError] and [EXCEPINFO] are the two go-ole types the
    code inspects by type assertion. *)
#[warnings="-register-all"]
Inductive error : Type :=
| ErrTargetUnsupported
| ErrConnectionFailure
| ErrInvalidPath
| ErrNoActions
| ErrInvalidPrincipal
| ErrRunningTaskCompleted
| Errno (code : Z)
| errorString (msg : string)
| Errorf (format : string) (operands : list operand)
| OleError (hr : Z) (description : string) (subError : option error)
| EXCEPINFO (scode : Z)
with operand : Type :=
| opString (s : string)
| opError (e : option error).

(** The [Code] method of an [OleError]: its HRESULT, a [uintptr] (64 bits on
    windows/amd64). *)
Definition Code (hr : Z) : Z := hr mod 2 ^ 64.

(** The [SCODE] method of an [EXCEPINFO]: its [scode] field, a [uint32]. *)
Definition SCODE (scode : Z) : Z := uint32 scode.

(** ** src/errors.go *)
Module ErrorsGo.

(** [getOLEErrorCode]: the code is taken from the EXCEPINFO sub-error only;
    an OLE error without one yields its own code together with an error. *)
Definition getOLEErrorCode (err : option error) : Z * option error :=
  match err with
  | Some (OleError hr _ sub) =>
      match sub with
      | Some (EXCEPINFO scode) => (SCODE scode, None)
      | _ => (uint32 (Code hr),
              Some (errorString "failed to extract OLE sub-error code"))
      end
  | _ => (0, Some (errorString "failed to extract OLE error code"))
  end.

Definition getTaskSchedulerError (err : option error) : error :=
  let '(errCode, parseErr) := getOLEErrorCode err in
  match parseErr with
  | Some pe => pe
  | None =>
      if errCode =? 50 then ErrTargetUnsupported
      else if (errCode =? 0x80070032) || (errCode =? 53)
           then ErrConnectionFailure
           else Errno errCode
  end.

Definition getRunningTaskError (err : option error) : error :=
  let '(errCode, parseErr) := getOLEErrorCode err in
  match parseErr with
  | Some pe => pe
  | None =>
      if errCode =? 0x8004130B then ErrRunningTaskCompleted
      else Errno errCode
  end.

End ErrorsGo.

(** ** src/unnamed/part_000 *)
Module Part000.

(** [getOLEErrorCode]: a non-zero direct code wins; the EXCEPINFO sub-error
    is consulted only when the direct code is zero. *)
Definition getOLEErrorCode (err : option error) : Z * option error :=
  match err with
  | Some (OleError hr _ sub) =>
      if negb (Code hr =? 0) then (uint32 (Code hr), None)
      else match sub with
           | Some (EXCEPINFO scode) => (uint32 (SCODE scode), None)
           | _ => (0, Some (errorString "could not determine OLE error code"))
           end
  | _ => (0, Some (errorString "could not determine OLE error code"))
  end.

Definition getTaskSchedulerError (err : option error) : error :=
  let '(errCode, codeErr) := getOLEErrorCode err in
  match codeErr with
  | Some ce =>
      Errorf "task scheduler error: %v (unable to get specific error code: %v)"
             [opError err; opError (Some ce)]
  | None =>
      if errCode =? 50 then ErrTargetUnsupported
      else if (errCode =? 0x80070032) || (errCode =? 53)
           then ErrConnectionFailure
           else Errno errCode
  end.

Definition getRunningTaskError (err : option error) : error :=
  let '(errCode, codeErr) := getOLEErrorCode err in
  match codeErr with
  | Some ce =>
      Errorf "running task error: %v (unable to get specific error code: %v)"
             [opError err; opError (Some ce)]
  | None =>
      if errCode =? 0x8004130B then ErrRunningTaskCompleted
      else Errno errCode
  end.

End Part000.

(** ** The translation tables, and the inputs on which the revisions agree *)

(** The table both revisions of [getTaskSchedulerError] apply to a code. *)
Definition schedulerErrorOf (code : Z) : error :=
  if code =? 50 then ErrTargetUnsupported
  else if (code =? 53) || (code =? 0x80070032) then ErrConnectionFailure
  else Errno code.

(** The table both revisions of [getRunningTaskError] apply to a code. *)
Definition runningErrorOf (code : Z) : error :=
  if code =? 0x8004130B then ErrRunningTaskCompleted else Errno code.


(** ** src/manage.go: the data model *)

(** The declarations of the types and constants of the package are not among
    the sources; they are given here with the fields and the constants that
    [manage.go] reads and writes. *)

(** Modelled from the spec: the logon types, a closed enumeration; zero is
    [TASK_LOGON_NONE]. *)
Inductive TaskLogonType : Type :=
| TASK_LOGON_NONE
| TASK_LOGON_PASSWORD
| TASK_LOGON_S4U
| TASK_LOGON_INTERACTIVE_TOKEN
| TASK_LOGON_GROUP
| TASK_LOGON_SERVICE_ACCOUNT
| TASK_LOGON_INTERACTIVE_TOKEN_OR_PASSWORD.

(** Modelled from the spec: the run levels; [TASK_RUNLEVEL_LUA] is the
    limited-user level and the zero value. *)
Inductive TaskRunLevel : Type := TASK_RUNLEVEL_LUA | TASK_RUNLEVEL_HIGHEST.

(** Modelled from the spec: the compatibility levels. *)
Inductive TaskCompatibility : Type :=
| TASK_COMPATIBILITY_AT | TASK_COMPATIBILITY_V1 | TASK_COMPATIBILITY_V2.

(** Modelled from the spec: the multiple-instances policies. *)
Inductive TaskInstancesPolicy : Type :=
| TASK_INSTANCES_PARALLEL | TASK_INSTANCES_QUEUE
| TASK_INSTANCES_IGNORE_NEW | TASK_INSTANCES_STOP_EXISTING.

(** Modelled from the spec: the registration flags [modifyTask] is called
    with. *)
Inductive TaskCreationFlags : Type := TASK_CREATE | TASK_UPDATE.

(** Modelled from the spec: the enumeration flag that includes hidden tasks. *)
Definition TASK_ENUM_HIDDEN : Z := 1.

(** [period.Period] of the date library, as far as [period.NewHMS] fills it. *)
Record Period : Type := mkPeriod {
  hours : Z;
  minutes : Z;
  seconds : Z
}.

Definition NewHMS (h m s : Z) : Period := mkPeriod h m s.

(** Triggers and actions are opaque to this part of the code. *)
Inductive Trigger : Type := mkTrigger (id : string).
Inductive Action : Type := mkAction (id : string).

Record TaskRegistrationInfo : Type := mkRegistrationInfo {
  Author : string;
  Date : Z;
  Description : string
}.

Record TaskPrincipal : Type := mkPrincipal {
  UserID : string;
  GroupID : string;
  LogonType : TaskLogonType;
  RunLevel : TaskRunLevel
}.

Record TaskIdleSettings : Type := mkIdleSettings {
  IdleDuration : Period;
  WaitTimeout : Period
}.

Record TaskSettings : Type := mkTaskSettings {
  AllowDemandStart : bool;
  AllowHardTerminate : bool;
  Compatibility : TaskCompatibility;
  DontStartOnBatteries : bool;
  Enabled : bool;
  Hidden : bool;
  IdleSettings : TaskIdleSettings;
  MultipleInstances : TaskInstancesPolicy;
  Priority : Z;
  RestartCount : Z;
  RestartOnIdle : bool;
  RunOnlyIfIdle : bool;
  RunOnlyIfNetworkAvailable : bool;
  StartWhenAvailable : bool;
  StopIfGoingOnBatteries : bool;
  StopOnIdleEnd : bool;
  TimeLimit : Period;
  WakeToRun : bool
}.

Record TaskDefinition : Type := mkDefinition {
  Actions : list Action;
  Principal : TaskPrincipal;
  RegistrationInfo : TaskRegistrationInfo;
  Settings : TaskSettings;
  Triggers : list Trigger
}.

(** [var newDef Definition]: the zero value of the struct the sources call
    [Definition]. *)
Definition zeroPeriod : Period := mkPeriod 0 0 0.

Definition zeroDefinition : TaskDefinition :=
  mkDefinition []
    (mkPrincipal "" "" TASK_LOGON_NONE TASK_RUNLEVEL_LUA)
    (mkRegistrationInfo "" 0 "")
    (mkTaskSettings false false TASK_COMPATIBILITY_AT false false false
       (mkIdleSettings zeroPeriod zeroPeriod) TASK_INSTANCES_PARALLEL 0 0
       false false false false false false zeroPeriod false)
    [].

(** Modelled from the spec: a registered task is a snapshot of its path, its
    enabled state and its parsed definition. *)
Record RegisteredTask : Type := mkRegisteredTask {
  rt_Name : string;
  rt_Path : string;
  rt_Enabled : bool;
  rt_Definition : TaskDefinition
}.

Definition zeroRegisteredTask : RegisteredTask :=
  mkRegisteredTask "" "" false zeroDefinition.

(** [TaskFolder]: [SubFolders] holds pointers ([[]*TaskFolder]); a pointer is
    an index into the store of folder nodes. *)
Record TaskFolder : Type := mkTaskFolder {
  Name : string;
  Path : string;
  RegisteredTasks : list RegisteredTask;
  SubFolders : list nat
}.

Definition zeroTaskFolder : TaskFolder := mkTaskFolder "" "" [] [].

(** The store of the [TaskFolder] nodes reached through pointers. *)
Abbreviation Store := (list TaskFolder).

(** ** The native objects *)

(** A registered-task object of the service, with the two properties read by
    name. *)
Record TaskObj : Type := mkTaskObj {
  to_Name : string;
  to_Path : string
}.

(** A task-definition object of the service, as [NewTask] hands it out. *)
Inductive DefObj : Type := mkDefObj (id : nat).

(** A folder object of the service: its [Name] and [Path] properties and what
    it answers to [GetTasks] and to [GetFolders], an error or a collection.
    The hierarchy of the service is a finite tree, and so is this type. *)
#[warnings="-register-all"]
Inductive FolderObj : Type :=
  mkFolderObj (name path : string)
              (tasks : error + list TaskObj)
              (folders : error + list FolderObj).

Definition fo_Name (f : FolderObj) : string :=
  let 'mkFolderObj n _ _ _ := f in n.
Definition fo_Path (f : FolderObj) : string :=
  let 'mkFolderObj _ p _ _ := f in p.
Definition fo_GetTasks (f : FolderObj) : error + list TaskObj :=
  let 'mkFolderObj _ _ ts _ := f in ts.
Definition fo_GetFolders (f : FolderObj) : error + list FolderObj :=
  let 'mkFolderObj _ _ _ fs := f in fs.

(** The [ITaskService] object behind [taskServiceObj]. *)
Inductive ServiceObj : Type := mkServiceObj (id : nat).

Record TaskService : Type := mkTaskService {
  taskServiceObj : option ServiceObj;
  rootFolderObj : option FolderObj;
  isInitialized : bool;
  isConnected : bool;
  connectedDomain : string;
  connectedComputerName : string;
  connectedUser : string
}.

(** ** The calls on the native bridge *)

(** One constructor per method the code invokes, with the arguments it
    passes; [Parse] and [Fill] stand for the property reads of
    [parseRegisteredTask] and the property writes of [fillDefinitionObj].
    The deferred [Release] of the handles acquired inside an operation is
    not recorded; the releases of [Disconnect] are. *)
(** The objects whose properties are read by name: a folder, a task and the
    two collections of a folder. *)
Inductive Obj : Type :=
| OFolder (path : string)
| OTask (path : string)
| OTaskCollection (folder : string)
| OFolderCollection (folder : string).

Inductive Call : Type :=
| Service_GetFolder (path : string)
| Service_NewTask (flags : Z)
| Root_GetTask (path : string)
| Root_CreateFolder (path sddl : string)
| Root_DeleteTask (path : string) (flags : Z)
| Root_DeleteFolder (path : string) (flags : Z)
| Root_RegisterTaskDefinition
    (path : string) (def : DefObj) (flags : TaskCreationFlags)
    (username password : string) (logonType : TaskLogonType) (sddl : string)
| Folder_GetTasks (folder : string) (flags : Z)
| Folder_GetFolders (folder : string) (flags : Z)
| Get_Property (object : Obj) (property : string)
| Parse (task : TaskObj)
| Fill (def : TaskDefinition) (obj : DefObj)
| Release_Service (s : ServiceObj)
| Release_Folder (f : FolderObj)
| CoUninitialize.

Abbreviation Trace := (list Call).

(** What the service answers.  Every answer may depend on the calls made so
    far.  [parseRegisteredTask] and [fillDefinitionObj] are functions of the
    package that are not among the sources: their results are answers of the
    same kind. *)
Record Bridge : Type := mkBridge {
  answer_GetFolder : Trace -> string -> error + FolderObj;
  answer_NewTask : Trace -> error + DefObj;
  answer_GetTask : Trace -> string -> error + TaskObj;
  answer_CreateFolder : Trace -> string -> option error;
  answer_DeleteTask : Trace -> string -> option error;
  answer_DeleteFolder : Trace -> string -> option error;
  answer_RegisterTaskDefinition :
    Trace -> string -> DefObj -> TaskCreationFlags -> string -> string ->
    TaskLogonType -> error + TaskObj;
  answer_parseRegisteredTask :
    Trace -> TaskObj -> RegisteredTask * string * option error;
  answer_fillDefinitionObj : Trace -> TaskDefinition -> DefObj -> option error
}.

(** ** Running the code against the bridge *)

(** An operation either returns or panics (a Go run-time fault). *)
Inductive Outcome (A : Type) : Type :=
| Returns (a : A)
| Panics (msg : string).
Arguments Returns {A} a.
Arguments Panics {A} msg.

(** An operation starts from the trace of the calls made so far and yields
    its outcome together with the trace extended by the calls it made. *)
Definition M (A : Type) : Type := Trace -> Outcome A * Trace.

Definition ret {A : Type} (a : A) : M A := fun h => (Returns a, h).

Definition bind {A B : Type} (m : M A) (k : A -> M B) : M B :=
  fun h =>
    match m h with
    | (Returns a, h') => k a h'
    | (Panics msg, h') => (Panics msg, h')
    end.

Definition panic {A : Type} (msg : string) : M A := fun h => (Panics msg, h).

(** A call on the bridge: answered from the calls before it, then recorded. *)
Definition invoke {A : Type} (c : Call) (answer : Trace -> A) : M A :=
  fun h => (Returns (answer h), h ++ [c]).

Declare Scope go_scope.
Delimit Scope go_scope with go.
Notation "x <- m ;; k" := (bind m (fun x => k))
  (at level 100, m at next level, right associativity) : go_scope.
Local Open Scope go_scope.

(** A method call through a [nil] handle faults. *)
Definition deref {A : Type} (p : option A) : M A :=
  match p with
  | Some a => ret a
  | None => panic "invalid memory address or nil pointer dereference"
  end.

(** [path[0]]: the first byte; indexing the empty string faults. *)
Definition index0 (path : string) : M ascii :=
  match path with
  | String c _ => ret c
  | EmptyString => panic "index out of range [0] with length 0"
  end.

Definition backslash : ascii := "\"%char.

(** [strings.LastIndex(s, sep)] for a separator of one byte: the index of its
    last occurrence, or [-1]. *)
Fixpoint LastIndex (s : string) (sep : ascii) : Z :=
  match s with
  | EmptyString => -1
  | String c rest =>
      let r := LastIndex rest sep in
      if 0 <=? r then 1 + r
      else if Ascii.eqb c sep then 0 else -1
  end.

(** [s[:n]]. *)
Definition slice_to (s : string) (n : Z) : string :=
  String.substring 0 (Z.to_nat n) s.

(** [oleutil.ForEach(collection, visitor)] over the items of a collection:
    the visitor is applied in order and the first error stops the walk.  The
    variables the visitor closes over and updates are threaded as [st]. *)
Definition ForEach {A S : Type} (visitor : A -> S -> M (option error * S))
  : list A -> S -> M (option error * S) :=
  fix go (items : list A) (st : S) : M (option error * S) :=
    match items with
    | [] => ret (None, st)
    | v :: rest =>
        r <- visitor v st ;;
        match r with
        | (Some err, st') => ret (Some err, st')
        | (None, st') => go rest st'
        end
    end.

(** Modelled from the spec: [validateDefinition] is not among the sources.  It
    fails with [ErrNoActions] if Actions is empty and with
    [ErrInvalidPrincipal] if both UserID and GroupID are set. *)
Definition validateDefinition (def : TaskDefinition) : option error :=
  match Actions def with
  | [] => Some ErrNoActions
  | _ :: _ =>
      if negb (UserID (Principal def) =? "")%string
         && negb (GroupID (Principal def) =? "")%string
      then Some ErrInvalidPrincipal
      else None
  end.

(** A call whose answer is read off the object it is made on. *)
Definition record (c : Call) : M unit := invoke c (fun _ => tt).

(** ** src/manage.go: the operations *)

Section Manage.

(** The service the connection talks to. *)
Variable B : Bridge.

(** [manage.go] is compiled with [errors.go]. *)
Definition getTaskSchedulerError (err : error) : option error :=
  Some (ErrorsGo.getTaskSchedulerError (Some err)).

(** [parseRegisteredTask(task)] returns the task, its path and an error. *)
Definition parseRegisteredTask (task : TaskObj)
  : M (RegisteredTask * string * option error) :=
  invoke (Parse task) (fun h => answer_parseRegisteredTask B h task).

(** [fillDefinitionObj(def, obj)]. *)
Definition fillDefinitionObj (def : TaskDefinition) (obj : DefObj)
  : M (option error) :=
  invoke (Fill def obj) (fun h => answer_fillDefinitionObj B h def obj).

Definition isRoot (c : ascii) : bool := Ascii.eqb c backslash.

(** [Disconnect]. *)
Definition Disconnect (t : TaskService) : M TaskService :=
  _ <- (if isConnected t then
          s <- deref (taskServiceObj t) ;;
          _ <- record (Release_Service s) ;;
          r <- deref (rootFolderObj t) ;;
          record (Release_Folder r)
        else ret tt) ;;
  _ <- (if isInitialized t then record CoUninitialize else ret tt) ;;
  ret (mkTaskService (taskServiceObj t) (rootFolderObj t) false false
         (connectedDomain t) (connectedComputerName t) (connectedUser t)).

(** [GetRegisteredTask]. *)
Definition GetRegisteredTask (t : TaskService) (path : string)
  : M (RegisteredTask * option error) :=
  c <- index0 path ;;
  if negb (isRoot c) then ret (zeroRegisteredTask, Some ErrInvalidPath)
  else
    _ <- deref (rootFolderObj t) ;;
    r <- invoke (Root_GetTask path) (fun h => answer_GetTask B h path) ;;
    match r with
    | inl err =>
        ret (zeroRegisteredTask,
             Some (Errorf "error getting registered task %s: %v"
                     [opString path; opError (getTaskSchedulerError err)]))
    | inr taskObj =>
        p <- parseRegisteredTask taskObj ;;
        match p with
        | (_, _, Some err) =>
            ret (zeroRegisteredTask,
                 Some (Errorf "error parsing registered task %s: %v"
                         [opString path; opError (Some err)]))
        | (task, _, None) => ret (task, None)
        end
    end.

(** The visitor of the task collections of [GetTaskFolder]: the parsed task
    is appended to the [RegisteredTasks] of the folder behind [folder]. *)
Definition appendRegisteredTask (folder : nat) (task : TaskObj) (st : Store)
  : M (option error * Store) :=
  p <- parseRegisteredTask task ;;
  match p with
  | (_, path, Some err) =>
      ret (Some (Errorf "error parsing registered task %s: %v"
                   [opString path; opError (Some err)]), st)
  | (registeredTask, _, None) =>
      ret (None,
           alter (fun f => mkTaskFolder (Name f) (Path f)
                             (RegisteredTasks f ++ [registeredTask])
                             (SubFolders f)) folder st)
  end.

(** [initEnumTaskFolders(parentFolder)], the visitor of the folder
    collections of [GetTaskFolder].  The new node is allocated in the
    store; its pointer is appended to the parent before the walk descends
    and fills the node through that same pointer. *)
Fixpoint initEnumTaskFolders (parentFolder : nat) (taskFolder : FolderObj)
  (st : Store) {struct taskFolder} : M (option error * Store) :=
  name <- invoke (Get_Property (OFolder (fo_Path taskFolder)) "Name")
            (fun _ => fo_Name taskFolder) ;;
  path <- invoke (Get_Property (OFolder (fo_Path taskFolder)) "Path")
            (fun _ => fo_Path taskFolder) ;;
  _ <- record (Folder_GetTasks (fo_Path taskFolder) TASK_ENUM_HIDDEN) ;;
  match fo_GetTasks taskFolder with
  | inl err =>
      ret (Some (Errorf "error getting tasks of folder %s: %v"
                   [opString path; opError (getTaskSchedulerError err)]), st)
  | inr taskCollection =>
      let taskSubFolder := length st in
      let st := st ++ [mkTaskFolder name path [] []] in
      r <- ForEach (appendRegisteredTask taskSubFolder) taskCollection st ;;
      match r with
      | (Some err, st) => ret (Some err, st)
      | (None, st) =>
          let st :=
            alter (fun f => mkTaskFolder (Name f) (Path f)
                              (RegisteredTasks f)
                              (SubFolders f ++ [taskSubFolder]))
                  parentFolder st in
          _ <- record (Folder_GetFolders (fo_Path taskFolder) 0) ;;
          match fo_GetFolders taskFolder with
          | inl err =>
              ret (Some (Errorf "error getting subfolders of folder %s: %v"
                           [opString path;
                            opError (getTaskSchedulerError err)]), st)
          | inr taskFolderList =>
              ForEach (initEnumTaskFolders taskSubFolder) taskFolderList st
          end
      end
  end.

(** [GetTaskFolder].  [topFolder] is the node at pointer 0 of a fresh store;
    the value returned is that node, and the store is returned with it so
    that its [SubFolders] pointers can be followed. *)
Definition GetTaskFolder (t : TaskService) (path : string)
  : M (TaskFolder * Store * option error) :=
  c <- index0 path ;;
  if negb (isRoot c) then ret (zeroTaskFolder, [], Some ErrInvalidPath)
  else
    top <- (if (path =? "\")%string then ret (inr (rootFolderObj t))
            else
              _ <- deref (taskServiceObj t) ;;
              r <- invoke (Service_GetFolder path)
                     (fun h => answer_GetFolder B h path) ;;
              match r with
              | inl err =>
                  ret (inl (Errorf "error getting folder %s: %v"
                              [opString path;
                               opError (getTaskSchedulerError err)]))
              | inr topFolder => ret (inr (Some topFolder))
              end) ;;
    match top with
    | inl err => ret (zeroTaskFolder, [], Some err)
    | inr topFolderObj =>
        obj <- deref topFolderObj ;;
        _ <- record (Folder_GetTasks (fo_Path obj) TASK_ENUM_HIDDEN) ;;
        match fo_GetTasks obj with
        | inl err =>
            ret (zeroTaskFolder, [],
                 Some (Errorf "error getting tasks of folder %s: %v"
                         [opString path;
                          opError (getTaskSchedulerError err)]))
        | inr topFolderTaskCollection =>
            let st := [mkTaskFolder "" "\" [] []] in
            r <- ForEach (appendRegisteredTask 0%nat)
                   topFolderTaskCollection st ;;
            match r with
            | (Some err, _) => ret (zeroTaskFolder, [], Some err)
            | (None, st) =>
                _ <- record (Folder_GetFolders (fo_Path obj) 0) ;;
                match fo_GetFolders obj with
                | inl err =>
                    ret (zeroTaskFolder, [],
                         Some (Errorf
                                 "error getting subfolders of folder %s: %v"
                                 [opString path;
                                  opError (getTaskSchedulerError err)]))
                | inr taskFolderList =>
                    r <- ForEach (initEnumTaskFolders 0%nat)
                           taskFolderList st ;;
                    match r with
                    | (Some err, _) => ret (zeroTaskFolder, [], Some err)
                    | (None, st) =>
                        ret (default zeroTaskFolder (st !! 0%nat), st, None)
                    end
                end
            end
        end
    end.

(** [GetTaskFolders]. *)
Definition GetTaskFolders (t : TaskService)
  : M (TaskFolder * Store * option error) :=
  GetTaskFolder t "\".

(** [NewTaskDefinition]; [now] is the reading of [time.Now()]. *)
Definition NewTaskDefinition (t : TaskService) (now : Z) : TaskDefinition :=
  mkDefinition
    []
    (mkPrincipal "" "" TASK_LOGON_INTERACTIVE_TOKEN TASK_RUNLEVEL_LUA)
    (mkRegistrationInfo (connectedDomain t +:+ "\" +:+ connectedUser t)
       now "")
    (mkTaskSettings
       true                              (* AllowDemandStart *)
       true                              (* AllowHardTerminate *)
       TASK_COMPATIBILITY_V2             (* Compatibility *)
       true                              (* DontStartOnBatteries *)
       true                              (* Enabled *)
       false                             (* Hidden *)
       (mkIdleSettings (NewHMS 0 10 0) (NewHMS 1 0 0))
       TASK_INSTANCES_IGNORE_NEW         (* MultipleInstances *)
       7                                 (* Priority *)
       0                                 (* RestartCount *)
       false                             (* RestartOnIdle *)
       false                             (* RunOnlyIfIdle *)
       false                             (* RunOnlyIfNetworkAvailable *)
       false                             (* StartWhenAvailable *)
       true                              (* StopIfGoingOnBatteries *)
       true                              (* StopOnIdleEnd *)
       (NewHMS 72 0 0)                   (* TimeLimit *)
       false)                            (* WakeToRun *)
    [].

(** [registeredTaskExist]. *)
Definition registeredTaskExist (t : TaskService) (path : string) : M bool :=
  _ <- deref (rootFolderObj t) ;;
  r <- invoke (Root_GetTask path) (fun h => answer_GetTask B h path) ;;
  match r with
  | inl _ => ret false
  | inr _ => ret true
  end.

(** [taskFolderExist]. *)
Definition taskFolderExist (t : TaskService) (path : string) : M bool :=
  _ <- deref (taskServiceObj t) ;;
  r <- invoke (Service_GetFolder path) (fun h => answer_GetFolder B h path) ;;
  match r with
  | inl _ => ret false
  | inr _ => ret true
  end.

(** The definition [modifyTask] marshals: [UserID] defaults to the
    connected identity when neither [UserID] nor [GroupID] is set. *)
Definition withDefaultUserID (t : TaskService) (def : TaskDefinition)
  : TaskDefinition :=
  if (UserID (Principal def) =? "")%string
     && (GroupID (Principal def) =? "")%string
  then mkDefinition (Actions def)
         (mkPrincipal (connectedDomain t +:+ "\" +:+ connectedUser t)
            (GroupID (Principal def)) (LogonType (Principal def))
            (RunLevel (Principal def)))
         (RegistrationInfo def) (Settings def) (Triggers def)
  else def.

(** [modifyTask]: the registered task object, or the error. *)
Definition modifyTask (t : TaskService) (path : string)
  (newTaskDef : TaskDefinition) (username password : string)
  (logonType : TaskLogonType) (flags : TaskCreationFlags)
  : M (error + TaskObj) :=
  let newTaskDef := withDefaultUserID t newTaskDef in
  _ <- deref (taskServiceObj t) ;;
  res <- invoke (Service_NewTask 0) (fun h => answer_NewTask B h) ;;
  match res with
  | inl err =>
      ret (inl (Errorf "error creating new task: %v"
                  [opError (getTaskSchedulerError err)]))
  | inr newTaskDefObj =>
      err <- fillDefinitionObj newTaskDef newTaskDefObj ;;
      match err with
      | Some err =>
          ret (inl (Errorf "error filling ITaskDefinition: %v"
                      [opError (Some err)]))
      | None =>
          _ <- deref (rootFolderObj t) ;;
          r <- invoke (Root_RegisterTaskDefinition path newTaskDefObj flags
                         username password logonType "")
                 (fun h => answer_RegisterTaskDefinition B h path
                             newTaskDefObj flags username password
                             logonType) ;;
          match r with
          | inl err =>
              ret (inl (Errorf "error registering task: %v"
                          [opError (getTaskSchedulerError err)]))
          | inr newTaskObj => ret (inr newTaskObj)
          end
      end
  end.

(** [CreateTaskEx]. *)
Definition CreateTaskEx (t : TaskService) (path : string)
  (newTaskDef : TaskDefinition) (username password : string)
  (logonType : TaskLogonType) (overwrite : bool)
  : M (RegisteredTask * bool * option error) :=
  c <- index0 path ;;
  if negb (isRoot c) then ret (zeroRegisteredTask, false, Some ErrInvalidPath)
  else
    match validateDefinition newTaskDef with
    | Some err => ret (zeroRegisteredTask, false, Some err)
    | None =>
        let nameIndex := LastIndex path backslash in
        let folderPath := slice_to path nameIndex in
        let register : M (RegisteredTask * bool * option error) :=
          r <- modifyTask t path newTaskDef username password logonType
                 TASK_CREATE ;;
          match r with
          | inl err =>
              ret (zeroRegisteredTask, false,
                   Some (Errorf "error creating registered task %s: %v"
                           [opString path; opError (Some err)]))
          | inr newTaskObj =>
              p <- parseRegisteredTask newTaskObj ;;
              match p with
              | (_, _, Some err) =>
                  ret (zeroRegisteredTask, false,
                       Some (Errorf "error parsing registered task %s: %v"
                               [opString path; opError (Some err)]))
              | (newTask, _, None) => ret (newTask, true, None)
              end
          end in
        folderExists <- taskFolderExist t folderPath ;;
        if negb folderExists then
          _ <- deref (rootFolderObj t) ;;
          e <- invoke (Root_CreateFolder folderPath "")
                 (fun h => answer_CreateFolder B h folderPath) ;;
          match e with
          | Some err =>
              ret (zeroRegisteredTask, false,
                   Some (Errorf "error creating folder %s: %v"
                           [opString path;
                            opError (getTaskSchedulerError err)]))
          | None => register
          end
        else
          taskExists <- registeredTaskExist t path ;;
          if taskExists then
            if negb overwrite then
              r <- GetRegisteredTask t path ;;
              match r with
              | (_, Some err) => ret (zeroRegisteredTask, false, Some err)
              | (task, None) => ret (task, false, None)
              end
            else
              _ <- deref (rootFolderObj t) ;;
              e <- invoke (Root_DeleteTask path 0)
                     (fun h => answer_DeleteTask B h path) ;;
              match e with
              | Some err =>
                  ret (zeroRegisteredTask, false,
                       Some (Errorf "error deleting registered task %s: %v"
                               [opString path;
                                opError (getTaskSchedulerError err)]))
              | None => register
              end
          else register
    end.

(** [CreateTask]. *)
Definition CreateTask (t : TaskService) (path : string)
  (newTaskDef : TaskDefinition) (overwrite : bool)
  : M (RegisteredTask * bool * option error) :=
  CreateTaskEx t path newTaskDef "" "" (LogonType (Principal newTaskDef))
    overwrite.

(** [UpdateTaskEx]. *)
Definition UpdateTaskEx (t : TaskService) (path : string)
  (newTaskDef : TaskDefinition) (username password : string)
  (logonType : TaskLogonType) : M (RegisteredTask * option error) :=
  c <- index0 path ;;
  if negb (isRoot c) then ret (zeroRegisteredTask, Some ErrInvalidPath)
  else
    match validateDefinition newTaskDef with
    | Some err => ret (zeroRegisteredTask, Some err)
    | None =>
        r <- modifyTask t path newTaskDef username password logonType
               TASK_UPDATE ;;
        match r with
        | inl err =>
            ret (zeroRegisteredTask,
                 Some (Errorf "error updating %s task: %v"
                         [opString path; opError (Some err)]))
        | inr newTaskObj =>
            p <- parseRegisteredTask newTaskObj ;;
            match p with
            | (_, _, Some err) =>
                ret (zeroRegisteredTask,
                     Some (Errorf "error parsing registered task %s: %v"
                             [opString path; opError (Some err)]))
            | (newTask, _, None) => ret (newTask, None)
            end
        end
    end.

(** [UpdateTask]. *)
Definition UpdateTask (t : TaskService) (path : string)
  (newTaskDef : TaskDefinition) : M (RegisteredTask * option error) :=
  UpdateTaskEx t path newTaskDef "" "" (LogonType (Principal newTaskDef)).

(** [DeleteTask]. *)
Definition DeleteTask (t : TaskService) (path : string) : M (option error) :=
  c <- index0 path ;;
  if negb (isRoot c) then ret (Some ErrInvalidPath)
  else
    _ <- deref (rootFolderObj t) ;;
    e <- invoke (Root_DeleteTask path 0)
           (fun h => answer_DeleteTask B h path) ;;
    match e with
    | Some err =>
        ret (Some (Errorf "error deleting task %s: %v"
                     [opString path; opError (getTaskSchedulerError err)]))
    | None => ret None
    end.

(** [deleteAllTasks], the visitor of the task collections of
    [DeleteFolder]. *)
Definition deleteAllTasks (t : TaskService) (taskObj : TaskObj) (st : unit)
  : M (option error * unit) :=
  name <- invoke (Get_Property (OTask (to_Path taskObj)) "Path")
            (fun _ => to_Path taskObj) ;;
  e <- DeleteTask t name ;;
  ret (e, st).

(** [deleteTasksRecursively], the visitor of the folder collections of
    [DeleteFolder]; [path] is the argument of [DeleteFolder], which the
    visitor closes over. *)
Fixpoint deleteTasksRecursively (t : TaskService) (path : string)
  (folderObj : FolderObj) (st : unit) {struct folderObj}
  : M (option error * unit) :=
  _ <- record (Folder_GetTasks (fo_Path folderObj) TASK_ENUM_HIDDEN) ;;
  match fo_GetTasks folderObj with
  | inl err =>
      ret (Some (Errorf "error getting tasks of folder: %v"
                   [opError (getTaskSchedulerError err)]), st)
  | inr tasks =>
      r <- ForEach (deleteAllTasks t) tasks st ;;
      match r with
      | (Some err, st) => ret (Some err, st)
      | (None, st) =>
          _ <- record (Folder_GetFolders (fo_Path folderObj)
                         TASK_ENUM_HIDDEN) ;;
          match fo_GetFolders folderObj with
          | inl err =>
              ret (Some (Errorf "error getting subfolders: %v"
                           [opError (getTaskSchedulerError err)]), st)
          | inr subFolders =>
              r <- ForEach (deleteTasksRecursively t path) subFolders st ;;
              match r with
              | (Some err, st) => ret (Some err, st)
              | (None, st) =>
                  currentFolderPath <-
                    invoke (Get_Property (OFolder (fo_Path folderObj))
                              "Path")
                      (fun _ => fo_Path folderObj) ;;
                  _ <- deref (rootFolderObj t) ;;
                  e <- invoke (Root_DeleteFolder currentFolderPath 0)
                         (fun h => answer_DeleteFolder B h
                                     currentFolderPath) ;;
                  match e with
                  | Some err =>
                      ret (Some (Errorf "error deleting task folder %s: %v"
                                   [opString path;
                                    opError (getTaskSchedulerError err)]),
                           st)
                  | None => ret (None, st)
                  end
              end
          end
      end
  end.

(** [!deleteRecursively && Count > 0]: the count is read only in the
    non-recursive mode. *)
Definition nonEmpty {A : Type} (deleteRecursively : bool) (collection : Obj)
  (items : list A) : M bool :=
  if negb deleteRecursively then
    n <- invoke (Get_Property collection "Count")
           (fun _ => Z.of_nat (length items)) ;;
    ret (0 <? n)
  else ret false.

(** [DeleteFolder]. *)
Definition DeleteFolder (t : TaskService) (path : string)
  (deleteRecursively : bool) : M (bool * option error) :=
  c <- index0 path ;;
  if negb (isRoot c) then ret (false, Some ErrInvalidPath)
  else
    _ <- deref (taskServiceObj t) ;;
    r <- invoke (Service_GetFolder path)
           (fun h => answer_GetFolder B h path) ;;
    match r with
    | inl err =>
        ret (false, Some (Errorf "error getting folder: %v"
                            [opError (getTaskSchedulerError err)]))
    | inr taskFolderObj =>
        _ <- record (Folder_GetTasks (fo_Path taskFolderObj)
                       TASK_ENUM_HIDDEN) ;;
        match fo_GetTasks taskFolderObj with
        | inl err =>
            ret (false, Some (Errorf "error getting tasks of folder: %v"
                                [opError (getTaskSchedulerError err)]))
        | inr taskCollection =>
            hasTasks <- nonEmpty deleteRecursively
                          (OTaskCollection (fo_Path taskFolderObj))
                          taskCollection ;;
            if hasTasks then ret (false, None)
            else
              _ <- record (Folder_GetFolders (fo_Path taskFolderObj)
                             TASK_ENUM_HIDDEN) ;;
              match fo_GetFolders taskFolderObj with
              | inl err =>
                  ret (false,
                       Some (Errorf "error getting the subfolders: %v"
                               [opError (getTaskSchedulerError err)]))
              | inr folderCollection =>
                  hasFolders <- nonEmpty deleteRecursively
                                  (OFolderCollection (fo_Path taskFolderObj))
                                  folderCollection ;;
                  if hasFolders then ret (false, None)
                  else
                    let deleteParent : M (bool * option error) :=
                      _ <- deref (rootFolderObj t) ;;
                      e <- invoke (Root_DeleteFolder path 0)
                             (fun h => answer_DeleteFolder B h path) ;;
                      match e with
                      | Some err =>
                          ret (false,
                               Some (Errorf
                                       "error deleting task folder %s: %v"
                                       [opString path;
                                        opError
                                          (getTaskSchedulerError err)]))
                      | None => ret (true, None)
                      end in
                    if deleteRecursively then
                      r <- ForEach (deleteAllTasks t) taskCollection tt ;;
                      match r with
                      | (Some err, _) => ret (false, Some err)
                      | (None, _) =>
                          r <- ForEach (deleteTasksRecursively t path)
                                 folderCollection tt ;;
                          match r with
                          | (Some err, _) => ret (false, Some err)
                          | (None, _) => deleteParent
                          end
                      end
                    else deleteParent
              end
        end
    end.

End Manage.

(** ** The vocabulary of the properties *)

(** A path that begins with the root separator. *)
Definition startsWithRoot (path : string) : bool :=
  match path with
  | String c _ => isRoot c
  | EmptyString => false
  end.

(** The connection holds both handles, as after [ConnectWithOptions]. *)
Definition hasHandles (t : TaskService) : Prop :=
  taskServiceObj t <> None /\ rootFolderObj t <> None.

(** The states [ConnectWithOptions] and [Disconnect] leave behind: a
    connection flagged connected holds both handles. *)
Definition connectedHoldsHandles (t : TaskService) : Prop :=
  isConnected t = true -> hasHandles t.

(** The calls that change the state of the service. *)
Definition isMutation (c : Call) : bool :=
  match c with
  | Root_CreateFolder _ _
  | Root_DeleteTask _ _
  | Root_DeleteFolder _ _
  | Root_RegisterTaskDefinition _ _ _ _ _ _ _ => true
  | _ => false
  end.

(** The state-changing calls of a trace, in order. *)
Definition mutations (tr : Trace) : Trace := List.filter isMutation tr.

Definition tasksOf (f : FolderObj) : list TaskObj :=
  match fo_GetTasks f with inr ts => ts | inl _ => [] end.

Definition foldersOf (f : FolderObj) : list FolderObj :=
  match fo_GetFolders f with inr fs => fs | inl _ => [] end.

(** The tree a [TaskFolder] value stands for once its pointers are followed
    in a store; [depth] bounds the number of levels read. *)
#[warnings="-register-all"]
Inductive TaskFolderTree : Type :=
  Folder (name path : string) (tasks : list RegisteredTask)
         (subFolders : list TaskFolderTree).

Fixpoint treeOf (depth : nat) (st : Store) (f : TaskFolder)
  : option TaskFolderTree :=
  match depth with
  | O => None
  | S d =>
      match mapM (fun p => st !! p ≫= treeOf d st) (SubFolders f) with
      | Some subs => Some (Folder (Name f) (Path f) (RegisteredTasks f) subs)
      | None => None
      end
  end.

(** Every folder of the hierarchy answers [GetTasks] and [GetFolders] with a
    collection, and every task of it satisfies [P]. *)
Fixpoint allRead (P : TaskObj -> Prop) (f : FolderObj) : Prop :=
  let 'mkFolderObj _ _ ts fs := f in
  match ts with
  | inl _ => False
  | inr tasks => Forall P tasks
  end /\
  match fs with
  | inl _ => False
  | inr folders =>
      (fix all (l : list FolderObj) : Prop :=
         match l with
         | [] => True
         | g :: rest => allRead P g /\ all rest
         end) folders
  end.


(** The hierarchy can be read. *)
Definition enumerable (f : FolderObj) : Prop := allRead (fun _ => True) f.

(** The tree that mirrors a hierarchy: every folder with its name, its path,
    its tasks parsed by [parse], and the mirrors of its subfolders, in the
    order of the collections. *)
Fixpoint mirror (parse : TaskObj -> RegisteredTask) (f : FolderObj)
  : TaskFolderTree :=
  let 'mkFolderObj name path ts fs := f in
  Folder name path
    (List.map parse (match ts with inr tasks => tasks | inl _ => [] end))
    (match fs with
     | inl _ => []
     | inr folders =>
         (fix each (l : list FolderObj) : list TaskFolderTree :=
            match l with
            | [] => []
            | g :: rest => mirror parse g :: each rest
            end) folders
     end).

(** The node at pointer 0 has the empty name and the path of the root
    separator. *)
Definition topIsRoot (st : Store) : Prop :=
  exists tasks subs, st !! 0%nat = Some (mkTaskFolder "" "\" tasks subs).

(** A visitor keeps an invariant of the store. *)
Definition keeps (I : Store -> Prop) (m : Store -> M (option error * Store))
  : Prop :=
  forall st h o st' h',
    I st -> m st h = (Returns (o, st'), h') -> I st'.

(** In every store that holds [region] from index [base] on, following the
    pointer [ptr] to any sufficient depth reads [tree]. *)
Definition holdsTree (base : nat) (region : Store) (ptr : nat)
  (tree : TaskFolderTree) : Prop :=
  exists d0, forall pre post d,
    length pre = base -> (d0 <= d)%nat ->
    exists f, (pre ++ region ++ post) !! ptr = Some f /\
              treeOf d (pre ++ region ++ post) f = Some tree.

(** What the visitor does for one folder, whatever the store it starts
    from: the pointer to the new node is appended to the parent, and the
    nodes appended to the store hold the mirror of the folder behind that
    pointer. *)
Definition enumerates (B : Bridge) (parse : TaskObj -> RegisteredTask)
  (g : FolderObj) : Prop :=
  forall (pre post : Store) (pname ppath : string)
         (ptasks : list RegisteredTask) (psubs : list nat) (h : Trace),
  exists new calls,
    initEnumTaskFolders B (length pre) g
      (pre ++ mkTaskFolder pname ppath ptasks psubs :: post) h
    = (Returns (None,
                pre ++ mkTaskFolder pname ppath ptasks
                         (psubs ++ [length (pre ++ mkTaskFolder pname ppath
                                              ptasks psubs :: post)])
                    :: post ++ new),
       h ++ calls)
    /\ holdsTree (length (pre ++ mkTaskFolder pname ppath ptasks psubs
                            :: post))
         new
         (length (pre ++ mkTaskFolder pname ppath ptasks psubs :: post))
         (mirror parse g).


(** ** A service with the hierarchy [\A\B], one task in [A] and one in [B] *)

Definition taskA : TaskObj := mkTaskObj "TaskA" "\A\TaskA".
Definition taskB : TaskObj := mkTaskObj "TaskB" "\A\B\TaskB".

Definition folderB : FolderObj :=
  mkFolderObj "B" "\A\B" (inr [taskB]) (inr []).
Definition folderA : FolderObj :=
  mkFolderObj "A" "\A" (inr [taskA]) (inr [folderB]).
Definition folderRoot : FolderObj :=
  mkFolderObj "\" "\" (inr []) (inr [folderA]).

Definition notFound : error := OleError 0x80070002 "" None.

(** What the parse of a task object yields in this service. *)
Definition parsed (task : TaskObj) : RegisteredTask :=
  mkRegisteredTask (to_Name task) (to_Path task) true zeroDefinition.

(** The service: it finds the three folders and the two tasks by path,
    accepts every mutation, and hands out one definition object. *)
Definition mockBridge : Bridge :=
  mkBridge
    (fun _ path =>
       if (path =? "\")%string then inr folderRoot
       else if (path =? "\A")%string then inr folderA
       else if (path =? "\A\B")%string then inr folderB
       else inl notFound)
    (fun _ => inr (mkDefObj 1))
    (fun _ path =>
       if (path =? "\A\TaskA")%string then inr taskA
       else if (path =? "\A\B\TaskB")%string then inr taskB
       else inl notFound)
    (fun _ _ => None)
    (fun _ _ => None)
    (fun _ _ => None)
    (fun _ path _ _ _ _ _ => inr (mkTaskObj "" path))
    (fun _ task => (parsed task, to_Path task, None))
    (fun _ _ _ => None).

(** A connection to it, as [ConnectWithOptions] leaves it. *)
Definition mockService : TaskService :=
  mkTaskService (Some (mkServiceObj 1)) (Some folderRoot) true true
    "WORKGROUP" "HOST" "alice".

(** A definition that passes validation. *)
Definition oneAction : TaskDefinition :=
  mkDefinition [mkAction "run"] (Principal zeroDefinition)
    (RegistrationInfo zeroDefinition) (Settings zeroDefinition) [].

(** ** src/manage.go: the flat enumeration *)

Section Enumeration.

Variable B : Bridge.

(** The visitor of the task collections of [GetRegisteredTasks]: the parsed
    task is appended to [registeredTasks], the list the closures share. *)
Definition collectRegisteredTask (task : TaskObj)
  (registeredTasks : list RegisteredTask)
  : M (option error * list RegisteredTask) :=
  p <- parseRegisteredTask B task ;;
  match p with
  | (_, path, Some err) =>
      ret (Some (Errorf "error parsing registered task %s: %v"
                   [opString path; opError (Some err)]), registeredTasks)
  | (registeredTask, _, None) =>
      ret (None, registeredTasks ++ [registeredTask])
  end.

(** [enumTaskFolders], the visitor of the folder collections of
    [GetRegisteredTasks]. *)
Fixpoint enumTaskFolders (taskFolder : FolderObj)
  (registeredTasks : list RegisteredTask) {struct taskFolder}
  : M (option error * list RegisteredTask) :=
  _ <- record (Folder_GetTasks (fo_Path taskFolder) TASK_ENUM_HIDDEN) ;;
  match fo_GetTasks taskFolder with
  | inl err =>
      ret (Some (Errorf "error getting tasks of folder: %v"
                   [opError (getTaskSchedulerError err)]), registeredTasks)
  | inr taskCollection =>
      r <- ForEach collectRegisteredTask taskCollection registeredTasks ;;
      match r with
      | (Some err, registeredTasks) => ret (Some err, registeredTasks)
      | (None, registeredTasks) =>
          _ <- record (Folder_GetFolders (fo_Path taskFolder) 0) ;;
          match fo_GetFolders taskFolder with
          | inl err =>
              ret (Some (Errorf "error getting subfolders of folder: %v"
                           [opError (getTaskSchedulerError err)]),
                   registeredTasks)
          | inr taskFolderList =>
              ForEach enumTaskFolders taskFolderList registeredTasks
          end
      end
  end.

(** [GetRegisteredTasks].  The collection returned with an error is [nil]. *)
Definition GetRegisteredTasks (t : TaskService)
  : M (list RegisteredTask * option error) :=
  root <- deref (rootFolderObj t) ;;
  _ <- record (Folder_GetTasks (fo_Path root) TASK_ENUM_HIDDEN) ;;
  match fo_GetTasks root with
  | inl err =>
      ret ([], Some (Errorf "error getting tasks of root folder: %v"
                       [opError (getTaskSchedulerError err)]))
  | inr rootTaskCollection =>
      r <- ForEach collectRegisteredTask rootTaskCollection [] ;;
      match r with
      | (Some err, _) => ret ([], Some err)
      | (None, registeredTasks) =>
          _ <- record (Folder_GetFolders (fo_Path root) 0) ;;
          match fo_GetFolders root with
          | inl err =>
              ret ([], Some (Errorf
                               "error getting task folders of root folder: %v"
                               [opError (getTaskSchedulerError err)]))
          | inr taskFolderList =>
              r <- ForEach enumTaskFolders taskFolderList registeredTasks ;;
              match r with
              | (Some err, _) => ret ([], Some err)
              | (None, registeredTasks) => ret (registeredTasks, None)
              end
          end
      end
  end.

End Enumeration.

(** The tasks of a hierarchy in the order of a pre-order walk: the tasks of
    a folder, then those of each of its subfolders in turn. *)
Fixpoint allTasks (f : FolderObj) : list TaskObj :=
  let 'mkFolderObj _ _ ts fs := f in
  match ts with inr tasks => tasks | inl _ => [] end
  ++ match fs with
     | inl _ => []
     | inr folders =>
         (fix each (l : list FolderObj) : list TaskObj :=
            match l with
            | [] => []
            | g :: rest => allTasks g ++ each rest
            end) folders
     end.

(** The tasks of a tree of folders, in the same order. *)
Fixpoint tasksOfTree (tree : TaskFolderTree) : list RegisteredTask :=
  let 'Folder _ _ tasks subFolders := tree in
  tasks
  ++ (fix each (l : list TaskFolderTree) : list RegisteredTask :=
        match l with
        | [] => []
        | g :: rest => tasksOfTree g ++ each rest
        end) subFolders.

(** Whenever the operation returns, the value it returns satisfies [Q]. *)
Definition yields {A : Type} (m : M A) (Q : A -> Prop) : Prop :=
  forall h a, fst (m h) = Returns a -> Q a.

(** Whatever the trace the operation starts from, it extends it, and its
    outcome and the calls it added satisfy [Q]. *)
Definition ensures {A : Type} (m : M A) (Q : Outcome A -> Trace -> Prop)
  : Prop :=
  forall h, exists calls, snd (m h) = h ++ calls /\ Q (fst (m h)) calls.

(** Whatever the trace the operation starts from, it extends it, and every
    call it adds is an allowed one; this holds whether the operation
    returns or faults. *)
Definition onlyCalls (allowed : Call -> Prop) {A : Type} (m : M A) : Prop :=
  forall h, exists calls, snd (m h) = h ++ calls /\ Forall allowed calls.

(** An operation that only reads: none of its calls changes the state of
    the service. *)
Definition readOnly {A : Type} (m : M A) : Prop :=
  onlyCalls (fun c => isMutation c = false) m.

(** The zero value of [TaskService]. *)
Definition zeroTaskService : TaskService :=
  mkTaskService None None false false "" "" "".

(** ** src/manage.go: connecting, and the running tasks *)

(** [initialize], [ConnectWithOptions] and [GetRunningTasks] talk to the COM
    runtime, to the operating system and to two methods of the service that
    the operations above do not use.  Their calls are recorded in a trace
    of their own. *)

(** A class identifier, as [ole.ClassIDFrom] returns it. *)
Inductive GUID : Type := mkGUID (id : nat).

(** The [IUnknown] object [ole.CreateInstance] returns. *)
Inductive Unknown : Type := mkUnknown (id : nat).

(** A running-task object of the service. *)
Inductive RunningObj : Type := mkRunningObj (id : nat).

Inductive HostCall : Type :=
| Ole_CoInitializeEx (p coinit : Z)
| Ole_ClassIDFrom (programID : string)
| Ole_CreateInstance (clsid : GUID)
| Ole_CoUninitialize
| Unknown_MustQueryInterface (unk : Unknown)
| Unknown_Release (unk : Unknown)
| Service_Connect (serverName username domain password : string)
| Os_Hostname
| User_Current
| Service_GetRootFolder (path : string)
| Service_GetRunningTasks (flags : Z)
| ParseRunning (task : RunningObj).

Abbreviation HostTrace := (list HostCall).

(** What the runtime, the system and the service answer; every answer may
    depend on the calls made so far.  [ole.CreateInstance] may return a nil
    object without an error, [MustQueryInterface] returns nil when the
    query fails, [os.Hostname] returns a name and an error, and
    [user.Current] the [Username] of the current user or an error. *)
Record Host : Type := mkHost {
  answer_CoInitializeEx : HostTrace -> option error;
  answer_ClassIDFrom : HostTrace -> string -> error + GUID;
  answer_CreateInstance : HostTrace -> GUID -> error + option Unknown;
  answer_MustQueryInterface : HostTrace -> Unknown -> option ServiceObj;
  answer_Connect :
    HostTrace -> string -> string -> string -> string -> option error;
  answer_Hostname : HostTrace -> string * option error;
  answer_Current : HostTrace -> error + string;
  answer_GetRootFolder : HostTrace -> string -> error + FolderObj
}.

(** The same way of running the code, over this trace. *)
Definition HostM (A : Type) : Type := HostTrace -> Outcome A * HostTrace.

Definition hret {A : Type} (a : A) : HostM A := fun h => (Returns a, h).

Definition hbind {A B : Type} (m : HostM A) (k : A -> HostM B) : HostM B :=
  fun h =>
    match m h with
    | (Returns a, h') => k a h'
    | (Panics msg, h') => (Panics msg, h')
    end.

Definition hpanic {A : Type} (msg : string) : HostM A :=
  fun h => (Panics msg, h).

Definition hinvoke {A : Type} (c : HostCall) (answer : HostTrace -> A)
  : HostM A :=
  fun h => (Returns (answer h), h ++ [c]).

Definition hrecord (c : HostCall) : HostM unit := hinvoke c (fun _ => tt).

Notation "x <~ m ;; k" := (hbind m (fun x => k))
  (at level 100, m at next level, right associativity) : go_scope.

Definition hderef {A : Type} (p : option A) : HostM A :=
  match p with
  | Some a => hret a
  | None => hpanic "invalid memory address or nil pointer dereference"
  end.

(** [oleutil.ForEach], as above. *)
Definition hForEach {A S : Type}
  (visitor : A -> S -> HostM (option error * S))
  : list A -> S -> HostM (option error * S) :=
  fix go (items : list A) (st : S) : HostM (option error * S) :=
    match items with
    | [] => hret (None, st)
    | v :: rest =>
        r <~ visitor v st ;;
        match r with
        | (Some err, st') => hret (Some err, st')
        | (None, st') => go rest st'
        end
    end.

(** [S_FALSE], the constant of [manage.go], and the two constants of go-ole
    that [initialize] uses. *)
Definition S_FALSE : Z := 0x00000001.
Definition S_OK : Z := 0x00000000.
Definition COINIT_MULTITHREADED : Z := 0x0.

(** [strings.Split(s, sep)] for a separator of one byte: the pieces of [s]
    between the occurrences of [sep]; a string without [sep] is its only
    piece. *)
Fixpoint Split (s : string) (sep : ascii) : list string :=
  match s with
  | EmptyString => [EmptyString]
  | String c rest =>
      if Ascii.eqb c sep then EmptyString :: Split rest sep
      else match Split rest sep with
           | piece :: pieces => String c piece :: pieces
           | [] => [String c EmptyString]
           end
  end.

(** [pieces[1]]: indexing past the end faults. *)
Definition index1 (pieces : list string) : HostM string :=
  match pieces with
  | _ :: piece :: _ => hret piece
  | [_] => hpanic "index out of range [1] with length 1"
  | [] => hpanic "index out of range [1] with length 0"
  end.

Section Connecting.

Variable host : Host.

(** [initialize]: the receiver is passed in and the updated one returned.
    The type assertion on the error of [CoInitializeEx] faults on an error
    that is not an [OleError] (the message of the fault, which names the
    dynamic type, is abbreviated); the deferred [Release] of the
    [IUnknown] runs when the function returns. *)
Definition initialize (t : TaskService) : HostM (TaskService * option error) :=
  err <~ hinvoke (Ole_CoInitializeEx 0 COINIT_MULTITHREADED)
           (answer_CoInitializeEx host) ;;
  fatal <~ match err with
           | None => hret false
           | Some (OleError hr _ _) =>
               let code := Code hr in
               hret (negb (code =? S_OK) && negb (code =? S_FALSE))
           | Some _ =>
               hpanic "interface conversion: error is not *ole.OleError"
           end ;;
  if fatal : bool then hret (t, err)
  else
    r <~ hinvoke (Ole_ClassIDFrom "Schedule.Service.1")
           (fun h => answer_ClassIDFrom host h "Schedule.Service.1") ;;
    match r with
    | inl err =>
        _ <~ hrecord Ole_CoUninitialize ;;
        hret (t, getTaskSchedulerError err)
    | inr schedClassID =>
        r <~ hinvoke (Ole_CreateInstance schedClassID)
               (fun h => answer_CreateInstance host h schedClassID) ;;
        match r with
        | inl err =>
            _ <~ hrecord Ole_CoUninitialize ;;
            hret (t, getTaskSchedulerError err)
        | inr None =>
            _ <~ hrecord Ole_CoUninitialize ;;
            hret (t, Some (errorString
                             "Could not create ITaskService object"))
        | inr (Some taskSchedulerObj) =>
            tskSchdlr <~ hinvoke (Unknown_MustQueryInterface taskSchedulerObj)
                           (fun h => answer_MustQueryInterface host h
                                       taskSchedulerObj) ;;
            _ <~ hrecord (Unknown_Release taskSchedulerObj) ;;
            hret (mkTaskService tskSchdlr (rootFolderObj t) true
                    (isConnected t) (connectedDomain t)
                    (connectedComputerName t) (connectedUser t),
                  None)
        end
    end.

(** [ConnectWithOptions]. *)
Definition ConnectWithOptions (serverName domain username password : string)
  : HostM (TaskService * option error) :=
  let taskService := zeroTaskService in
  r <~ (if negb (isInitialized taskService) then initialize taskService
        else hret (taskService, None)) ;;
  match r with
  | (_, Some err) =>
      hret (zeroTaskService,
            Some (Errorf "error initializing ITaskService object: %v"
                    [opError (Some err)]))
  | (taskService, None) =>
      _ <~ hderef (taskServiceObj taskService) ;;
      e <~ hinvoke (Service_Connect serverName username domain password)
             (fun h => answer_Connect host h serverName username domain
                         password) ;;
      match e with
      | Some err =>
          hret (zeroTaskService,
                Some (Errorf "error connecting to Task Scheduler service: %v"
                        [opError (getTaskSchedulerError err)]))
      | None =>
          r <~ (if (serverName =? "")%string
                then hinvoke Os_Hostname (answer_Hostname host)
                else hret (serverName, None)) ;;
          match r with
          | (_, Some err) => hret (zeroTaskService, Some err)
          | (serverName, None) =>
              let domain :=
                if (domain =? "")%string then serverName else domain in
              r <~ (if (username =? "")%string then
                      c <~ hinvoke User_Current (answer_Current host) ;;
                      match c with
                      | inl err => hret (inl err)
                      | inr currentUser =>
                          name <~ index1 (Split currentUser backslash) ;;
                          hret (inr name)
                      end
                    else hret (inr username)) ;;
              match r with
              | inl err => hret (zeroTaskService, Some err)
              | inr username =>
                  _ <~ hderef (taskServiceObj taskService) ;;
                  res <~ hinvoke (Service_GetRootFolder "\")
                           (fun h => answer_GetRootFolder host h "\") ;;
                  match res with
                  | inl err =>
                      hret (zeroTaskService,
                            Some (Errorf "error getting the root folder: %v"
                                    [opError (getTaskSchedulerError err)]))
                  | inr root =>
                      hret (mkTaskService (taskServiceObj taskService)
                              (Some root) (isInitialized taskService) true
                              domain serverName username,
                            None)
                  end
              end
          end
      end
  end.

(** [Connect]. *)
Definition Connect : HostM (TaskService * option error) :=
  ConnectWithOptions "" "" "" "".

End Connecting.

Section Running.

(** [RunningTask] and [parseRunningTask] are not among the sources: the
    type is left open, and the result of the parse is an answer like the
    others. *)
Variable RunningTask : Type.
Variable answer_GetRunningTasks : HostTrace -> error + list RunningObj.
Variable answer_parseRunningTask :
  HostTrace -> RunningObj -> RunningTask * option error.

Definition parseRunningTask (task : RunningObj)
  : HostM (RunningTask * option error) :=
  hinvoke (ParseRunning task) (fun h => answer_parseRunningTask h task).

(** The visitor of [GetRunningTasks]. *)
Definition collectRunningTask (task : RunningObj)
  (runningTasks : list RunningTask)
  : HostM (option error * list RunningTask) :=
  p <~ parseRunningTask task ;;
  match p with
  | (_, Some err) =>
      hret (Some (Errorf "error parsing running task: %v"
                    [opError (Some err)]), runningTasks)
  | (runningTask, None) => hret (None, runningTasks ++ [runningTask])
  end.

(** [GetRunningTasks]. *)
Definition GetRunningTasks (t : TaskService)
  : HostM (list RunningTask * option error) :=
  _ <~ hderef (taskServiceObj t) ;;
  res <~ hinvoke (Service_GetRunningTasks TASK_ENUM_HIDDEN)
           answer_GetRunningTasks ;;
  match res with
  | inl err =>
      hret ([], Some (Errorf "error getting running tasks: %v"
                        [opError (getTaskSchedulerError err)]))
  | inr runningTasksObj =>
      r <~ hForEach collectRunningTask runningTasksObj [] ;;
      match r with
      | (Some err, _) => hret ([], Some err)
      | (None, runningTasks) => hret (runningTasks, None)
      end
  end.

End Running.

(** ** A host on which everything succeeds *)

(** The runtime reports that the thread was initialized already
    ([S_FALSE]); the machine is [HOST], the current user [WORKGROUP\alice];
    the root folder is the hierarchy above. *)
Definition mockHost : Host :=
  mkHost
    (fun _ => Some (OleError S_FALSE "" None))
    (fun _ _ => inr (mkGUID 1))
    (fun _ _ => inr (Some (mkUnknown 1)))
    (fun _ _ => Some (mkServiceObj 1))
    (fun _ _ _ _ _ => None)
    (fun _ => ("HOST", None))
    (fun _ => inr "WORKGROUP\alice")
    (fun _ _ => inr folderRoot).

(** The same host, where the name of the current user carries no domain. *)
Definition localUserHost : Host :=
  mkHost
    (answer_CoInitializeEx mockHost)
    (answer_ClassIDFrom mockHost)
    (answer_CreateInstance mockHost)
    (answer_MustQueryInterface mockHost)
    (answer_Connect mockHost)
    (answer_Hostname mockHost)
    (fun _ => inr "alice")
    (answer_GetRootFolder mockHost).

(** The same host, where the target computer cannot be reached: the
    [Connect] of the session fails with code 53. *)
Definition unreachableHost : Host :=
  mkHost
    (answer_CoInitializeEx mockHost)
    (answer_ClassIDFrom mockHost)
    (answer_CreateInstance mockHost)
    (answer_MustQueryInterface mockHost)
    (fun _ _ _ _ _ => Some (OleError 0x80020009 "" (Some (EXCEPINFO 53))))
    (answer_Hostname mockHost)
    (answer_Current mockHost)
    (answer_GetRootFolder mockHost).

(** * Properties *)

(** ** Properties of the error translator *)


Lemma schedulerErrorOf_cases (code : Z) :
  (code = 50 /\ schedulerErrorOf code = ErrTargetUnsupported) \/
  ((code = 53 \/ code = 0x80070032) /\
     schedulerErrorOf code = ErrConnectionFailure) \/
  (code <> 50 /\ code <> 53 /\ code <> 0x80070032 /\
     schedulerErrorOf code = Errno code).
Proof.
  unfold schedulerErrorOf.
  destruct (Z.eqb_spec code 50) as [->|H50]; [left; auto|].
  destruct (Z.eqb_spec code 53) as [->|H53]; [right; left; auto|].
  destruct (Z.eqb_spec code 0x80070032) as [->|Hc]; [right; left; auto|].
  right; right; auto.
Qed.

(** C3.  Whenever a numeric code is extracted from a native failure (the
    extraction returns the code and a nil error), [getTaskSchedulerError]
    yields [ErrTargetUnsupported] for 50, [ErrConnectionFailure] for 53 and
    0x80070032 and [Errno code] for every other code, and
    [getRunningTaskError] yields [ErrRunningTaskCompleted] for 0x8004130B and
    [Errno code] for every other code; this holds for [errors.go] and for
    [part_000] alike. *)
Theorem error_code_mapping (err : option error) (code : Z) :
  (ErrorsGo.getOLEErrorCode err = (code, None) ->
     ErrorsGo.getTaskSchedulerError err = schedulerErrorOf code /\
     ErrorsGo.getRunningTaskError err = runningErrorOf code) /\
  (Part000.getOLEErrorCode err = (code, None) ->
     Part000.getTaskSchedulerError err = schedulerErrorOf code /\
     Part000.getRunningTaskError err = runningErrorOf code) /\
  schedulerErrorOf 50 = ErrTargetUnsupported /\
  schedulerErrorOf 53 = ErrConnectionFailure /\
  schedulerErrorOf 0x80070032 = ErrConnectionFailure /\
  runningErrorOf 0x8004130B = ErrRunningTaskCompleted /\
  (code <> 50 -> code <> 53 -> code <> 0x80070032 ->
     schedulerErrorOf code = Errno code) /\
  (code <> 0x8004130B -> runningErrorOf code = Errno code).
Proof.
  repeat split; try reflexivity.
  - unfold ErrorsGo.getTaskSchedulerError. rewrite H. unfold schedulerErrorOf.
    destruct (code =? 50); [reflexivity|].
    now rewrite orb_comm.
  - unfold ErrorsGo.getRunningTaskError. now rewrite H.
  - unfold Part000.getTaskSchedulerError. rewrite H. unfold schedulerErrorOf.
    destruct (code =? 50); [reflexivity|].
    now rewrite orb_comm.
  - unfold Part000.getRunningTaskError. now rewrite H.
  - intros H50 H53 Hc. unfold schedulerErrorOf.
    destruct (Z.eqb_spec code 50); [contradiction|].
    destruct (Z.eqb_spec code 53); [contradiction|].
    destruct (Z.eqb_spec code 0x80070032); [contradiction|reflexivity].
  - intros Hc. unfold runningErrorOf.
    destruct (Z.eqb_spec code 0x8004130B); [contradiction|reflexivity].
Qed.

(** The mapping at an OLE error whose EXCEPINFO carries code 5: both revisions
    extract 5 and wrap it as [Errno 5]. *)
Lemma error_code_mapping_witness :
  ErrorsGo.getTaskSchedulerError (Some (OleError 0 "" (Some (EXCEPINFO 5))))
    = Errno 5 /\
  Part000.getTaskSchedulerError (Some (OleError 0 "" (Some (EXCEPINFO 5))))
    = Errno 5 /\
  ErrorsGo.getRunningTaskError (Some (OleError 0 "" (Some (EXCEPINFO 5))))
    = Errno 5 /\
  Part000.getRunningTaskError (Some (OleError 0 "" (Some (EXCEPINFO 5))))
    = Errno 5.
Proof.
  destruct (error_code_mapping (Some (OleError 0 "" (Some (EXCEPINFO 5)))) 5)
    as (HA & HB & _).
  destruct (HA eq_refl) as [HA1 HA2].
  destruct (HB eq_refl) as [HB1 HB2].
  repeat split; assumption.
Defined.

(** ** The two revisions of the code extraction compared *)

Lemma ErrorsGo_success_inv (err : option error) (code : Z) :
  ErrorsGo.getOLEErrorCode err = (code, None) ->
  exists hr d scode,
    err = Some (OleError hr d (Some (EXCEPINFO scode))) /\ code = SCODE scode.
Proof.
  destruct err as [[| | | | | | | | |hr d [[| | | | | | | | | |sc]|]|]|];
    simpl; try discriminate.
  intros [= <-]. now exists hr, d, sc.
Qed.




(** Every input that [errors.go] decodes is decoded by [part_000] as well. *)
Lemma ErrorsGo_success_Part000_success (err : option error) :
  snd (ErrorsGo.getOLEErrorCode err) = None ->
  snd (Part000.getOLEErrorCode err) = None.
Proof.
  destruct (ErrorsGo.getOLEErrorCode err) as [code pe] eqn:E. simpl.
  intros ->. destruct (ErrorsGo_success_inv _ _ E) as (hr & d & sc & -> & _).
  simpl. now destruct (Code hr =? 0).
Qed.

Lemma ErrorsGo_success_Part000_success_witness :
  snd (Part000.getOLEErrorCode
         (Some (OleError 0x80020009 "" (Some (EXCEPINFO 50))))) = None.
Proof.
  apply (ErrorsGo_success_Part000_success
           (Some (OleError 0x80020009 "" (Some (EXCEPINFO 50)))) eq_refl).
Defined.

(** ** Running an operation step by step *)

Lemma bind_ret {A B : Type} (a : A) (k : A -> M B) (h : Trace) :
  bind (ret a) k h = k a h.
Proof. reflexivity. Qed.

Lemma bind_invoke {A B : Type} (c : Call) (answer : Trace -> A)
  (k : A -> M B) (h : Trace) :
  bind (invoke c answer) k h = k (answer h) (h ++ [c]).
Proof. reflexivity. Qed.

Lemma bind_record {B : Type} (c : Call) (k : unit -> M B) (h : Trace) :
  bind (record c) k h = k tt (h ++ [c]).
Proof. reflexivity. Qed.

Lemma bind_deref {A B : Type} (a : A) (k : A -> M B) (h : Trace) :
  bind (deref (Some a)) k h = k a h.
Proof. reflexivity. Qed.

Lemma bind_bind {A B C : Type} (m : M A) (f : A -> M B) (g : B -> M C)
  (h : Trace) :
  bind (bind m f) g h = bind m (fun a => bind (f a) g) h.
Proof. unfold bind. destruct (m h) as [[a|msg] h']; reflexivity. Qed.

Lemma bind_index0 {B : Type} (c : ascii) (rest : string)
  (k : ascii -> M B) (h : Trace) :
  bind (index0 (String c rest)) k h = k c h.
Proof. reflexivity. Qed.

Lemma bind_run {A B : Type} (m : M A) (k : A -> M B) (h h' : Trace) (a : A) :
  m h = (Returns a, h') -> bind m k h = k a h'.
Proof. intros H. unfold bind. now rewrite H. Qed.

Lemma ForEach_nil {A S : Type} (visitor : A -> S -> M (option error * S))
  (st : S) :
  ForEach visitor [] st = ret (None, st).
Proof. reflexivity. Qed.

Lemma ForEach_cons {A S : Type} (visitor : A -> S -> M (option error * S))
  (v : A) (rest : list A) (st : S) :
  ForEach visitor (v :: rest) st
  = bind (visitor v st)
      (fun r => match r with
                | (Some err, st') => ret (Some err, st')
                | (None, st') => ForEach visitor rest st'
                end).
Proof. reflexivity. Qed.

Lemma startsWithRoot_inv (path : string) :
  startsWithRoot path = true ->
  exists c rest, path = String c rest /\ isRoot c = true.
Proof.
  destruct path as [|c rest]; simpl; [discriminate|].
  intros H. now exists c, rest.
Qed.

(** A path that begins with the root separator passes the path check. *)
Lemma path_check {A : Type} (path : string) (reject accept : M A)
  (h : Trace) :
  startsWithRoot path = true ->
  bind (index0 path) (fun c => if negb (isRoot c) then reject else accept) h
  = accept h.
Proof.
  intros Hp. destruct (startsWithRoot_inv _ Hp) as (c & rest & -> & Hc).
  rewrite bind_index0, Hc. reflexivity.
Qed.

Ltac step :=
  repeat first
    [ rewrite bind_bind
    | rewrite bind_ret
    | rewrite bind_invoke
    | rewrite bind_record
    | rewrite bind_deref
    | rewrite bind_index0 ].

(** ** Path validation *)

(** C1, at the empty path.  [path[0]] faults on the empty string: none of
    the six operations returns [ErrInvalidPath] there; each panics, before
    any call on the bridge. *)
Theorem empty_path_panics (B : Bridge) (t : TaskService)
  (def : TaskDefinition) (username password : string)
  (logonType : TaskLogonType) (overwrite recursive : bool) (h : Trace) :
  GetRegisteredTask B t "" h
    = (Panics "index out of range [0] with length 0", h) /\
  GetTaskFolder B t "" h
    = (Panics "index out of range [0] with length 0", h) /\
  CreateTaskEx B t "" def username password logonType overwrite h
    = (Panics "index out of range [0] with length 0", h) /\
  UpdateTaskEx B t "" def username password logonType h
    = (Panics "index out of range [0] with length 0", h) /\
  DeleteFolder B t "" recursive h
    = (Panics "index out of range [0] with length 0", h) /\
  DeleteTask B t "" h
    = (Panics "index out of range [0] with length 0", h).
Proof. repeat split. Qed.

(** Every non-empty path that does not begin with the root separator is
    rejected with [ErrInvalidPath] by each of the six operations, before any
    call on the bridge. *)
Lemma invalid_path_rejected (B : Bridge) (t : TaskService) (path : string)
  (def : TaskDefinition) (username password : string)
  (logonType : TaskLogonType) (overwrite recursive : bool) (h : Trace) :
  path <> "" ->
  startsWithRoot path = false ->
  GetRegisteredTask B t path h
    = (Returns (zeroRegisteredTask, Some ErrInvalidPath), h) /\
  GetTaskFolder B t path h
    = (Returns (zeroTaskFolder, [], Some ErrInvalidPath), h) /\
  CreateTaskEx B t path def username password logonType overwrite h
    = (Returns (zeroRegisteredTask, false, Some ErrInvalidPath), h) /\
  UpdateTaskEx B t path def username password logonType h
    = (Returns (zeroRegisteredTask, Some ErrInvalidPath), h) /\
  DeleteFolder B t path recursive h
    = (Returns (false, Some ErrInvalidPath), h) /\
  DeleteTask B t path h = (Returns (Some ErrInvalidPath), h).
Proof.
  destruct path as [|c rest]; [congruence|]. simpl. intros _ Hc.
  unfold GetRegisteredTask, GetTaskFolder, CreateTaskEx, UpdateTaskEx,
    DeleteFolder, DeleteTask.
  rewrite !bind_index0, Hc. repeat split.
Qed.

Lemma invalid_path_rejected_witness :
  DeleteTask mockBridge mockService "Tasks\X" []
    = (Returns (Some ErrInvalidPath), []).
Proof.
  apply (invalid_path_rejected mockBridge mockService "Tasks\X"
           zeroDefinition "" "" TASK_LOGON_NONE false false []);
    [discriminate | reflexivity].
Defined.

(** ** Validation of the definition *)

Lemma validateDefinition_cases (def : TaskDefinition) :
  (Actions def = [] /\ validateDefinition def = Some ErrNoActions) \/
  (Actions def <> [] /\ UserID (Principal def) <> "" /\
     GroupID (Principal def) <> "" /\
     validateDefinition def = Some ErrInvalidPrincipal) \/
  (Actions def <> [] /\
     (UserID (Principal def) = "" \/ GroupID (Principal def) = "") /\
     validateDefinition def = None).
Proof.
  unfold validateDefinition.
  destruct (Actions def) as [|a l]; [left; auto|].
  right.
  destruct (String.eqb_spec (UserID (Principal def)) "") as [Hu|Hu];
    destruct (String.eqb_spec (GroupID (Principal def)) "") as [Hg|Hg];
    simpl; auto 8.
Qed.

(** C2, the claim as stated fails: the path is checked before the
    definition.  With a path that does not begin with the root separator, a
    definition without actions is answered with [ErrInvalidPath], not with
    [ErrNoActions]. *)
Lemma path_checked_before_definition :
  validateDefinition zeroDefinition = Some ErrNoActions /\
  CreateTaskEx mockBridge mockService "Tasks\X" zeroDefinition "" ""
    TASK_LOGON_NONE false []
    = (Returns (zeroRegisteredTask, false, Some ErrInvalidPath), []) /\
  UpdateTaskEx mockBridge mockService "Tasks\X" zeroDefinition "" ""
    TASK_LOGON_NONE []
    = (Returns (zeroRegisteredTask, Some ErrInvalidPath), []).
Proof. repeat split. Qed.

(** C2 as amended.  For every path that begins with the root separator and
    every definition whose Actions list is empty or whose Principal has both
    UserID and GroupID set, [CreateTaskEx] and [UpdateTaskEx] return the
    validation error ([ErrNoActions] when Actions is empty,
    [ErrInvalidPrincipal] otherwise) and leave the trace as it was: no call
    is made on the bridge. *)
Theorem invalid_definition_rejected (B : Bridge) (t : TaskService)
  (path : string) (def : TaskDefinition) (username password : string)
  (logonType : TaskLogonType) (overwrite : bool) (h : Trace) :
  startsWithRoot path = true ->
  Actions def = [] \/
    (UserID (Principal def) <> "" /\ GroupID (Principal def) <> "") ->
  exists err,
    (Actions def = [] -> err = ErrNoActions) /\
    (Actions def <> [] -> err = ErrInvalidPrincipal) /\
    validateDefinition def = Some err /\
    CreateTaskEx B t path def username password logonType overwrite h
      = (Returns (zeroRegisteredTask, false, Some err), h) /\
    UpdateTaskEx B t path def username password logonType h
      = (Returns (zeroRegisteredTask, Some err), h).
Proof.
  intros Hp Hd.
  destruct (startsWithRoot_inv _ Hp) as (c & rest & -> & Hc).
  assert (Hv : exists err,
             (Actions def = [] -> err = ErrNoActions) /\
             (Actions def <> [] -> err = ErrInvalidPrincipal) /\
             validateDefinition def = Some err).
  { destruct (validateDefinition_cases def)
      as [[Ha Hv]|[(Ha & Hu & Hg & Hv)|(Ha & Hug & Hv)]].
    - exists ErrNoActions. repeat split; auto. contradiction.
    - exists ErrInvalidPrincipal. repeat split; auto. contradiction.
    - exfalso. destruct Hd as [Hd|[Hu Hg]]; [auto|]. destruct Hug; auto. }
  destruct Hv as (err & H1 & H2 & Hv). exists err.
  repeat split; auto.
  - unfold CreateTaskEx. rewrite bind_index0, Hc. simpl. now rewrite Hv.
  - unfold UpdateTaskEx. rewrite bind_index0, Hc. simpl. now rewrite Hv.
Qed.

Lemma invalid_definition_rejected_witness :
  exists err,
    validateDefinition zeroDefinition = Some err /\
    CreateTaskEx mockBridge mockService "\A\X" zeroDefinition "" ""
      TASK_LOGON_NONE true []
      = (Returns (zeroRegisteredTask, false, Some err), []).
Proof.
  destruct (invalid_definition_rejected mockBridge mockService "\A\X"
              zeroDefinition "" "" TASK_LOGON_NONE true [] eq_refl
              (or_introl eq_refl))
    as (err & _ & _ & Hv & Hc & _).
  exists err. split; assumption.
Defined.

(** Whatever the path, an invalid definition reaches no call on the bridge:
    [CreateTaskEx] and [UpdateTaskEx] leave the trace as it was. *)
Lemma invalid_definition_no_call (B : Bridge) (t : TaskService)
  (path : string) (def : TaskDefinition) (username password : string)
  (logonType : TaskLogonType) (overwrite : bool) (h : Trace) (err : error) :
  validateDefinition def = Some err ->
  snd (CreateTaskEx B t path def username password logonType overwrite h) = h
  /\ snd (UpdateTaskEx B t path def username password logonType h) = h.
Proof.
  intros Hv. unfold CreateTaskEx, UpdateTaskEx.
  destruct path as [|c rest]; [split; reflexivity|].
  rewrite !bind_index0. destruct (isRoot c); simpl; rewrite ?Hv; auto.
Qed.

Lemma invalid_definition_no_call_witness :
  snd (CreateTaskEx mockBridge mockService "" zeroDefinition "" ""
         TASK_LOGON_NONE true []) = [].
Proof.
  apply (invalid_definition_no_call mockBridge mockService "" zeroDefinition
           "" "" TASK_LOGON_NONE true [] ErrNoActions eq_refl).
Defined.

(** ** The defaults of a new definition *)

(** C9.  [NewTaskDefinition] is a function of the connection and of the
    clock alone (it takes no trace and makes no call), and the definition it
    returns has the interactive-token logon type, the limited-user run
    level, the connected identity as author, an idle duration of 10 minutes,
    an idle wait timeout of 1 hour, a time limit of 72 hours and priority
    7. *)
Theorem NewTaskDefinition_defaults (t : TaskService) (now : Z) :
  LogonType (Principal (NewTaskDefinition t now))
    = TASK_LOGON_INTERACTIVE_TOKEN /\
  RunLevel (Principal (NewTaskDefinition t now)) = TASK_RUNLEVEL_LUA /\
  Author (RegistrationInfo (NewTaskDefinition t now))
    = connectedDomain t +:+ "\" +:+ connectedUser t /\
  IdleDuration (IdleSettings (Settings (NewTaskDefinition t now)))
    = mkPeriod 0 10 0 /\
  WaitTimeout (IdleSettings (Settings (NewTaskDefinition t now)))
    = mkPeriod 1 0 0 /\
  TimeLimit (Settings (NewTaskDefinition t now)) = mkPeriod 72 0 0 /\
  Priority (Settings (NewTaskDefinition t now)) = 7.
Proof. repeat split. Qed.

(** ** Disconnect *)

Lemma hasHandles_inv (t : TaskService) :
  hasHandles t ->
  exists s r, taskServiceObj t = Some s /\ rootFolderObj t = Some r.
Proof.
  intros [Hs Hr].
  destruct (taskServiceObj t) as [s|]; [|congruence].
  destruct (rootFolderObj t) as [r|]; [|congruence].
  now exists s, r.
Qed.

(** What [Disconnect] releases: both handles when connected, then the
    calling context when initialized. *)
Lemma Disconnect_run (t : TaskService) (h : Trace) (s : ServiceObj)
  (r : FolderObj) :
  taskServiceObj t = Some s ->
  rootFolderObj t = Some r ->
  Disconnect t h
  = (Returns (mkTaskService (Some s) (Some r) false false (connectedDomain t)
                (connectedComputerName t) (connectedUser t)),
     h ++ (if isConnected t then [Release_Service s; Release_Folder r] else [])
       ++ (if isInitialized t then [CoUninitialize] else [])).
Proof.
  intros Hs Hr. unfold Disconnect. rewrite Hs, Hr.
  destruct (isConnected t), (isInitialized t); step; simpl;
    rewrite <- ?app_assoc, ?app_nil_r; reflexivity.
Qed.

(** C10.  On every connection state (one that holds its handles whenever it
    is flagged connected, which is all the package builds), [Disconnect]
    returns, and both flags are false afterwards; on a connection that is
    neither connected nor initialized it releases nothing and changes
    nothing; and a second call right after the first releases nothing and
    changes nothing. *)
Theorem Disconnect_idempotent (t : TaskService) (h : Trace) :
  connectedHoldsHandles t ->
  exists t' released,
    Disconnect t h = (Returns t', h ++ released) /\
    isInitialized t' = false /\
    isConnected t' = false /\
    (isConnected t = false -> isInitialized t = false ->
       released = [] /\ t' = t) /\
    Disconnect t' (h ++ released) = (Returns t', h ++ released).
Proof.
  intros Hwf. unfold connectedHoldsHandles in Hwf.
  destruct t as [so ro init conn d c u]. simpl in *.
  destruct conn.
  - destruct (hasHandles_inv _ (Hwf eq_refl)) as (s & r & Hs & Hr).
    simpl in Hs, Hr. subst so ro.
    eexists. eexists. split; [apply Disconnect_run; reflexivity|].
    simpl. repeat split; try discriminate.
  - exists (mkTaskService so ro false false d c u).
    exists (if init then [CoUninitialize] else []).
    unfold Disconnect. simpl. destruct init; step; simpl.
    + repeat split; try discriminate.
    + rewrite app_nil_r. repeat split.
Qed.

Lemma Disconnect_idempotent_witness :
  exists t' released,
    Disconnect mockService [] = (Returns t', released) /\
    Disconnect t' released = (Returns t', released).
Proof.
  assert (Hwf : connectedHoldsHandles mockService)
    by (intros _; split; discriminate).
  destruct (Disconnect_idempotent mockService [] Hwf)
    as (t' & released & H1 & _ & _ & _ & H2).
  exists t', released. split; assumption.
Defined.

(** The zero connection and every connection [Disconnect] returns are
    connection states in the sense of C10. *)
Lemma connectedHoldsHandles_disconnected (t : TaskService) :
  isConnected t = false -> connectedHoldsHandles t.
Proof. intros H H'. congruence. Qed.

(** ** The default identity *)

(** C8.  For a definition whose Principal has neither UserID nor GroupID
    set, [modifyTask] hands [fillDefinitionObj] the definition with UserID
    set to connectedDomain, a backslash and connectedUser, and everything
    else as given.  No other definition is ever filled; when [NewTask]
    answers with an object, that fill is the call right after it.  The
    validator does not reject such a definition for its Principal. *)
Theorem default_identity_injected (B : Bridge) (t : TaskService)
  (path : string) (def : TaskDefinition) (username password : string)
  (logonType : TaskLogonType) (flags : TaskCreationFlags) (h : Trace) :
  UserID (Principal def) = "" ->
  GroupID (Principal def) = "" ->
  exists def',
    def' = mkDefinition (Actions def)
             (mkPrincipal (connectedDomain t +:+ "\" +:+ connectedUser t) ""
                (LogonType (Principal def)) (RunLevel (Principal def)))
             (RegistrationInfo def) (Settings def) (Triggers def) /\
    validateDefinition def <> Some ErrInvalidPrincipal /\
    (exists calls,
       snd (modifyTask B t path def username password logonType flags h)
         = h ++ calls /\
       forall d obj, In (Fill d obj) calls -> d = def') /\
    (forall s obj,
       taskServiceObj t = Some s ->
       answer_NewTask B h = inr obj ->
       exists rest,
         snd (modifyTask B t path def username password logonType flags h)
           = h ++ Service_NewTask 0 :: Fill def' obj :: rest).
Proof.
  intros Hu Hg. eexists. split; [reflexivity|].
  assert (Hd : withDefaultUserID t def
               = mkDefinition (Actions def)
                   (mkPrincipal
                      (connectedDomain t +:+ "\" +:+ connectedUser t) ""
                      (LogonType (Principal def)) (RunLevel (Principal def)))
                   (RegistrationInfo def) (Settings def) (Triggers def)).
  { unfold withDefaultUserID. rewrite Hu, Hg. reflexivity. }
  split.
  { unfold validateDefinition. rewrite Hu. destruct (Actions def); discriminate. }
  unfold modifyTask. rewrite Hd. clear Hd.
  set (def' := mkDefinition _ _ _ _ _).
  split.
  - destruct (taskServiceObj t) as [s|];
      [|exists []; rewrite app_nil_r; split; [reflexivity|intros ? ? []]].
    step. destruct (answer_NewTask B h) as [e|obj].
    + step. exists [Service_NewTask 0]. split; [reflexivity|].
      intros d o [Hin|[]]. discriminate.
    + unfold fillDefinitionObj. step.
      destruct (answer_fillDefinitionObj B _ def' obj) as [e|].
      * step. exists [Service_NewTask 0; Fill def' obj].
        split; [simpl; now rewrite <- app_assoc|].
        intros d o [Hin|[Hin|[]]]; congruence.
      * destruct (rootFolderObj t) as [r|].
        -- step.
           match goal with
           | |- context [answer_RegisterTaskDefinition ?a ?b ?c ?d ?e ?f ?g ?i] =>
               destruct (answer_RegisterTaskDefinition a b c d e f g i)
           end; step;
             (eexists [Service_NewTask 0; Fill def' obj; _];
              split; [simpl; rewrite <- !app_assoc; reflexivity|];
              intros d o [Hin|[Hin|[Hin|[]]]]; congruence).
        -- exists [Service_NewTask 0; Fill def' obj].
           split; [simpl; now rewrite <- app_assoc|].
           intros d o [Hin|[Hin|[]]]; congruence.
  - intros s obj Hs Hobj. rewrite Hs. step. rewrite Hobj.
    unfold fillDefinitionObj. step.
    destruct (answer_fillDefinitionObj B _ def' obj) as [e|].
    + step. exists []. simpl. now rewrite <- app_assoc.
    + destruct (rootFolderObj t) as [r|].
      * step.
        match goal with
        | |- context [answer_RegisterTaskDefinition ?a ?b ?c ?d ?e ?f ?g ?i] =>
            destruct (answer_RegisterTaskDefinition a b c d e f g i)
        end; step; eexists [_]; simpl; rewrite <- !app_assoc; reflexivity.
      * exists []. simpl. now rewrite <- app_assoc.
Qed.

Lemma default_identity_injected_witness :
  exists rest,
    snd (modifyTask mockBridge mockService "\A\X" oneAction "" ""
           TASK_LOGON_NONE TASK_CREATE [])
    = Service_NewTask 0
      :: Fill (mkDefinition [mkAction "run"]
                 (mkPrincipal "WORKGROUP\alice" "" TASK_LOGON_NONE
                    TASK_RUNLEVEL_LUA)
                 (RegistrationInfo zeroDefinition) (Settings zeroDefinition)
                 [])
              (mkDefObj 1)
      :: rest.
Proof.
  destruct (default_identity_injected mockBridge mockService "\A\X" oneAction
              "" "" TASK_LOGON_NONE TASK_CREATE [] eq_refl eq_refl)
    as (def' & -> & _ & _ & H).
  exact (H (mkServiceObj 1) (mkDefObj 1) eq_refl eq_refl).
Defined.

(** ** CreateTaskEx on an existing task *)

(** C4, the claim as stated fails: the definition is validated before the
    task is looked up.  At a valid path where a task exists, a definition
    without actions is answered with [ErrNoActions] whatever [overwrite]
    is: the existing task is not returned, and nothing is deleted or
    registered. *)
Lemma existing_task_invalid_definition :
  answer_GetTask mockBridge [] "\A\TaskA" = inr taskA /\
  CreateTaskEx mockBridge mockService "\A\TaskA" zeroDefinition "" ""
    TASK_LOGON_NONE false []
    = (Returns (zeroRegisteredTask, false, Some ErrNoActions), []) /\
  CreateTaskEx mockBridge mockService "\A\TaskA" zeroDefinition "" ""
    TASK_LOGON_NONE true []
    = (Returns (zeroRegisteredTask, false, Some ErrNoActions), []).
Proof. repeat split. Qed.

(** C4 as amended.  On a connection that holds its handles, for every path
    that begins with the root separator and every definition that passes
    validation, when the parent folder and the task are found
    ([GetFolder] and [GetTask] answer with an object):
    - with [overwrite] false, if the task is found again and parses,
      [CreateTaskEx] returns that parsed task, the flag false and no error,
      and none of its calls changes the service;
    - with [overwrite] true, if the delete, [NewTask], the fill and the
      registration succeed, the calls that change the service are exactly
      one [DeleteTask] of the path followed by one
      [RegisterTaskDefinition] of the object filled from the definition. *)
Theorem CreateTaskEx_existing_task (B : Bridge) (t : TaskService)
  (path : string) (def : TaskDefinition) (username password : string)
  (logonType : TaskLogonType) (h : Trace)
  (s : ServiceObj) (root parent : FolderObj) (taskObj : TaskObj) :
  taskServiceObj t = Some s ->
  rootFolderObj t = Some root ->
  startsWithRoot path = true ->
  validateDefinition def = None ->
  answer_GetFolder B h (slice_to path (LastIndex path backslash))
    = inr parent ->
  answer_GetTask B
    (h ++ [Service_GetFolder (slice_to path (LastIndex path backslash))])
    path = inr taskObj ->
  (forall (found : TaskObj) (existing : RegisteredTask) (p : string),
     answer_GetTask B
       (h ++ [Service_GetFolder (slice_to path (LastIndex path backslash));
              Root_GetTask path]) path = inr found ->
     answer_parseRegisteredTask B
       (h ++ [Service_GetFolder (slice_to path (LastIndex path backslash));
              Root_GetTask path; Root_GetTask path]) found
       = (existing, p, None) ->
     exists calls,
       CreateTaskEx B t path def username password logonType false h
         = (Returns (existing, false, None), h ++ calls) /\
       mutations calls = []) /\
  (forall (defObj : DefObj) (newObj : TaskObj),
     answer_DeleteTask B
       (h ++ [Service_GetFolder (slice_to path (LastIndex path backslash));
              Root_GetTask path]) path = None ->
     answer_NewTask B
       (h ++ [Service_GetFolder (slice_to path (LastIndex path backslash));
              Root_GetTask path; Root_DeleteTask path 0]) = inr defObj ->
     answer_fillDefinitionObj B
       (h ++ [Service_GetFolder (slice_to path (LastIndex path backslash));
              Root_GetTask path; Root_DeleteTask path 0; Service_NewTask 0])
       (withDefaultUserID t def) defObj = None ->
     answer_RegisterTaskDefinition B
       (h ++ [Service_GetFolder (slice_to path (LastIndex path backslash));
              Root_GetTask path; Root_DeleteTask path 0; Service_NewTask 0;
              Fill (withDefaultUserID t def) defObj])
       path defObj TASK_CREATE username password logonType = inr newObj ->
     exists calls,
       snd (CreateTaskEx B t path def username password logonType true h)
         = h ++ calls /\
       mutations calls
         = [Root_DeleteTask path 0;
            Root_RegisterTaskDefinition path defObj TASK_CREATE username
              password logonType ""]).
Proof.
  intros Hs Hr Hp Hv Hf Ht.
  destruct (startsWithRoot_inv _ Hp) as (c & rest & E & Hc).
  set (folderPath := slice_to path (LastIndex path backslash)) in *.
  split.
  - intros found existing p Hfound Hparse.
    exists [Service_GetFolder folderPath; Root_GetTask path;
            Root_GetTask path; Parse found].
    split; [|reflexivity].
    unfold CreateTaskEx. rewrite E at 1. rewrite bind_index0, Hc. cbn [negb]. rewrite Hv. fold folderPath.
    unfold taskFolderExist, registeredTaskExist. rewrite Hs, Hr.
    step. rewrite Hf. step. cbn [negb].
    step. rewrite Ht. step. cbn [negb].
    unfold GetRegisteredTask. rewrite E at 1. rewrite Hr.
    step. rewrite Hc. cbn [negb]. step.
    rewrite <- ?app_assoc; cbn [app]. rewrite Hfound.
    unfold parseRegisteredTask. step.
    rewrite <- ?app_assoc; cbn [app]. rewrite Hparse. step.
    rewrite <- ?app_assoc; cbn [app]. reflexivity.
  - intros defObj newObj Hdel Hnew Hfill Hreg.
    exists [Service_GetFolder folderPath; Root_GetTask path;
            Root_DeleteTask path 0; Service_NewTask 0;
            Fill (withDefaultUserID t def) defObj;
            Root_RegisterTaskDefinition path defObj TASK_CREATE username
              password logonType "";
            Parse newObj].
    split; [|reflexivity].
    unfold CreateTaskEx. rewrite E at 1. rewrite bind_index0, Hc. cbn [negb]. rewrite Hv. fold folderPath.
    unfold taskFolderExist, registeredTaskExist. rewrite Hs, Hr.
    step. rewrite Hf. step. cbn [negb].
    step. rewrite Ht. step. cbn [negb].
    step. rewrite <- ?app_assoc; cbn [app]. rewrite Hdel.
    unfold modifyTask. rewrite Hs, Hr. step.
    rewrite <- ?app_assoc; cbn [app]. rewrite Hnew.
    unfold fillDefinitionObj. step.
    rewrite <- ?app_assoc; cbn [app]. rewrite Hfill. step.
    rewrite <- ?app_assoc; cbn [app]. rewrite Hreg. step.
    unfold parseRegisteredTask. step.
    rewrite <- ?app_assoc; cbn [app].
    match goal with
    | |- context [answer_parseRegisteredTask ?b ?tr ?o] =>
        destruct (answer_parseRegisteredTask b tr o) as [[task p] [e|]]
    end; step; reflexivity.
Qed.

Lemma CreateTaskEx_existing_task_witness :
  (exists calls,
     CreateTaskEx mockBridge mockService "\A\TaskA" oneAction "" ""
       TASK_LOGON_NONE false []
       = (Returns (parsed taskA, false, None), [] ++ calls) /\
     mutations calls = []) /\
  (exists calls,
     snd (CreateTaskEx mockBridge mockService "\A\TaskA" oneAction "" ""
            TASK_LOGON_NONE true []) = [] ++ calls /\
     mutations calls
       = [Root_DeleteTask "\A\TaskA" 0;
          Root_RegisterTaskDefinition "\A\TaskA" (mkDefObj 1) TASK_CREATE
            "" "" TASK_LOGON_NONE ""]).
Proof.
  destruct (CreateTaskEx_existing_task mockBridge mockService "\A\TaskA"
              oneAction "" "" TASK_LOGON_NONE [] (mkServiceObj 1) folderRoot
              folderA taskA eq_refl eq_refl eq_refl eq_refl eq_refl eq_refl)
    as [H1 H2].
  split.
  - exact (H1 taskA (parsed taskA) "\A\TaskA" eq_refl eq_refl).
  - exact (H2 (mkDefObj 1) (mkTaskObj "" "\A\TaskA") eq_refl eq_refl eq_refl
             eq_refl).
Defined.

(** ** Walking the hierarchy *)

(** Induction on a folder object: the property holds of a folder when it
    holds of each folder of its [GetFolders] collection. *)
Lemma FolderObj_induction (P : FolderObj -> Prop) :
  (forall name path tasks folders,
     Forall P (match folders with inr l => l | inl _ => [] end) ->
     P (mkFolderObj name path tasks folders)) ->
  forall f, P f.
Proof.
  intros step. fix IH 1. intros [name path tasks folders].
  apply step. destruct folders as [e|l]; [constructor|].
  induction l as [|g l IHl]; constructor; [apply IH|exact IHl].
Qed.

Lemma allRead_inv (P : TaskObj -> Prop) (name path : string)
  (ts : error + list TaskObj) (fs : error + list FolderObj) :
  allRead P (mkFolderObj name path ts fs) ->
  exists tasks folders,
    ts = inr tasks /\ fs = inr folders /\
    Forall P tasks /\ Forall (allRead P) folders.
Proof.
  simpl. intros [Ht Hf].
  destruct ts as [e|tasks]; [contradiction|].
  destruct fs as [e|folders]; [contradiction|].
  exists tasks, folders. repeat split; auto.
  clear Ht. induction folders as [|g l IHl]; [constructor|].
  destruct Hf as [Hg Hl]. constructor; auto.
Qed.



Lemma mutations_app (a b : Trace) :
  mutations (a ++ b) = mutations a ++ mutations b.
Proof. apply List.filter_app. Qed.

(** ** DeleteFolder *)

Section DeleteFolder.

Variable B : Bridge.
Variable t : TaskService.
Variable root : FolderObj.
Hypothesis Hroot : rootFolderObj t = Some root.
Hypothesis HdeleteTask : forall h p, answer_DeleteTask B h p = None.
Hypothesis HdeleteFolder : forall h p, answer_DeleteFolder B h p = None.




End DeleteFolder.



(** ** GetTaskFolder *)

(** C5, at a path other than the root.  On the hierarchy [\A\B],
    [GetTaskFolder("\A")] walks the subtree of [A] (its task, then [B] with
    its task), but the node it returns carries the path of the root
    separator, not [\A], and no name. *)
Theorem GetTaskFolder_top_path_is_root :
  fst (GetTaskFolder mockBridge mockService "\A" [])
  = Returns (mkTaskFolder "" "\" [parsed taskA] [1%nat],
             [mkTaskFolder "" "\" [parsed taskA] [1%nat];
              mkTaskFolder "B" "\A\B" [parsed taskB] []],
             None) /\
  treeOf 2 [mkTaskFolder "" "\" [parsed taskA] [1%nat];
            mkTaskFolder "B" "\A\B" [parsed taskB] []]
    (mkTaskFolder "" "\" [parsed taskA] [1%nat])
  = Some (Folder "" "\" [parsed taskA]
            [Folder "B" "\A\B" [parsed taskB] []]).
Proof. split; reflexivity. Qed.

(** The tree-building example of the specification: on the hierarchy
    [\A\B] with one task in [A] and one in [B], [GetTaskFolder("\")]
    returns without error a root that has no task of its own and one
    subfolder [A], which has one task and one subfolder [B], which has one
    task and no subfolder. *)
Lemma GetTaskFolder_root_example :
  fst (GetTaskFolder mockBridge mockService "\" [])
  = Returns (mkTaskFolder "" "\" [] [1%nat],
             [mkTaskFolder "" "\" [] [1%nat];
              mkTaskFolder "A" "\A" [parsed taskA] [2%nat];
              mkTaskFolder "B" "\A\B" [parsed taskB] []],
             None) /\
  treeOf 3 [mkTaskFolder "" "\" [] [1%nat];
            mkTaskFolder "A" "\A" [parsed taskA] [2%nat];
            mkTaskFolder "B" "\A\B" [parsed taskB] []]
    (mkTaskFolder "" "\" [] [1%nat])
  = Some (Folder "" "\" []
            [Folder "A" "\A" [parsed taskA]
               [Folder "B" "\A\B" [parsed taskB] []]]).
Proof. split; reflexivity. Qed.

(** The node at pointer 0 keeps the empty name and the root path through
    the whole walk: the visitors only append to [RegisteredTasks] and
    [SubFolders] of existing nodes and allocate new nodes at the end. *)
Lemma ForEach_keeps {A : Type} (I : Store -> Prop)
  (visitor : A -> Store -> M (option error * Store)) (items : list A) :
  Forall (fun v => keeps I (visitor v)) items ->
  keeps I (ForEach visitor items).
Proof.
  induction 1 as [|v rest Hv _ IH]; intros st h o st' h' HI Hrun.
  - rewrite ForEach_nil in Hrun. injection Hrun as <- <- <-. exact HI.
  - rewrite ForEach_cons in Hrun. unfold bind in Hrun.
    destruct (visitor v st h) as [[[o1 st1]|msg] h1] eqn:E1; [|discriminate].
    specialize (Hv st h o1 st1 h1 HI E1).
    destruct o1 as [err|].
    + injection Hrun as <- <- <-. exact Hv.
    + exact (IH st1 h1 o st' h' Hv Hrun).
Qed.

Lemma topIsRoot_alter (st : Store) (p : nat)
  (f : TaskFolder -> TaskFolder) :
  (forall n, Name (f n) = Name n /\ Path (f n) = Path n) ->
  topIsRoot st -> topIsRoot (alter f p st).
Proof.
  intros Hf (tasks & subs & H0). unfold topIsRoot.
  destruct p as [|p].
  - destruct st as [|n st]; [discriminate|]. simpl in *.
    injection H0 as ->. destruct (Hf (mkTaskFolder "" "\" tasks subs))
      as [Hn Hp].
    destruct (f _) as [n' p' t' s']. simpl in *. subst. eauto.
  - destruct st as [|n st]; [discriminate|]. simpl in *. eauto.
Qed.

Lemma topIsRoot_app (st new : Store) :
  topIsRoot st -> topIsRoot (st ++ new).
Proof.
  intros (tasks & subs & H0). exists tasks, subs.
  destruct st; [discriminate|exact H0].
Qed.

Lemma appendRegisteredTask_keeps (B : Bridge) (folder : nat)
  (task : TaskObj) :
  keeps topIsRoot (appendRegisteredTask B folder task).
Proof.
  intros st h o st' h' HI Hrun. unfold appendRegisteredTask in Hrun.
  unfold parseRegisteredTask in Hrun. rewrite bind_invoke in Hrun.
  destruct (answer_parseRegisteredTask B h task) as [[rt p] [e|]];
    injection Hrun as <- <- <-; [exact HI|].
  apply topIsRoot_alter; [intros n; split; reflexivity|exact HI].
Qed.

Lemma initEnumTaskFolders_keeps (B : Bridge) (taskFolder : FolderObj) :
  forall parentFolder,
    keeps topIsRoot (initEnumTaskFolders B parentFolder taskFolder).
Proof.
  induction taskFolder as [name path ts fs IH] using FolderObj_induction.
  intros parentFolder st h o st' h' HI Hrun.
  cbn [initEnumTaskFolders fo_Path fo_Name fo_GetTasks fo_GetFolders] in Hrun.
  rewrite !bind_invoke, bind_record in Hrun.
  destruct ts as [e|tasks]; [injection Hrun as <- <- <-; exact HI|].
  unfold bind at 1 in Hrun.
  match type of Hrun with
  | context [ForEach ?v tasks ?s ?hh] =>
      destruct (ForEach v tasks s hh) as [[[o1 st1]|msg] h1] eqn:E1;
        [|discriminate]
  end.
  assert (H1 : topIsRoot st1).
  { refine (ForEach_keeps topIsRoot _ tasks _ _ _ _ _ _ _ E1).
    - apply Forall_forall. intros task _. apply appendRegisteredTask_keeps.
    - apply topIsRoot_app, HI. }
  destruct o1 as [err|]; [injection Hrun as <- <- <-; exact H1|].
  rewrite bind_record in Hrun.
  destruct fs as [e|folders].
  - injection Hrun as <- <- <-.
    apply topIsRoot_alter; [intros n; split; reflexivity|exact H1].
  - refine (ForEach_keeps topIsRoot _ folders _ _ _ _ _ _ _ Hrun).
    + eapply Forall_impl; [exact IH|]. intros g Hg. apply Hg.
    + apply topIsRoot_alter; [intros n; split; reflexivity|exact H1].
Qed.

(** Whatever the path and whatever the service answers, the node
    [GetTaskFolder] returns without error has the empty name and the path of
    the root separator. *)
Lemma GetTaskFolder_top_is_root (B : Bridge) (t : TaskService)
  (path : string) (h h' : Trace) (top : TaskFolder) (st : Store) :
  GetTaskFolder B t path h = (Returns (top, st, None), h') ->
  Name top = "" /\ Path top = "\".
Proof.
  unfold GetTaskFolder. unfold bind at 1.
  destruct (index0 path h) as [[c|msg] h0]; [|discriminate].
  destruct (negb (isRoot c)); [discriminate|].
  unfold bind at 1.
  match goal with
  | |- context [(if ?b then ?x else ?y) h0] =>
      destruct ((if b then x else y) h0) as [[[e|topObj]|msg] h1];
        [discriminate| |discriminate]
  end.
  destruct topObj as [obj|]; [|discriminate].
  rewrite bind_deref, bind_record.
  destruct (fo_GetTasks obj) as [e|tasks]; [discriminate|].
  cbv zeta. unfold bind at 1.
  match goal with
  | |- context [ForEach ?v tasks ?s ?hh] =>
      destruct (ForEach v tasks s hh) as [[[o1 st1]|msg] h2] eqn:E1;
        [|discriminate]
  end.
  assert (H1 : topIsRoot st1).
  { refine (ForEach_keeps topIsRoot _ tasks _ _ _ _ _ _ _ E1).
    - apply Forall_forall. intros task _. apply appendRegisteredTask_keeps.
    - exists [], []. reflexivity. }
  destruct o1 as [err|]; [discriminate|].
  rewrite bind_record.
  destruct (fo_GetFolders obj) as [e|folders]; [discriminate|].
  unfold bind at 1.
  match goal with
  | |- context [ForEach ?v folders ?s ?hh] =>
      destruct (ForEach v folders s hh) as [[[o2 st2]|msg] h3] eqn:E2;
        [|discriminate]
  end.
  assert (H2 : topIsRoot st2).
  { refine (ForEach_keeps topIsRoot _ folders _ _ _ _ _ _ _ E2); [|exact H1].
    apply Forall_forall. intros g _. apply initEnumTaskFolders_keeps. }
  destruct o2 as [err|]; [discriminate|].
  unfold ret. intros [= <- <- <-].
  destruct H2 as (tasks' & subs' & ->). split; reflexivity.
Qed.

Lemma GetTaskFolder_top_is_root_witness :
  Name (mkTaskFolder "" "\" [parsed taskA] [1%nat]) = "" /\
  Path (mkTaskFolder "" "\" [parsed taskA] [1%nat]) = "\".
Proof.
  exact (GetTaskFolder_top_is_root mockBridge mockService "\A" [] _ _ _
           eq_refl).
Defined.

(** ** The tree GetTaskFolder builds *)

Lemma holdsTree_more (base : nat) (region more : Store) (ptr : nat)
  (tree : TaskFolderTree) :
  holdsTree base region ptr tree -> holdsTree base (region ++ more) ptr tree.
Proof.
  intros (d0 & H). exists d0. intros pre post d Hpre Hd.
  rewrite <- (app_assoc region more post). now apply H.
Qed.

Lemma holdsTree_shift (base : nat) (before region : Store) (ptr : nat)
  (tree : TaskFolderTree) :
  holdsTree (base + length before) region ptr tree ->
  holdsTree base (before ++ region) ptr tree.
Proof.
  intros (d0 & H). exists d0. intros pre post d Hpre Hd.
  rewrite <- (app_assoc before region post), (app_assoc pre before).
  apply H; [|exact Hd]. rewrite length_app. lia.
Qed.

(** A common sufficient depth for the trees behind a list of pointers. *)
Lemma holdsTree_all (base : nat) (region : Store) (ptrs : list nat)
  (trees : list TaskFolderTree) :
  Forall2 (holdsTree base region) ptrs trees ->
  exists d0, forall pre post d,
    length pre = base -> (d0 <= d)%nat ->
    mapM (fun p => (pre ++ region ++ post) !! p
                     ≫= treeOf d (pre ++ region ++ post)) ptrs
    = Some trees.
Proof.
  induction 1 as [|p tree ptrs trees (d1 & H1) _ (d2 & IH)].
  - exists 0%nat. reflexivity.
  - exists (Nat.max d1 d2). intros pre post d Hpre Hd.
    destruct (H1 pre post d Hpre ltac:(lia)) as (f & Hf & Ht).
    cbn [mapM]. rewrite Hf. cbn [mbind option_bind]. rewrite Ht.
    cbn [mbind option_bind]. rewrite (IH pre post d Hpre ltac:(lia)).
    reflexivity.
Qed.

Section Enumerate.

Variable B : Bridge.
Variable parse : TaskObj -> RegisteredTask.
Hypothesis Hparse :
  forall h task, exists p,
    answer_parseRegisteredTask B h task = (parse task, p, None).

Lemma appendRegisteredTask_run (pre post : Store) (name path : string)
  (tasks : list RegisteredTask) (subs : list nat) (task : TaskObj)
  (h : Trace) :
  appendRegisteredTask B (length pre) task
    (pre ++ mkTaskFolder name path tasks subs :: post) h
  = (Returns (None,
              pre ++ mkTaskFolder name path (tasks ++ [parse task]) subs
                  :: post),
     h ++ [Parse task]).
Proof.
  unfold appendRegisteredTask, parseRegisteredTask. rewrite bind_invoke.
  destruct (Hparse h task) as (p & ->). unfold ret. do 3 f_equal.
  replace (length pre) with (length pre + 0)%nat by lia.
  rewrite alter_app_r. reflexivity.
Qed.

Lemma appendRegisteredTasks_run (pre post : Store) (name path : string)
  (subs : list nat) (items : list TaskObj) :
  forall (tasks : list RegisteredTask) (h : Trace),
  exists calls,
    ForEach (appendRegisteredTask B (length pre)) items
      (pre ++ mkTaskFolder name path tasks subs :: post) h
    = (Returns (None,
                pre ++ mkTaskFolder name path (tasks ++ List.map parse items)
                         subs :: post),
       h ++ calls).
Proof.
  induction items as [|task items IH]; intros tasks h.
  - exists []. rewrite ForEach_nil. unfold ret. cbn [List.map].
    now rewrite !app_nil_r.
  - rewrite ForEach_cons.
    rewrite (bind_run _ _ _ _ _
               (appendRegisteredTask_run pre post name path tasks subs task h)).
    cbv iota.
    destruct (IH (tasks ++ [parse task]) (h ++ [Parse task])) as (calls & ->).
    exists (Parse task :: calls). cbn [List.map].
    rewrite <- !app_assoc. reflexivity.
Qed.

Lemma enumerates_children (folders : list FolderObj) :
  Forall (enumerates B parse) folders ->
  forall (front region : Store) (name path : string)
         (tasks : list RegisteredTask) (ptrs : list nat) (h : Trace),
  exists ptrs' region' calls,
    ForEach (initEnumTaskFolders B (length front)) folders
      (front ++ mkTaskFolder name path tasks ptrs :: region) h
    = (Returns (None,
                front ++ mkTaskFolder name path tasks (ptrs ++ ptrs')
                  :: region ++ region'),
       h ++ calls)
    /\ Forall2 (holdsTree (S (length front)) (region ++ region')) ptrs'
         (List.map (mirror parse) folders).
Proof.
  induction 1 as [|g folders Hg _ IH];
    intros front region name path tasks ptrs h.
  - exists [], [], []. rewrite ForEach_nil, !app_nil_r. split; constructor.
  - destruct (Hg front region name path tasks ptrs h)
      as (new & c1 & Hrun1 & Htree).
    destruct (IH front (region ++ new) name path tasks
                (ptrs ++ [length (front ++ mkTaskFolder name path tasks ptrs
                                    :: region)])
                (h ++ c1))
      as (ptrs' & region' & c2 & Hrun2 & Htrees).
    exists (length (front ++ mkTaskFolder name path tasks ptrs :: region)
            :: ptrs'), (new ++ region'), (c1 ++ c2).
    split.
    + rewrite ForEach_cons, (bind_run _ _ _ _ _ Hrun1). cbv iota.
      rewrite Hrun2. rewrite <- !app_assoc. reflexivity.
    + cbn [List.map]. constructor.
      * rewrite app_assoc. apply holdsTree_more, holdsTree_shift.
        replace (S (length front) + length region)%nat
          with (length (front ++ mkTaskFolder name path tasks ptrs :: region))
          by (rewrite length_app; cbn [length]; lia).
        exact Htree.
      * rewrite app_assoc. exact Htrees.
Qed.

Lemma initEnumTaskFolders_enumerates (g : FolderObj) :
  enumerable g -> enumerates B parse g.
Proof.
  induction g as [name path ts fs IH] using FolderObj_induction.
  intros Hread pre post pname ppath ptasks psubs h.
  destruct (allRead_inv (fun _ => True) name path ts fs Hread)
    as (tasks & folders & -> & -> & _ & Hfolders).
  cbn [initEnumTaskFolders fo_Path fo_Name fo_GetTasks fo_GetFolders].
  rewrite !bind_invoke, bind_record.
  set (st := pre ++ mkTaskFolder pname ppath ptasks psubs :: post).
  destruct (appendRegisteredTasks_run st [] name path [] tasks []
              (((h ++ [Get_Property (OFolder path) "Name"])
                  ++ [Get_Property (OFolder path) "Path"])
                 ++ [Folder_GetTasks path TASK_ENUM_HIDDEN]))
    as (c1 & Hrun1).
  rewrite (bind_run _ _ _ _ _ Hrun1). cbv iota. rewrite bind_record.
  cbn [app].
  assert (Halter :
           alter (fun f => mkTaskFolder (Name f) (Path f) (RegisteredTasks f)
                             (SubFolders f ++ [length st]))
             (length pre)
             (st ++ [mkTaskFolder name path (List.map parse tasks) []])
           = (pre ++ mkTaskFolder pname ppath ptasks (psubs ++ [length st])
                  :: post)
               ++ mkTaskFolder name path (List.map parse tasks) [] :: []).
  { unfold st. rewrite <- !app_assoc.
    replace (length pre) with (length pre + 0)%nat by lia.
    rewrite alter_app_r. reflexivity. }
  rewrite Halter. clear Halter.
  assert (Hchildren : Forall (enumerates B parse) folders).
  { cbn in IH. clear - IH Hfolders.
    induction Hfolders as [|g l Hg _ IHl]; [constructor|].
    apply Forall_cons_iff in IH. destruct IH as [IHg IHrest].
    constructor; [exact (IHg Hg)|exact (IHl IHrest)]. }
  assert (Hlen : length (pre ++ mkTaskFolder pname ppath ptasks
                              (psubs ++ [length st]) :: post) = length st).
  { unfold st. rewrite !length_app. reflexivity. }
  destruct (enumerates_children folders Hchildren
              (pre ++ mkTaskFolder pname ppath ptasks (psubs ++ [length st])
                   :: post)
              [] name path (List.map parse tasks) []
              ((((h ++ [Get_Property (OFolder path) "Name"])
                   ++ [Get_Property (OFolder path) "Path"])
                  ++ [Folder_GetTasks path TASK_ENUM_HIDDEN]) ++ c1
                 ++ [Folder_GetFolders path 0]))
    as (ptrs & region & c2 & Hrun2 & Htrees).
  rewrite Hlen in Hrun2, Htrees.
  rewrite <- !app_assoc in Hrun2. rewrite <- !app_assoc. cbn [app] in *.
  rewrite Hrun2.
  exists (mkTaskFolder name path (List.map parse tasks) ptrs :: region).
  eexists. split.
  - reflexivity.
  - destruct (holdsTree_all _ _ _ _ Htrees) as (d0 & Hall).
    exists (S d0). intros pre0 post0 d Hpre0 Hd.
    exists (mkTaskFolder name path (List.map parse tasks) ptrs). split.
    + rewrite lookup_app_r by lia. rewrite Hpre0, Nat.sub_diag. reflexivity.
    + destruct d as [|d]; [lia|].
      cbn [treeOf SubFolders Name Path RegisteredTasks app].
      specialize (Hall (pre0 ++ [mkTaskFolder name path
                                   (List.map parse tasks) ptrs])
                    post0 d).
      rewrite <- !app_assoc in Hall. cbn [app] in Hall.
      rewrite Hall; [reflexivity| |lia].
      rewrite length_app. cbn [length]. lia.
Qed.

End Enumerate.

(** Whatever the path, when the folder it names can be read and its tasks
    parse, [GetTaskFolder] returns without error, and following the
    pointers of the returned node to any sufficient depth reads the mirror
    of the hierarchy below that folder: its tasks and, depth first, every
    subfolder with its name, path and tasks.  The returned node itself
    has the empty name and the path of the root separator. *)
Theorem GetTaskFolder_mirrors (B : Bridge) (parse : TaskObj -> RegisteredTask)
  (t : TaskService) (path : string) (h : Trace) (F : FolderObj) :
  (forall h task, exists p,
     answer_parseRegisteredTask B h task = (parse task, p, None)) ->
  startsWithRoot path = true ->
  (if (path =? "\")%string then rootFolderObj t = Some F
   else taskServiceObj t <> None /\ answer_GetFolder B h path = inr F) ->
  enumerable F ->
  exists top st calls d0,
    GetTaskFolder B t path h = (Returns (top, st, None), h ++ calls) /\
    forall d, (d0 <= d)%nat ->
      treeOf d st top
      = Some (Folder "" "\" (List.map parse (tasksOf F))
                (List.map (mirror parse) (foldersOf F))).
Proof.
  intros Hparse Hp Hfound Hread.
  destruct F as [name fpath ts fs].
  destruct (allRead_inv (fun _ => True) name fpath ts fs Hread)
    as (tasks & folders & -> & -> & _ & Hfolders).
  unfold GetTaskFolder. rewrite (path_check _ _ _ _ Hp).
  set (F := mkFolderObj name fpath (inr tasks) (inr folders)) in *.
  assert (Htop : exists c0,
    (if (path =? "\")%string then ret (inr (rootFolderObj t))
     else
       _ <- deref (taskServiceObj t) ;;
       r <- invoke (Service_GetFolder path)
              (fun h => answer_GetFolder B h path) ;;
       match r with
       | inl err =>
           ret (inl (Errorf "error getting folder %s: %v"
                       [opString path; opError (getTaskSchedulerError err)]))
       | inr topFolder => ret (inr (Some topFolder))
       end) h
    = (Returns (inr (Some F)), h ++ c0)).
  { destruct (path =? "\")%string.
    - exists []. rewrite Hfound, app_nil_r. reflexivity.
    - destruct Hfound as [Hs HF].
      destruct (taskServiceObj t) as [s|]; [|congruence].
      exists [Service_GetFolder path]. step. rewrite HF. reflexivity. }
  destruct Htop as (c0 & Htop).
  rewrite (bind_run _ _ _ _ _ Htop). cbv iota. step.
  subst F. cbn [fo_Path fo_GetTasks fo_GetFolders]. cbv zeta.
  destruct (appendRegisteredTasks_run B parse Hparse [] [] "" "\" [] tasks []
              ((h ++ c0) ++ [Folder_GetTasks fpath TASK_ENUM_HIDDEN]))
    as (c1 & Hrun1).
  cbn [app length] in Hrun1.
  rewrite (bind_run _ _ _ _ _ Hrun1). cbv iota. step.
  assert (Hchildren : Forall (enumerates B parse) folders).
  { eapply Forall_impl; [exact Hfolders|]. intros g Hg.
    now apply initEnumTaskFolders_enumerates. }
  destruct (enumerates_children B parse folders Hchildren [] [] "" "\"
              (List.map parse tasks) []
              ((((h ++ c0) ++ [Folder_GetTasks fpath TASK_ENUM_HIDDEN])
                  ++ c1) ++ [Folder_GetFolders fpath 0]))
    as (ptrs & region & c2 & Hrun2 & Htrees).
  cbn [app length] in Hrun2, Htrees.
  rewrite (bind_run _ _ _ _ _ Hrun2). cbv iota.
  destruct (holdsTree_all _ _ _ _ Htrees) as (d0 & Hall).
  exists (mkTaskFolder "" "\" (List.map parse tasks) ptrs).
  exists (mkTaskFolder "" "\" (List.map parse tasks) ptrs :: region).
  exists (c0 ++ [Folder_GetTasks fpath TASK_ENUM_HIDDEN] ++ c1
          ++ [Folder_GetFolders fpath 0] ++ c2).
  exists (S d0). split.
  - unfold ret. cbn [lookup list_lookup default]. rewrite <- !app_assoc.
    reflexivity.
  - intros d Hd. destruct d as [|d]; [lia|].
    cbn [treeOf SubFolders Name Path RegisteredTasks].
    specialize (Hall [mkTaskFolder "" "\" (List.map parse tasks) ptrs] [] d
                  eq_refl ltac:(lia)).
    rewrite app_nil_r in Hall. cbn [app] in Hall. rewrite Hall. reflexivity.
Qed.

Lemma GetTaskFolder_mirrors_witness :
  exists top st calls d0,
    GetTaskFolder mockBridge mockService "\A" [] = (Returns (top, st, None), [] ++ calls)
    /\ forall d, (d0 <= d)%nat ->
         treeOf d st top
         = Some (Folder "" "\" [parsed taskA]
                   [Folder "B" "\A\B" [parsed taskB] []]).
Proof.
  apply (GetTaskFolder_mirrors mockBridge parsed mockService "\A" [] folderA).
  - intros h task. exists (to_Path task). reflexivity.
  - reflexivity.
  - split; [discriminate|reflexivity].
  - simpl. repeat split; repeat constructor.
Defined.

(** ** Reading and deleting one task *)

(** On a valid path, with a root folder handle, [DeleteTask] makes exactly
    one call, the delete of that path with flag 0; it returns nil when the
    service accepts it and otherwise the translated error wrapped with the
    path. *)
Lemma DeleteTask_run (B : Bridge) (t : TaskService) (path : string)
  (h : Trace) :
  startsWithRoot path = true ->
  rootFolderObj t <> None ->
  DeleteTask B t path h
  = (Returns
       (match answer_DeleteTask B h path with
        | Some err =>
            Some (Errorf "error deleting task %s: %v"
                    [opString path;
                     opError (Some (ErrorsGo.getTaskSchedulerError
                                      (Some err)))])
        | None => None
        end),
     h ++ [Root_DeleteTask path 0]).
Proof.
  intros Hp Hroot. unfold DeleteTask. rewrite (path_check _ _ _ _ Hp).
  destruct (rootFolderObj t) as [root|]; [|congruence]. step.
  now destruct (answer_DeleteTask B h path).
Qed.

Lemma DeleteTask_run_witness :
  DeleteTask mockBridge mockService "\A\TaskA" []
  = (Returns None, [Root_DeleteTask "\A\TaskA" 0]).
Proof.
  apply (DeleteTask_run mockBridge mockService "\A\TaskA" []);
    [reflexivity | discriminate].
Defined.

(** On a valid path, with a root folder handle, [GetRegisteredTask] asks the
    root folder for the task and, when there is one, parses it: the parsed
    task is returned as it is, and the calls are that lookup and that parse
    and nothing else.  When there is none, the lookup is the only call and
    the error is the translated one wrapped with the path. *)
Lemma GetRegisteredTask_run (B : Bridge) (t : TaskService) (path : string)
  (h : Trace) :
  startsWithRoot path = true ->
  rootFolderObj t <> None ->
  match answer_GetTask B h path with
  | inl err =>
      GetRegisteredTask B t path h
      = (Returns
           (zeroRegisteredTask,
            Some (Errorf "error getting registered task %s: %v"
                    [opString path;
                     opError (Some (ErrorsGo.getTaskSchedulerError
                                      (Some err)))])),
         h ++ [Root_GetTask path])
  | inr taskObj =>
      forall task p,
        answer_parseRegisteredTask B (h ++ [Root_GetTask path]) taskObj
        = (task, p, None) ->
        GetRegisteredTask B t path h
        = (Returns (task, None), h ++ [Root_GetTask path; Parse taskObj])
  end.
Proof.
  intros Hp Hroot. unfold GetRegisteredTask. rewrite (path_check _ _ _ _ Hp).
  destruct (rootFolderObj t) as [root|]; [|congruence]. step.
  destruct (answer_GetTask B h path) as [err|taskObj]; [reflexivity|].
  intros task p Hparse. unfold parseRegisteredTask. step. rewrite Hparse.
  unfold ret. rewrite <- app_assoc. reflexivity.
Qed.

Lemma GetRegisteredTask_run_witness :
  GetRegisteredTask mockBridge mockService "\A\TaskA" []
  = (Returns (parsed taskA, None), [Root_GetTask "\A\TaskA"; Parse taskA]).
Proof.
  apply (GetRegisteredTask_run mockBridge mockService "\A\TaskA" [] eq_refl
           ltac:(discriminate) (parsed taskA) "\A\TaskA" eq_refl).
Defined.

(** ** Operations that only read *)

Lemma onlyCalls_ret {A : Type} (allowed : Call -> Prop) (a : A) :
  onlyCalls allowed (ret a).
Proof. intros h. exists []. now rewrite app_nil_r. Qed.

Lemma onlyCalls_panic {A : Type} (allowed : Call -> Prop) (msg : string) :
  onlyCalls allowed (@panic A msg).
Proof. intros h. exists []. now rewrite app_nil_r. Qed.

Lemma onlyCalls_invoke {A : Type} (allowed : Call -> Prop) (c : Call)
  (answer : Trace -> A) :
  allowed c -> onlyCalls allowed (invoke c answer).
Proof. intros Hc h. exists [c]. split; [reflexivity|]. now constructor. Qed.

Lemma onlyCalls_bind {A B : Type} (allowed : Call -> Prop) (m : M A)
  (k : A -> M B) :
  onlyCalls allowed m -> (forall a, onlyCalls allowed (k a)) ->
  onlyCalls allowed (bind m k).
Proof.
  intros Hm Hk h. destruct (Hm h) as (c1 & E1 & M1). unfold bind.
  destruct (m h) as [[a|msg] h1]; simpl in E1; subst h1.
  - destruct (Hk a (h ++ c1)) as (c2 & E2 & M2). exists (c1 ++ c2).
    rewrite E2, app_assoc. split; [reflexivity|]. now apply Forall_app.
  - now exists c1.
Qed.

Lemma onlyCalls_deref {A : Type} (allowed : Call -> Prop) (p : option A) :
  onlyCalls allowed (deref p).
Proof. destruct p; [apply onlyCalls_ret|apply onlyCalls_panic]. Qed.

Lemma onlyCalls_index0 (allowed : Call -> Prop) (path : string) :
  onlyCalls allowed (index0 path).
Proof. destruct path; [apply onlyCalls_panic|apply onlyCalls_ret]. Qed.

Lemma onlyCalls_ForEach {A S : Type} (allowed : Call -> Prop)
  (visitor : A -> S -> M (option error * S)) (items : list A) :
  Forall (fun v => forall st, onlyCalls allowed (visitor v st)) items ->
  forall st, onlyCalls allowed (ForEach visitor items st).
Proof.
  induction 1 as [|v rest Hv _ IH]; intros st.
  - rewrite ForEach_nil. apply onlyCalls_ret.
  - rewrite ForEach_cons. apply onlyCalls_bind; [apply Hv|].
    intros [[err|] st']; [apply onlyCalls_ret|apply IH].
Qed.

Lemma onlyCalls_weaken {A : Type} (allowed allowed' : Call -> Prop)
  (m : M A) :
  (forall c, allowed c -> allowed' c) ->
  onlyCalls allowed m -> onlyCalls allowed' m.
Proof.
  intros Himp Hm h. destruct (Hm h) as (calls & E & Hall).
  exists calls. split; [exact E|].
  eapply Forall_impl; [exact Hall|exact Himp].
Qed.

Lemma readOnly_parseRegisteredTask (B : Bridge) (task : TaskObj) :
  readOnly (parseRegisteredTask B task).
Proof. apply onlyCalls_invoke. reflexivity. Qed.

Lemma readOnly_appendRegisteredTask (B : Bridge) (folder : nat)
  (task : TaskObj) (st : Store) :
  readOnly (appendRegisteredTask B folder task st).
Proof.
  unfold appendRegisteredTask.
  apply onlyCalls_bind; [apply readOnly_parseRegisteredTask|].
  intros [[r p] [e|]]; apply onlyCalls_ret.
Qed.

Lemma readOnly_collectRegisteredTask (B : Bridge) (task : TaskObj)
  (acc : list RegisteredTask) :
  readOnly (collectRegisteredTask B task acc).
Proof.
  unfold collectRegisteredTask.
  apply onlyCalls_bind; [apply readOnly_parseRegisteredTask|].
  intros [[r p] [e|]]; apply onlyCalls_ret.
Qed.

Lemma readOnly_initEnumTaskFolders (B : Bridge) (g : FolderObj) :
  forall parent st, readOnly (initEnumTaskFolders B parent g st).
Proof.
  induction g as [name path ts fs IH] using FolderObj_induction.
  intros parent st.
  cbn [initEnumTaskFolders fo_Path fo_Name fo_GetTasks fo_GetFolders].
  apply onlyCalls_bind; [apply onlyCalls_invoke; reflexivity|intros name'].
  apply onlyCalls_bind; [apply onlyCalls_invoke; reflexivity|intros path'].
  apply onlyCalls_bind; [apply onlyCalls_invoke; reflexivity|intros _].
  destruct ts as [e|tasks]; [apply onlyCalls_ret|].
  apply onlyCalls_bind.
  { apply onlyCalls_ForEach, Forall_forall. intros task _ st'.
    apply readOnly_appendRegisteredTask. }
  intros [[e|] st']; [apply onlyCalls_ret|].
  apply onlyCalls_bind; [apply onlyCalls_invoke; reflexivity|intros _].
  destruct fs as [e|folders]; [apply onlyCalls_ret|].
  apply onlyCalls_ForEach. eapply Forall_impl; [exact IH|].
  intros g Hg st''. apply Hg.
Qed.

Lemma readOnly_enumTaskFolders (B : Bridge) (g : FolderObj) :
  forall acc, readOnly (enumTaskFolders B g acc).
Proof.
  induction g as [name path ts fs IH] using FolderObj_induction.
  intros acc.
  cbn [enumTaskFolders fo_Path fo_Name fo_GetTasks fo_GetFolders].
  apply onlyCalls_bind; [apply onlyCalls_invoke; reflexivity|intros _].
  destruct ts as [e|tasks]; [apply onlyCalls_ret|].
  apply onlyCalls_bind.
  { apply onlyCalls_ForEach, Forall_forall. intros task _ st'.
    apply readOnly_collectRegisteredTask. }
  intros [[e|] acc']; [apply onlyCalls_ret|].
  apply onlyCalls_bind; [apply onlyCalls_invoke; reflexivity|intros _].
  destruct fs as [e|folders]; [apply onlyCalls_ret|].
  apply onlyCalls_ForEach. eapply Forall_impl; [exact IH|].
  intros g Hg st''. apply Hg.
Qed.

Lemma readOnly_GetRegisteredTask (B : Bridge) (t : TaskService)
  (path : string) :
  readOnly (GetRegisteredTask B t path).
Proof.
  unfold GetRegisteredTask.
  apply onlyCalls_bind; [apply onlyCalls_index0|intros c].
  destruct (negb (isRoot c)); [apply onlyCalls_ret|].
  apply onlyCalls_bind; [apply onlyCalls_deref|intros _].
  apply onlyCalls_bind; [apply onlyCalls_invoke; reflexivity|].
  intros [e|taskObj]; [apply onlyCalls_ret|].
  apply onlyCalls_bind; [apply readOnly_parseRegisteredTask|].
  intros [[r p] [e|]]; apply onlyCalls_ret.
Qed.

Lemma readOnly_GetRegisteredTasks (B : Bridge) (t : TaskService) :
  readOnly (GetRegisteredTasks B t).
Proof.
  unfold GetRegisteredTasks.
  apply onlyCalls_bind; [apply onlyCalls_deref|intros root].
  apply onlyCalls_bind; [apply onlyCalls_invoke; reflexivity|intros _].
  destruct (fo_GetTasks root) as [e|tasks]; [apply onlyCalls_ret|].
  apply onlyCalls_bind.
  { apply onlyCalls_ForEach, Forall_forall. intros task _ st.
    apply readOnly_collectRegisteredTask. }
  intros [[e|] acc]; [apply onlyCalls_ret|].
  apply onlyCalls_bind; [apply onlyCalls_invoke; reflexivity|intros _].
  destruct (fo_GetFolders root) as [e|folders]; [apply onlyCalls_ret|].
  apply onlyCalls_bind.
  { apply onlyCalls_ForEach, Forall_forall. intros g _ st'.
    apply readOnly_enumTaskFolders. }
  intros [[e|] st']; apply onlyCalls_ret.
Qed.

Lemma readOnly_GetTaskFolder (B : Bridge) (t : TaskService) (path : string) :
  readOnly (GetTaskFolder B t path).
Proof.
  unfold GetTaskFolder.
  apply onlyCalls_bind; [apply onlyCalls_index0|intros c].
  destruct (negb (isRoot c)); [apply onlyCalls_ret|].
  apply onlyCalls_bind.
  { destruct (path =? "\")%string; [apply onlyCalls_ret|].
    apply onlyCalls_bind; [apply onlyCalls_deref|intros _].
    apply onlyCalls_bind; [apply onlyCalls_invoke; reflexivity|].
    intros [e|f]; apply onlyCalls_ret. }
  intros [e|top]; [apply onlyCalls_ret|].
  apply onlyCalls_bind; [apply onlyCalls_deref|intros obj].
  apply onlyCalls_bind; [apply onlyCalls_invoke; reflexivity|intros _].
  destruct (fo_GetTasks obj) as [e|tasks]; [apply onlyCalls_ret|].
  cbv zeta. apply onlyCalls_bind.
  { apply onlyCalls_ForEach, Forall_forall. intros task _ st.
    apply readOnly_appendRegisteredTask. }
  intros [[e|] st]; [apply onlyCalls_ret|].
  apply onlyCalls_bind; [apply onlyCalls_invoke; reflexivity|intros _].
  destruct (fo_GetFolders obj) as [e|folders]; [apply onlyCalls_ret|].
  apply onlyCalls_bind.
  { apply onlyCalls_ForEach, Forall_forall. intros g _ st'.
    apply readOnly_initEnumTaskFolders. }
  intros [[e|] st']; apply onlyCalls_ret.
Qed.

(** The four enumerating and reading operations never change the state of
    the service: whatever the connection, the path and the answers of the
    service, and whether they return, fail or fault, every call they make
    is a lookup, a property read or a parse. *)
Theorem readers_never_mutate (B : Bridge) (t : TaskService) (path : string) :
  readOnly (GetRegisteredTask B t path) /\
  readOnly (GetRegisteredTasks B t) /\
  readOnly (GetTaskFolder B t path) /\
  readOnly (GetTaskFolders B t).
Proof.
  split; [apply readOnly_GetRegisteredTask|].
  split; [apply readOnly_GetRegisteredTasks|].
  split; [apply readOnly_GetTaskFolder|].
  unfold GetTaskFolders. apply readOnly_GetTaskFolder.
Qed.

(** ** The flat enumeration *)

Lemma allTasks_unfold (name path : string) (tasks : list TaskObj)
  (folders : list FolderObj) :
  allTasks (mkFolderObj name path (inr tasks) (inr folders))
  = tasks ++ flat_map allTasks folders.
Proof. reflexivity. Qed.

Lemma tasksOfTree_unfold (name path : string) (tasks : list RegisteredTask)
  (subs : list TaskFolderTree) :
  tasksOfTree (Folder name path tasks subs)
  = tasks ++ flat_map tasksOfTree subs.
Proof. reflexivity. Qed.

Lemma mirror_unfold (parse : TaskObj -> RegisteredTask) (name path : string)
  (tasks : list TaskObj) (folders : list FolderObj) :
  mirror parse (mkFolderObj name path (inr tasks) (inr folders))
  = Folder name path (List.map parse tasks)
      (List.map (mirror parse) folders).
Proof. reflexivity. Qed.

(** The tasks of the mirror of a readable hierarchy are the parsed tasks of
    the hierarchy, in the same order. *)
Lemma tasksOfTree_mirror (parse : TaskObj -> RegisteredTask) (g : FolderObj) :
  enumerable g ->
  tasksOfTree (mirror parse g) = List.map parse (allTasks g).
Proof.
  induction g as [name path ts fs IH] using FolderObj_induction.
  intros Hread.
  destruct (allRead_inv (fun _ => True) name path ts fs Hread)
    as (tasks & folders & -> & -> & _ & Hfolders).
  rewrite mirror_unfold, tasksOfTree_unfold, allTasks_unfold, List.map_app.
  f_equal. cbn in IH. clear Hread tasks.
  induction Hfolders as [|g l Hg _ IHl]; [reflexivity|].
  apply Forall_cons_iff in IH. destruct IH as [IHg IHrest].
  cbn [List.map flat_map]. rewrite List.map_app, (IHg Hg), (IHl IHrest).
  reflexivity.
Qed.

Section Flat.

Variable B : Bridge.
Variable parse : TaskObj -> RegisteredTask.
Hypothesis Hparse :
  forall h task, exists p,
    answer_parseRegisteredTask B h task = (parse task, p, None).

Lemma collectRegisteredTasks_run (items : list TaskObj) :
  forall (acc : list RegisteredTask) (h : Trace),
    ForEach (collectRegisteredTask B) items acc h
    = (Returns (None, acc ++ List.map parse items),
       h ++ List.map Parse items).
Proof.
  induction items as [|task items IH]; intros acc h.
  - rewrite ForEach_nil. unfold ret. cbn [List.map]. now rewrite !app_nil_r.
  - rewrite ForEach_cons. unfold collectRegisteredTask at 1.
    unfold parseRegisteredTask. rewrite bind_bind, bind_invoke.
    destruct (Hparse h task) as (p & ->). rewrite bind_ret, IH.
    cbn [List.map]. rewrite <- !app_assoc. reflexivity.
Qed.

Lemma enumTaskFolders_run (g : FolderObj) :
  enumerable g ->
  forall (acc : list RegisteredTask) (h : Trace),
  exists calls,
    enumTaskFolders B g acc h
    = (Returns (None, acc ++ List.map parse (allTasks g)), h ++ calls).
Proof.
  induction g as [name path ts fs IH] using FolderObj_induction.
  intros Hread acc h.
  destruct (allRead_inv (fun _ => True) name path ts fs Hread)
    as (tasks & folders & -> & -> & _ & Hfolders).
  cbn [enumTaskFolders fo_Path fo_GetTasks fo_GetFolders].
  rewrite bind_record, (bind_run _ _ _ _ _ (collectRegisteredTasks_run _ _ _)).
  cbv iota. rewrite bind_record, allTasks_unfold, List.map_app, app_assoc.
  cbn in IH.
  assert (Hloop : forall acc1 h1, exists calls,
            ForEach (enumTaskFolders B) folders acc1 h1
            = (Returns (None, acc1 ++ List.map parse (flat_map allTasks folders)),
               h1 ++ calls)).
  { clear - IH Hfolders.
    induction Hfolders as [|g l Hg _ IHl]; intros acc1 h1.
    - exists []. rewrite ForEach_nil. unfold ret. cbn.
      now rewrite !app_nil_r.
    - apply Forall_cons_iff in IH. destruct IH as [IHg IHrest].
      destruct (IHg Hg acc1 h1) as (c1 & E1).
      destruct (IHl IHrest (acc1 ++ List.map parse (allTasks g)) (h1 ++ c1))
        as (c2 & E2).
      exists (c1 ++ c2). rewrite ForEach_cons, (bind_run _ _ _ _ _ E1).
      cbv iota. rewrite E2. cbn [flat_map].
      rewrite List.map_app, <- !app_assoc. reflexivity. }
  match goal with
  | |- context [ForEach _ folders ?acc' ?h'] =>
      destruct (Hloop acc' h') as (c & E)
  end.
  rewrite E. eexists. rewrite <- !app_assoc. reflexivity.
Qed.


Lemma enumTaskFolders_all (folders : list FolderObj) :
  Forall enumerable folders ->
  forall (acc : list RegisteredTask) (h : Trace),
  exists calls,
    ForEach (enumTaskFolders B) folders acc h
    = (Returns (None, acc ++ List.map parse (flat_map allTasks folders)),
       h ++ calls).
Proof.
  induction 1 as [|g l Hg _ IHl]; intros acc h.
  - exists []. rewrite ForEach_nil. unfold ret. cbn. now rewrite !app_nil_r.
  - destruct (enumTaskFolders_run g Hg acc h) as (c1 & E1).
    destruct (IHl (acc ++ List.map parse (allTasks g)) (h ++ c1))
      as (c2 & E2).
    exists (c1 ++ c2). rewrite ForEach_cons, (bind_run _ _ _ _ _ E1).
    cbv iota. rewrite E2. cbn [flat_map].
    rewrite List.map_app, <- !app_assoc. reflexivity.
Qed.

Lemma GetRegisteredTasks_run (t : TaskService) (name path : string)
  (tasks : list TaskObj) (folders : list FolderObj) (h : Trace) :
  rootFolderObj t = Some (mkFolderObj name path (inr tasks) (inr folders)) ->
  Forall enumerable folders ->
  exists calls,
    GetRegisteredTasks B t h
    = (Returns (List.map parse tasks
                ++ List.map parse (flat_map allTasks folders), None),
       h ++ calls).
Proof.
  intros Hroot Hfolders. unfold GetRegisteredTasks. rewrite Hroot. step.
  cbn [fo_Path fo_GetTasks fo_GetFolders].
  rewrite (bind_run _ _ _ _ _ (collectRegisteredTasks_run _ _ _)).
  cbv iota. step. cbn [app].
  match goal with
  | |- context [bind (ForEach _ folders ?acc) _ ?h'] =>
      destruct (enumTaskFolders_all folders Hfolders acc h') as (c & E)
  end.
  rewrite (bind_run _ _ _ _ _ E). cbv iota.
  eexists. unfold ret. rewrite <- !app_assoc. reflexivity.
Qed.

(** [GetTaskFolders] on a root folder whose hierarchy can be read: the node
    returned, the store returned with it, and the trees behind the pointers
    of the node. *)
Lemma GetTaskFolders_run (t : TaskService) (name path : string)
  (tasks : list TaskObj) (folders : list FolderObj) (h : Trace) :
  rootFolderObj t = Some (mkFolderObj name path (inr tasks) (inr folders)) ->
  Forall enumerable folders ->
  exists ptrs region calls,
    GetTaskFolders B t h
    = (Returns (mkTaskFolder "" "\" (List.map parse tasks) ptrs,
                mkTaskFolder "" "\" (List.map parse tasks) ptrs :: region,
                None),
       h ++ calls)
    /\ Forall2 (holdsTree 1 region) ptrs (List.map (mirror parse) folders).
Proof.
  intros Hroot Hfolders. unfold GetTaskFolders, GetTaskFolder.
  rewrite (path_check _ _ _ _ (eq_refl : startsWithRoot "\" = true)).
  change ("\" =? "\")%string with true. cbv iota. rewrite Hroot. step.
  cbn [fo_Path fo_GetTasks fo_GetFolders]. cbv zeta.
  destruct (appendRegisteredTasks_run B parse Hparse [] [] "" "\" [] tasks []
              (h ++ [Folder_GetTasks path TASK_ENUM_HIDDEN]))
    as (c1 & Hrun1).
  cbn [app length] in Hrun1.
  rewrite (bind_run _ _ _ _ _ Hrun1). cbv iota. step.
  assert (Hchildren : Forall (enumerates B parse) folders).
  { eapply Forall_impl; [exact Hfolders|]. intros g Hg.
    now apply initEnumTaskFolders_enumerates. }
  destruct (enumerates_children B parse folders Hchildren [] [] "" "\"
              (List.map parse tasks) []
              (((h ++ [Folder_GetTasks path TASK_ENUM_HIDDEN]) ++ c1)
                 ++ [Folder_GetFolders path 0]))
    as (ptrs & region & c2 & Hrun2 & Htrees).
  cbn [app length] in Hrun2, Htrees.
  rewrite (bind_run _ _ _ _ _ Hrun2). cbv iota.
  exists ptrs, region. eexists. split; [|exact Htrees].
  unfold ret. cbn [lookup list_lookup default]. rewrite <- !app_assoc.
  reflexivity.
Qed.

End Flat.

(** When every folder of the hierarchy can be read and every task parses,
    [GetRegisteredTasks] returns without error the parsed tasks of the
    whole hierarchy in the order of a pre-order walk: the tasks of the root
    folder, then for each subfolder in turn its tasks followed by those of
    its subfolders. *)
Theorem GetRegisteredTasks_preorder (B : Bridge)
  (parse : TaskObj -> RegisteredTask) (t : TaskService) (root : FolderObj)
  (h : Trace) :
  (forall h task, exists p,
     answer_parseRegisteredTask B h task = (parse task, p, None)) ->
  rootFolderObj t = Some root ->
  enumerable root ->
  exists calls,
    GetRegisteredTasks B t h
    = (Returns (List.map parse (allTasks root), None), h ++ calls).
Proof.
  intros Hparse Hroot Hread. destruct root as [name path ts fs].
  destruct (allRead_inv (fun _ => True) name path ts fs Hread)
    as (tasks & folders & -> & -> & _ & Hfolders).
  rewrite allTasks_unfold, List.map_app.
  exact (GetRegisteredTasks_run B parse Hparse t name path tasks folders h
           Hroot Hfolders).
Qed.

Lemma GetRegisteredTasks_preorder_witness :
  exists calls,
    GetRegisteredTasks mockBridge mockService []
    = (Returns ([parsed taskA; parsed taskB], None), [] ++ calls).
Proof.
  apply (GetRegisteredTasks_preorder mockBridge parsed mockService folderRoot []).
  - intros h task. exists (to_Path task). reflexivity.
  - reflexivity.
  - simpl. repeat split; repeat constructor.
Defined.

(** The flat enumeration and the tree enumeration agree: on a hierarchy
    that can be read and whose tasks parse, the list [GetRegisteredTasks]
    returns is the list of the tasks of the tree [GetTaskFolders] returns,
    read in pre-order. *)
Theorem GetRegisteredTasks_flattens_GetTaskFolders (B : Bridge)
  (parse : TaskObj -> RegisteredTask) (t : TaskService) (root : FolderObj)
  (h h' : Trace) :
  (forall h task, exists p,
     answer_parseRegisteredTask B h task = (parse task, p, None)) ->
  rootFolderObj t = Some root ->
  enumerable root ->
  exists top st depth tree calls calls',
    GetTaskFolders B t h = (Returns (top, st, None), h ++ calls) /\
    treeOf depth st top = Some tree /\
    GetRegisteredTasks B t h'
    = (Returns (tasksOfTree tree, None), h' ++ calls').
Proof.
  intros Hparse Hroot Hread. destruct root as [name path ts fs].
  destruct (allRead_inv (fun _ => True) name path ts fs Hread)
    as (tasks & folders & -> & -> & _ & Hfolders).
  destruct (GetTaskFolders_run B parse Hparse t name path tasks folders h
              Hroot Hfolders) as (ptrs & region & calls & Hrun & Htrees).
  destruct (GetRegisteredTasks_run B parse Hparse t name path tasks folders h'
              Hroot Hfolders) as (calls' & Hflat).
  destruct (holdsTree_all _ _ _ _ Htrees) as (d0 & Hall).
  exists (mkTaskFolder "" "\" (List.map parse tasks) ptrs),
    (mkTaskFolder "" "\" (List.map parse tasks) ptrs :: region),
    (S d0),
    (Folder "" "\" (List.map parse tasks) (List.map (mirror parse) folders)),
    calls, calls'.
  split; [exact Hrun|]. split.
  - cbn [treeOf SubFolders Name Path RegisteredTasks].
    specialize (Hall [mkTaskFolder "" "\" (List.map parse tasks) ptrs] [] d0
                  eq_refl ltac:(lia)).
    rewrite app_nil_r in Hall. cbn [app] in Hall. rewrite Hall. reflexivity.
  - assert (Hsame : flat_map tasksOfTree (List.map (mirror parse) folders)
                   = List.map parse (flat_map allTasks folders)).
    { clear - Hfolders.
      induction Hfolders as [|g l Hg _ IHl]; [reflexivity|].
      cbn [List.map flat_map].
      now rewrite List.map_app, IHl, (tasksOfTree_mirror parse g Hg). }
    rewrite Hflat, tasksOfTree_unfold, Hsame. reflexivity.
Qed.

Lemma GetRegisteredTasks_flattens_GetTaskFolders_witness :
  exists top st depth tree calls calls',
    GetTaskFolders mockBridge mockService [] = (Returns (top, st, None), [] ++ calls) /\
    treeOf depth st top = Some tree /\
    GetRegisteredTasks mockBridge mockService []
    = (Returns (tasksOfTree tree, None), [] ++ calls').
Proof.
  apply (GetRegisteredTasks_flattens_GetTaskFolders mockBridge parsed
           mockService folderRoot [] []).
  - intros h task. exists (to_Path task). reflexivity.
  - reflexivity.
  - simpl. repeat split; repeat constructor.
Defined.

(** ** What an operation returns, and which calls it makes *)

Lemma yields_ret {A : Type} (a : A) (Q : A -> Prop) : Q a -> yields (ret a) Q.
Proof. intros HQ h a' [= <-]. exact HQ. Qed.

Lemma yields_bind {A B : Type} (m : M A) (k : A -> M B) (Q : B -> Prop) :
  (forall a, yields (k a) Q) -> yields (bind m k) Q.
Proof.
  intros Hk h b. unfold bind. destruct (m h) as [[a|msg] h1].
  - apply Hk.
  - discriminate.
Qed.

(** When an operation returns an error, the value returned with it is the
    zero value: no task, no folder, an empty list, a false flag.  Nothing
    partial comes back with an error. *)
Theorem error_comes_with_zero_value (B : Bridge) (t : TaskService)
  (path : string) (def : TaskDefinition) (username password : string)
  (logonType : TaskLogonType) (overwrite recursive : bool) :
  yields (GetRegisteredTask B t path)
    (fun r => snd r <> None -> fst r = zeroRegisteredTask) /\
  yields (GetRegisteredTasks B t)
    (fun r => snd r <> None -> fst r = []) /\
  yields (GetTaskFolder B t path)
    (fun r => snd r <> None -> fst r = (zeroTaskFolder, [])) /\
  yields (CreateTaskEx B t path def username password logonType overwrite)
    (fun r => snd r <> None -> fst r = (zeroRegisteredTask, false)) /\
  yields (UpdateTaskEx B t path def username password logonType)
    (fun r => snd r <> None -> fst r = zeroRegisteredTask) /\
  yields (DeleteFolder B t path recursive)
    (fun r => snd r <> None -> fst r = false).
Proof.
  repeat split.
  - unfold GetRegisteredTask. apply yields_bind. intros c.
    destruct (negb (isRoot c)); [now apply yields_ret|].
    do 2 (apply yields_bind; intros ?).
    destruct a0 as [e|taskObj]; [now apply yields_ret|].
    apply yields_bind. intros [[task p] [e|]]; apply yields_ret; simpl;
      congruence.
  - unfold GetRegisteredTasks. do 2 (apply yields_bind; intros ?).
    destruct (fo_GetTasks a) as [e|tasks]; [now apply yields_ret|].
    apply yields_bind. intros [[e|] acc]; [now apply yields_ret|].
    apply yields_bind. intros _.
    destruct (fo_GetFolders a) as [e|folders]; [now apply yields_ret|].
    apply yields_bind. intros [[e|] acc']; apply yields_ret; simpl;
      congruence.
  - unfold GetTaskFolder. apply yields_bind. intros c.
    destruct (negb (isRoot c)); [now apply yields_ret|].
    apply yields_bind. intros [e|top]; [now apply yields_ret|].
    do 2 (apply yields_bind; intros ?).
    destruct (fo_GetTasks a) as [e|tasks]; [now apply yields_ret|].
    cbv zeta. apply yields_bind. intros [[e|] st]; [now apply yields_ret|].
    apply yields_bind. intros _.
    destruct (fo_GetFolders a) as [e|folders]; [now apply yields_ret|].
    apply yields_bind. intros [[e|] st']; apply yields_ret; simpl;
      congruence.
  - unfold CreateTaskEx. apply yields_bind. intros c.
    destruct (negb (isRoot c)); [now apply yields_ret|].
    destruct (validateDefinition def); [now apply yields_ret|]. cbv zeta.
    assert (Hregister :
      yields
        (r <- modifyTask B t path def username password logonType
                TASK_CREATE ;;
         match r with
         | inl err =>
             ret (zeroRegisteredTask, false,
                  Some (Errorf "error creating registered task %s: %v"
                          [opString path; opError (Some err)]))
         | inr newTaskObj =>
             p <- parseRegisteredTask B newTaskObj ;;
             match p with
             | (_, _, Some err) =>
                 ret (zeroRegisteredTask, false,
                      Some (Errorf "error parsing registered task %s: %v"
                              [opString path; opError (Some err)]))
             | (newTask, _, None) => ret (newTask, true, None)
             end
         end)
        (fun r => snd r <> None -> fst r = (zeroRegisteredTask, false))).
    { apply yields_bind. intros [e|obj]; [now apply yields_ret|].
      apply yields_bind. intros [[task p] [e|]]; apply yields_ret; simpl;
        congruence. }
    apply yields_bind. intros folderExists.
    destruct (negb folderExists).
    + do 2 (apply yields_bind; intros ?).
      destruct a0; [now apply yields_ret|exact Hregister].
    + apply yields_bind. intros taskExists.
      destruct taskExists; [|exact Hregister].
      destruct (negb overwrite).
      * apply yields_bind. intros [task [e|]]; apply yields_ret; simpl;
          congruence.
      * do 2 (apply yields_bind; intros ?).
        destruct a0; [now apply yields_ret|exact Hregister].
  - unfold UpdateTaskEx. apply yields_bind. intros c.
    destruct (negb (isRoot c)); [now apply yields_ret|].
    destruct (validateDefinition def); [now apply yields_ret|].
    apply yields_bind. intros [e|obj]; [now apply yields_ret|].
    apply yields_bind. intros [[task p] [e|]]; apply yields_ret; simpl;
      congruence.
  - unfold DeleteFolder. apply yields_bind. intros c.
    destruct (negb (isRoot c)); [now apply yields_ret|].
    do 2 (apply yields_bind; intros ?).
    destruct a0 as [e|folder]; [now apply yields_ret|].
    apply yields_bind. intros _.
    destruct (fo_GetTasks folder) as [e|tasks]; [now apply yields_ret|].
    apply yields_bind. intros hasTasks.
    destruct hasTasks; [apply yields_ret; simpl; congruence|].
    apply yields_bind. intros _.
    destruct (fo_GetFolders folder) as [e|folders]; [now apply yields_ret|].
    apply yields_bind. intros hasFolders.
    destruct hasFolders; [apply yields_ret; simpl; congruence|]. cbv zeta.
    assert (Hparent :
      yields
        (_ <- deref (rootFolderObj t) ;;
         e <- invoke (Root_DeleteFolder path 0)
                (fun h => answer_DeleteFolder B h path) ;;
         match e with
         | Some err =>
             ret (false,
                  Some (Errorf "error deleting task folder %s: %v"
                          [opString path;
                           opError (getTaskSchedulerError err)]))
         | None => ret (true, None)
         end)
        (fun r : bool * option error => snd r <> None -> fst r = false)).
    { do 2 (apply yields_bind; intros ?).
      destruct a1; apply yields_ret; simpl; congruence. }
    destruct recursive; [|exact Hparent].
    apply yields_bind. intros [[e|] u]; [now apply yields_ret|].
    apply yields_bind. intros [[e|] u']; [now apply yields_ret|].
    exact Hparent.
Qed.

(** ** The calls of the mutators *)

Lemma onlyCalls_modifyTask (allowed : Call -> Prop) (B : Bridge)
  (t : TaskService) (path : string) (def : TaskDefinition)
  (username password : string) (logonType : TaskLogonType)
  (flags : TaskCreationFlags) :
  allowed (Service_NewTask 0) ->
  (forall d obj, allowed (Fill d obj)) ->
  (forall obj, allowed (Root_RegisterTaskDefinition path obj flags username
                          password logonType "")) ->
  onlyCalls allowed
    (modifyTask B t path def username password logonType flags).
Proof.
  intros Hnew Hfill Hreg. unfold modifyTask. cbv zeta.
  apply onlyCalls_bind; [apply onlyCalls_deref|intros _].
  apply onlyCalls_bind; [now apply onlyCalls_invoke|].
  intros [e|obj]; [apply onlyCalls_ret|].
  apply onlyCalls_bind; [apply onlyCalls_invoke, Hfill|].
  intros [e|]; [apply onlyCalls_ret|].
  apply onlyCalls_bind; [apply onlyCalls_deref|intros _].
  apply onlyCalls_bind; [apply onlyCalls_invoke; apply Hreg|].
  intros [e|newTaskObj]; apply onlyCalls_ret.
Qed.

Lemma onlyCalls_exist (allowed : Call -> Prop) (B : Bridge)
  (t : TaskService) (path : string) :
  (forall c, isMutation c = false -> allowed c) ->
  onlyCalls allowed (taskFolderExist B t path) /\
  onlyCalls allowed (registeredTaskExist B t path).
Proof.
  intros Hread. split.
  - unfold taskFolderExist.
    apply onlyCalls_bind; [apply onlyCalls_deref|intros _].
    apply onlyCalls_bind; [apply onlyCalls_invoke; now apply Hread|].
    intros [e|f]; apply onlyCalls_ret.
  - unfold registeredTaskExist.
    apply onlyCalls_bind; [apply onlyCalls_deref|intros _].
    apply onlyCalls_bind; [apply onlyCalls_invoke; now apply Hread|].
    intros [e|f]; apply onlyCalls_ret.
Qed.

(** [CreateTaskEx] and [UpdateTaskEx] change nothing but what they are
    asked to.  Whatever the inputs and the answers of the service, and
    whether the operation returns, fails or faults: the only state-changing
    calls [CreateTaskEx] makes are the creation of the parent folder of
    [path], the delete of the task at [path] (and this one only when
    [overwrite] is set) and the registration at [path] with the create flag
    and the credentials given; the only one [UpdateTaskEx] makes is the
    registration at [path] with the update flag. *)
Theorem writers_touch_only_their_task (B : Bridge) (t : TaskService)
  (path : string) (def : TaskDefinition) (username password : string)
  (logonType : TaskLogonType) (overwrite : bool) :
  onlyCalls
    (fun c =>
       isMutation c = true ->
       c = Root_CreateFolder (slice_to path (LastIndex path backslash)) "" \/
       (overwrite = true /\ c = Root_DeleteTask path 0) \/
       exists obj,
         c = Root_RegisterTaskDefinition path obj TASK_CREATE username
               password logonType "")
    (CreateTaskEx B t path def username password logonType overwrite) /\
  onlyCalls
    (fun c =>
       isMutation c = true ->
       exists obj,
         c = Root_RegisterTaskDefinition path obj TASK_UPDATE username
               password logonType "")
    (UpdateTaskEx B t path def username password logonType).
Proof.
  split.
  - set (allowed := fun c : Call => _).
    assert (Hread : forall c, isMutation c = false -> allowed c).
    { intros c Hc Hm. congruence. }
    assert (Hregister :
      onlyCalls allowed
        (r <- modifyTask B t path def username password logonType
                TASK_CREATE ;;
         match r with
         | inl err =>
             ret (zeroRegisteredTask, false,
                  Some (Errorf "error creating registered task %s: %v"
                          [opString path; opError (Some err)]))
         | inr newTaskObj =>
             p <- parseRegisteredTask B newTaskObj ;;
             match p with
             | (_, _, Some err) =>
                 ret (zeroRegisteredTask, false,
                      Some (Errorf "error parsing registered task %s: %v"
                              [opString path; opError (Some err)]))
             | (newTask, _, None) => ret (newTask, true, None)
             end
         end)).
    { apply onlyCalls_bind.
      - apply onlyCalls_modifyTask;
          [now apply Hread|intros d obj; now apply Hread|].
        intros obj _. right. right. now exists obj.
      - intros [e|obj]; [apply onlyCalls_ret|].
        apply onlyCalls_bind; [apply onlyCalls_invoke; now apply Hread|].
        intros [[task p] [e|]]; apply onlyCalls_ret. }
    unfold CreateTaskEx.
    apply onlyCalls_bind; [apply onlyCalls_index0|intros c].
    destruct (negb (isRoot c)); [apply onlyCalls_ret|].
    destruct (validateDefinition def); [apply onlyCalls_ret|]. cbv zeta.
    apply onlyCalls_bind; [now apply onlyCalls_exist|intros folderExists].
    destruct (negb folderExists).
    + apply onlyCalls_bind; [apply onlyCalls_deref|intros _].
      apply onlyCalls_bind.
      { apply onlyCalls_invoke. intros _. now left. }
      intros [e|]; [apply onlyCalls_ret|exact Hregister].
    + apply onlyCalls_bind; [now apply onlyCalls_exist|intros taskExists].
      destruct taskExists; [|exact Hregister].
      destruct overwrite; cbn [negb].
      * apply onlyCalls_bind; [apply onlyCalls_deref|intros _].
        apply onlyCalls_bind.
        { apply onlyCalls_invoke. intros _. right. left. now split. }
        intros [e|]; [apply onlyCalls_ret|exact Hregister].
      * apply onlyCalls_bind.
        { eapply onlyCalls_weaken; [exact Hread|].
          apply readOnly_GetRegisteredTask. }
        intros [task [e|]]; apply onlyCalls_ret.
  - set (allowed := fun c : Call => _).
    assert (Hread : forall c, isMutation c = false -> allowed c).
    { intros c Hc Hm. congruence. }
    unfold UpdateTaskEx.
    apply onlyCalls_bind; [apply onlyCalls_index0|intros c].
    destruct (negb (isRoot c)); [apply onlyCalls_ret|].
    destruct (validateDefinition def); [apply onlyCalls_ret|].
    apply onlyCalls_bind.
    { apply onlyCalls_modifyTask;
        [now apply Hread|intros d obj; now apply Hread|].
      intros obj _. now exists obj. }
    intros [e|obj]; [apply onlyCalls_ret|].
    apply onlyCalls_bind; [apply onlyCalls_invoke; now apply Hread|].
    intros [[task p] [e|]]; apply onlyCalls_ret.
Qed.

Lemma onlyCalls_DeleteTask (allowed : Call -> Prop) (B : Bridge)
  (t : TaskService) (path : string) :
  allowed (Root_DeleteTask path 0) ->
  onlyCalls allowed (DeleteTask B t path).
Proof.
  intros Hdel. unfold DeleteTask.
  apply onlyCalls_bind; [apply onlyCalls_index0|intros c].
  destruct (negb (isRoot c)); [apply onlyCalls_ret|].
  apply onlyCalls_bind; [apply onlyCalls_deref|intros _].
  apply onlyCalls_bind; [now apply onlyCalls_invoke|].
  intros [e|]; apply onlyCalls_ret.
Qed.

Section OnlyDeletes.

Variable allowed : Call -> Prop.
Hypothesis Hread : forall c, isMutation c = false -> allowed c.
Hypothesis HdeleteTask : forall p, allowed (Root_DeleteTask p 0).
Hypothesis HdeleteFolder : forall p, allowed (Root_DeleteFolder p 0).
Variable B : Bridge.
Variable t : TaskService.

Lemma onlyCalls_deleteAllTasks (task : TaskObj) (st : unit) :
  onlyCalls allowed (deleteAllTasks B t task st).
Proof.
  unfold deleteAllTasks.
  apply onlyCalls_bind; [apply onlyCalls_invoke; now apply Hread|].
  intros name.
  apply onlyCalls_bind; [apply onlyCalls_DeleteTask, HdeleteTask|].
  intros e. apply onlyCalls_ret.
Qed.

Lemma onlyCalls_deleteTasksRecursively (path : string) (g : FolderObj) :
  forall st, onlyCalls allowed (deleteTasksRecursively B t path g st).
Proof.
  induction g as [name gpath ts fs IH] using FolderObj_induction.
  intros st.
  cbn [deleteTasksRecursively fo_Path fo_GetTasks fo_GetFolders].
  apply onlyCalls_bind; [apply onlyCalls_invoke; now apply Hread|intros _].
  destruct ts as [e|tasks]; [apply onlyCalls_ret|].
  apply onlyCalls_bind.
  { apply onlyCalls_ForEach, Forall_forall. intros task _ st'.
    apply onlyCalls_deleteAllTasks. }
  intros [[e|] st']; [apply onlyCalls_ret|].
  apply onlyCalls_bind; [apply onlyCalls_invoke; now apply Hread|intros _].
  destruct fs as [e|folders]; [apply onlyCalls_ret|].
  apply onlyCalls_bind.
  { apply onlyCalls_ForEach. eapply Forall_impl; [exact IH|].
    intros g Hg st''. apply Hg. }
  intros [[e|] st'']; [apply onlyCalls_ret|].
  apply onlyCalls_bind; [apply onlyCalls_invoke; now apply Hread|].
  intros current.
  apply onlyCalls_bind; [apply onlyCalls_deref|intros _].
  apply onlyCalls_bind; [apply onlyCalls_invoke, HdeleteFolder|].
  intros [e|]; apply onlyCalls_ret.
Qed.

End OnlyDeletes.

(** [DeleteFolder] only deletes, and without the recursive flag it deletes
    nothing but the folder it is given.  Whatever the inputs and the
    answers of the service, and whether it returns, fails or faults: it
    never creates a folder and never registers a task; in the
    non-recursive mode its only possible state-changing call is the delete
    of [path] itself. *)
Theorem DeleteFolder_only_deletes (B : Bridge) (t : TaskService)
  (path : string) (recursive : bool) :
  onlyCalls
    (fun c =>
       isMutation c = true ->
       if recursive
       then exists p, c = Root_DeleteTask p 0 \/ c = Root_DeleteFolder p 0
       else c = Root_DeleteFolder path 0)
    (DeleteFolder B t path recursive).
Proof.
  set (allowed := fun c : Call => _).
  assert (Hread : forall c, isMutation c = false -> allowed c).
  { intros c Hc Hm. congruence. }
  assert (Hparent : allowed (Root_DeleteFolder path 0)).
  { intros _. destruct recursive; [exists path; now right|reflexivity]. }
  unfold DeleteFolder.
  apply onlyCalls_bind; [apply onlyCalls_index0|intros c].
  destruct (negb (isRoot c)); [apply onlyCalls_ret|].
  apply onlyCalls_bind; [apply onlyCalls_deref|intros _].
  apply onlyCalls_bind; [apply onlyCalls_invoke; now apply Hread|].
  intros [e|folder]; [apply onlyCalls_ret|].
  apply onlyCalls_bind; [apply onlyCalls_invoke; now apply Hread|intros _].
  destruct (fo_GetTasks folder) as [e|tasks]; [apply onlyCalls_ret|].
  assert (Hcount : forall (A : Type) (o : Obj) (items : list A),
             onlyCalls allowed (nonEmpty recursive o items)).
  { intros A o items. unfold nonEmpty.
    destruct (negb recursive); [|apply onlyCalls_ret].
    apply onlyCalls_bind; [apply onlyCalls_invoke; now apply Hread|].
    intros n. apply onlyCalls_ret. }
  apply onlyCalls_bind; [apply Hcount|intros hasTasks].
  destruct hasTasks; [apply onlyCalls_ret|].
  apply onlyCalls_bind; [apply onlyCalls_invoke; now apply Hread|intros _].
  destruct (fo_GetFolders folder) as [e|folders]; [apply onlyCalls_ret|].
  apply onlyCalls_bind; [apply Hcount|intros hasFolders].
  destruct hasFolders; [apply onlyCalls_ret|]. cbv zeta.
  assert (HdeleteParent :
    onlyCalls allowed
      (_ <- deref (rootFolderObj t) ;;
       e <- invoke (Root_DeleteFolder path 0)
              (fun h => answer_DeleteFolder B h path) ;;
       match e with
       | Some err =>
           ret (false,
                Some (Errorf "error deleting task folder %s: %v"
                        [opString path;
                         opError (getTaskSchedulerError err)]))
       | None => ret (true, None)
       end)).
  { apply onlyCalls_bind; [apply onlyCalls_deref|intros _].
    apply onlyCalls_bind; [now apply onlyCalls_invoke|].
    intros [e|]; apply onlyCalls_ret. }
  destruct recursive eqn:Hrec; [|exact HdeleteParent].
  assert (Htask : forall p, allowed (Root_DeleteTask p 0)).
  { intros p _. exists p. now left. }
  assert (Hfolder : forall p, allowed (Root_DeleteFolder p 0)).
  { intros p _. exists p. now right. }
  apply onlyCalls_bind.
  { apply onlyCalls_ForEach, Forall_forall. intros task _ st.
    now apply onlyCalls_deleteAllTasks. }
  intros [[e|] u]; [apply onlyCalls_ret|].
  apply onlyCalls_bind.
  { apply onlyCalls_ForEach, Forall_forall. intros g _ st.
    now apply onlyCalls_deleteTasksRecursively. }
  intros [[e|] u']; [apply onlyCalls_ret|exact HdeleteParent].
Qed.

(** ** Reading a result back *)

Lemma bind_Returns {A B : Type} (m : M A) (k : A -> M B) (h h2 : Trace)
  (b : B) :
  bind m k h = (Returns b, h2) ->
  exists a h1, m h = (Returns a, h1) /\ k a h1 = (Returns b, h2).
Proof.
  unfold bind. destruct (m h) as [[a|msg] h1]; [|discriminate].
  intros H. now exists a, h1.
Qed.

Lemma invoke_Returns {A : Type} (c : Call) (answer : Trace -> A)
  (h h1 : Trace) (a : A) :
  invoke c answer h = (Returns a, h1) -> a = answer h /\ h1 = h ++ [c].
Proof. unfold invoke. intros [= <- <-]. now split. Qed.

Lemma ret_Returns {A : Type} (a b : A) (h h1 : Trace) :
  ret a h = (Returns b, h1) -> a = b /\ h1 = h.
Proof. unfold ret. intros [= <- <-]. now split. Qed.

Lemma deref_Returns {A : Type} (p : option A) (a : A) (h h1 : Trace) :
  deref p h = (Returns a, h1) -> p = Some a /\ h1 = h.
Proof.
  destruct p as [a'|]; [|discriminate]. intros H.
  apply ret_Returns in H. destruct H as [-> ->]. now split.
Qed.

(** One step back through a run that returned. *)
Tactic Notation "back" hyp(H) "as" ident(a) ident(h1) ident(E) :=
  apply bind_Returns in H; destruct H as (a & h1 & E & H); cbv beta in H.

Ltac back_ret H :=
  apply ret_Returns in H; destruct H as [H ?]; subst.

Ltac back_invoke E :=
  apply invoke_Returns in E; destruct E as [? ?]; subst.

Ltac back_deref E :=
  apply deref_Returns in E; destruct E as [E ?]; subst.

Lemma index0_Returns (path : string) (c : ascii) (h h1 : Trace) :
  index0 path h = (Returns c, h1) -> h1 = h.
Proof.
  destruct path; [discriminate|]. intros H.
  apply ret_Returns in H. now destruct H.
Qed.

Lemma register_Returns (B : Bridge) (t : TaskService) (path : string)
  (def : TaskDefinition) (username password : string)
  (logonType : TaskLogonType) (flags : TaskCreationFlags) (h h2 : Trace)
  (newTaskObj : TaskObj) :
  modifyTask B t path def username password logonType flags h
  = (Returns (inr newTaskObj), h2) ->
  exists h1 obj,
    h2 = h1 ++ [Root_RegisterTaskDefinition path obj flags username password
                  logonType ""] /\
    answer_RegisterTaskDefinition B h1 path obj flags username password
      logonType = inr newTaskObj.
Proof.
  unfold modifyTask. cbv zeta. intros H.
  back H as s hs Es. back H as r hr Er. back_invoke Er.
  destruct (answer_NewTask B hs) as [e|obj].
  { back_ret H. discriminate. }
  back H as f hf Ef. destruct f as [e|]. { back_ret H. discriminate. }
  back H as root hroot Eroot. back H as reg hreg Ereg. back_invoke Ereg.
  match type of H with
  | context [answer_RegisterTaskDefinition ?b ?tr ?p ?o ?fl ?u ?pw ?lt] =>
      destruct (answer_RegisterTaskDefinition b tr p o fl u pw lt) eqn:Hreg
  end; back_ret H; [discriminate|].
  injection H as ->. eexists _, obj. split; [reflexivity|exact Hreg].
Qed.

Lemma exist_Returns (B : Bridge) (t : TaskService) (path : string)
  (h h1 : Trace) (b : bool) :
  (taskFolderExist B t path h = (Returns b, h1) ->
   h1 = h ++ [Service_GetFolder path]) /\
  (registeredTaskExist B t path h = (Returns b, h1) ->
   h1 = h ++ [Root_GetTask path] /\
   (b = true -> exists taskObj, answer_GetTask B h path = inr taskObj)).
Proof.
  split; intros H.
  - unfold taskFolderExist in H. back H as s hs Es. back_deref Es.
    back H as r hr Er. back_invoke Er.
    destruct (answer_GetFolder B h path); now back_ret H.
  - unfold registeredTaskExist in H. back H as s hs Es. back_deref Es.
    back H as r hr Er. back_invoke Er.
    destruct (answer_GetTask B h path) as [e|taskObj]; back_ret H.
    + split; [reflexivity|]. discriminate.
    + split; [reflexivity|]. intros _. now exists taskObj.
Qed.

(** What the results of [CreateTaskEx] mean.  When it reports that it
    created the task, there is no error and the task returned is the parse
    of the object the service has just registered at [path] with the
    create flag: the registration and that parse are its last two calls.
    When it reports neither a creation nor an error, [overwrite] was not
    set, the service found the task at [path] twice in a row (once to see
    that it exists, once to fetch it), and the task returned is the parse
    of the one fetched; nothing was changed. *)
Theorem CreateTaskEx_result (B : Bridge) (t : TaskService) (path : string)
  (def : TaskDefinition) (username password : string)
  (logonType : TaskLogonType) (overwrite : bool) (h h2 : Trace)
  (task : RegisteredTask) (created : bool) (e : option error) :
  CreateTaskEx B t path def username password logonType overwrite h
  = (Returns (task, created, e), h2) ->
  (created = true ->
   e = None /\
   exists h1 obj newTaskObj p,
     h2 = h1 ++ [Root_RegisterTaskDefinition path obj TASK_CREATE username
                   password logonType ""; Parse newTaskObj] /\
     answer_RegisterTaskDefinition B h1 path obj TASK_CREATE username
       password logonType = inr newTaskObj /\
     answer_parseRegisteredTask B
       (h1 ++ [Root_RegisterTaskDefinition path obj TASK_CREATE username
                 password logonType ""]) newTaskObj
     = (task, p, None)) /\
  (created = false -> e = None ->
   overwrite = false /\
   exists h1 taskObj p,
     h2 = h1 ++ [Root_GetTask path; Root_GetTask path; Parse taskObj] /\
     answer_GetTask B (h1 ++ [Root_GetTask path]) path = inr taskObj /\
     answer_parseRegisteredTask B
       (h1 ++ [Root_GetTask path; Root_GetTask path]) taskObj
     = (task, p, None) /\
     mutations h2 = mutations h).
Proof.
  intros Hrun.
  set (Created :=
    created = true ->
    e = None /\
    exists h1 obj newTaskObj p,
      h2 = h1 ++ [Root_RegisterTaskDefinition path obj TASK_CREATE username
                    password logonType ""; Parse newTaskObj] /\
      answer_RegisterTaskDefinition B h1 path obj TASK_CREATE username
        password logonType = inr newTaskObj /\
      answer_parseRegisteredTask B
        (h1 ++ [Root_RegisterTaskDefinition path obj TASK_CREATE username
                  password logonType ""]) newTaskObj
      = (task, p, None)).
  assert (Hfail : forall err : error,
            (task, created, e) = (zeroRegisteredTask, false, Some err) ->
            forall P : Prop, Created /\ (created = false -> e = None -> P)).
  { intros err [= -> -> ->] P. split; [intros [=]|intros _ [=]]. }
  assert (Hregister : forall h0 (P : Prop),
    (r <- modifyTask B t path def username password logonType TASK_CREATE ;;
     match r with
     | inl err =>
         ret (zeroRegisteredTask, false,
              Some (Errorf "error creating registered task %s: %v"
                      [opString path; opError (Some err)]))
     | inr newTaskObj =>
         p <- parseRegisteredTask B newTaskObj ;;
         match p with
         | (_, _, Some err) =>
             ret (zeroRegisteredTask, false,
                  Some (Errorf "error parsing registered task %s: %v"
                          [opString path; opError (Some err)]))
         | (newTask, _, None) => ret (newTask, true, None)
         end
     end) h0 = (Returns (task, created, e), h2) ->
    Created /\ (created = false -> e = None -> P)).
  { intros h0 P H. back H as r hr Er. destruct r as [err|newTaskObj].
    { back_ret H. symmetry in H. exact (Hfail _ H P). }
    back H as parsed hp Ep. unfold parseRegisteredTask in Ep.
    back_invoke Ep.
    destruct (register_Returns _ _ _ _ _ _ _ _ _ _ _ Er)
      as (h1 & obj & -> & Hreg).
    destruct (answer_parseRegisteredTask B _ newTaskObj)
      as [[newTask p] [err|]] eqn:Hparse; back_ret H.
    { symmetry in H. exact (Hfail _ H P). }
    injection H as <- <- <-. split; [|discriminate].
    intros _. split; [reflexivity|].
    exists h1, obj, newTaskObj, p. rewrite <- app_assoc. now repeat split. }
  unfold CreateTaskEx in Hrun. back Hrun as c hc Ec.
  apply index0_Returns in Ec. subst hc.
  destruct (negb (isRoot c)).
  { back_ret Hrun. symmetry in Hrun. exact (Hfail _ Hrun _). }
  destruct (validateDefinition def).
  { back_ret Hrun. symmetry in Hrun. exact (Hfail _ Hrun _). }
  cbv zeta in Hrun. back Hrun as folderExists hf Ef.
  apply exist_Returns in Ef. subst hf.
  destruct (negb folderExists).
  { back Hrun as root hroot Eroot. back Hrun as made hm Em.
    destruct made.
    - back_ret Hrun. symmetry in Hrun. exact (Hfail _ Hrun _).
    - exact (Hregister _ _ Hrun). }
  back Hrun as taskExists ht Et.
  apply exist_Returns in Et. destruct Et as [-> Hexists].
  destruct taskExists; [|exact (Hregister _ _ Hrun)].
  destruct overwrite; cbn [negb] in Hrun.
  { back Hrun as root hroot Eroot. back Hrun as deleted hd Ed.
    destruct deleted.
    - back_ret Hrun. symmetry in Hrun. exact (Hfail _ Hrun _).
    - exact (Hregister _ _ Hrun). }
  back Hrun as got hg Eg. unfold GetRegisteredTask in Eg.
  back Eg as c' hc' Ec'. apply index0_Returns in Ec'. subst hc'.
  assert (Hgot : forall err : error,
            got = (zeroRegisteredTask, Some err) ->
            Created /\
            (created = false -> e = None ->
             false = false /\
             exists h1 taskObj p,
               h2 = h1 ++ [Root_GetTask path; Root_GetTask path;
                           Parse taskObj] /\
               answer_GetTask B (h1 ++ [Root_GetTask path]) path
               = inr taskObj /\
               answer_parseRegisteredTask B
                 (h1 ++ [Root_GetTask path; Root_GetTask path]) taskObj
               = (task, p, None) /\
               mutations h2 = mutations h)).
  { intros err ->. back_ret Hrun. symmetry in Hrun. exact (Hfail _ Hrun _). }
  destruct (negb (isRoot c')). { back_ret Eg. eapply Hgot. reflexivity. }
  back Eg as root hroot Eroot. back_deref Eroot.
  back Eg as r hr Er. back_invoke Er.
  match type of Eg with
  | context [answer_GetTask B ?tr path] =>
      destruct (answer_GetTask B tr path) as [err|taskObj] eqn:Hget
  end.
  { back_ret Eg. eapply Hgot. reflexivity. }
  back Eg as parsed hp Ep. unfold parseRegisteredTask in Ep. back_invoke Ep.
  destruct (answer_parseRegisteredTask B _ taskObj)
    as [[found p] [err|]] eqn:Hparse; back_ret Eg.
  { eapply Hgot. reflexivity. }
  back_ret Hrun. injection Hrun as <- <- <-.
  split; [intros [=]|]. intros _ _. split; [reflexivity|].
  exists (h ++ [Service_GetFolder (slice_to path (LastIndex path backslash))]),
    taskObj, p.
  rewrite <- !app_assoc in *. cbn [app] in *. repeat split.
  - exact Hget.
  - exact Hparse.
  - rewrite mutations_app. cbn. now rewrite app_nil_r.
Qed.

Lemma CreateTaskEx_result_witness :
  false = false /\
  exists h1 taskObj p,
    [Service_GetFolder "\A"; Root_GetTask "\A\TaskA"; Root_GetTask "\A\TaskA";
     Parse taskA]
    = h1 ++ [Root_GetTask "\A\TaskA"; Root_GetTask "\A\TaskA"; Parse taskObj]
    /\ answer_GetTask mockBridge (h1 ++ [Root_GetTask "\A\TaskA"]) "\A\TaskA"
       = inr taskObj
    /\ answer_parseRegisteredTask mockBridge
         (h1 ++ [Root_GetTask "\A\TaskA"; Root_GetTask "\A\TaskA"]) taskObj
       = (parsed taskA, p, None)
    /\ mutations [Service_GetFolder "\A"; Root_GetTask "\A\TaskA";
                  Root_GetTask "\A\TaskA"; Parse taskA]
       = mutations [].
Proof.
  apply (CreateTaskEx_result mockBridge mockService "\A\TaskA" oneAction ""
           "" TASK_LOGON_NONE false [] _ (parsed taskA) false None eq_refl);
    reflexivity.
Defined.

Lemma nonEmpty_Returns {A : Type} (o : Obj) (items : list A) (h h1 : Trace) :
  nonEmpty false o items h = (Returns false, h1) ->
  items = [] /\ h1 = h ++ [Get_Property o "Count"].
Proof.
  unfold nonEmpty. cbn [negb]. intros H. back H as n hn En. back_invoke En.
  back_ret H. split; [|reflexivity].
  destruct items as [|v rest]; [reflexivity|].
  apply Z.ltb_ge in H. cbn [length] in H. lia.
Qed.

(** What [true] from [DeleteFolder] means.  It comes with no error, the
    delete of [path] is the last call made and the service accepted it.
    Without the recursive flag, moreover, the folder the service found at
    [path] held no task and no subfolder, and that delete is the only
    change made. *)
Theorem DeleteFolder_reports_true (B : Bridge) (t : TaskService)
  (path : string) (recursive : bool) (h h2 : Trace) (e : option error) :
  DeleteFolder B t path recursive h = (Returns (true, e), h2) ->
  e = None /\
  (exists h1,
     h2 = h1 ++ [Root_DeleteFolder path 0] /\
     answer_DeleteFolder B h1 path = None) /\
  (recursive = false ->
   exists folder,
     answer_GetFolder B h path = inr folder /\
     fo_GetTasks folder = inr [] /\
     fo_GetFolders folder = inr [] /\
     mutations h2 = mutations h ++ [Root_DeleteFolder path 0]).
Proof.
  intros Hrun. unfold DeleteFolder in Hrun. back Hrun as c hc Ec.
  apply index0_Returns in Ec. subst hc.
  destruct (negb (isRoot c)); [back_ret Hrun; discriminate|].
  back Hrun as s hs Es. back_deref Es.
  back Hrun as r hr Er. back_invoke Er.
  destruct (answer_GetFolder B h path) as [err|folder] eqn:Hget;
    [back_ret Hrun; discriminate|].
  back Hrun as u hu Eu. back_invoke Eu.
  destruct (fo_GetTasks folder) as [err|tasks] eqn:Htasks;
    [back_ret Hrun; discriminate|].
  back Hrun as hasTasks ht Et.
  destruct hasTasks; [back_ret Hrun; discriminate|].
  back Hrun as u hu Eu. back_invoke Eu.
  destruct (fo_GetFolders folder) as [err|folders] eqn:Hfolders;
    [back_ret Hrun; discriminate|].
  back Hrun as hasFolders hf Ef.
  destruct hasFolders; [back_ret Hrun; discriminate|]. cbv zeta in Hrun.
  assert (Hparent : forall h0,
    (_ <- deref (rootFolderObj t) ;;
     e <- invoke (Root_DeleteFolder path 0)
            (fun h => answer_DeleteFolder B h path) ;;
     match e with
     | Some err =>
         ret (false,
              Some (Errorf "error deleting task folder %s: %v"
                      [opString path; opError (getTaskSchedulerError err)]))
     | None => ret (true, None)
     end) h0 = (Returns (true, e), h2) ->
    e = None /\ h2 = h0 ++ [Root_DeleteFolder path 0] /\
    answer_DeleteFolder B h0 path = None).
  { intros h0 H. back H as root hroot Eroot. back_deref Eroot.
    back H as d hd Ed. back_invoke Ed.
    destruct (answer_DeleteFolder B h0 path) eqn:Hdel; back_ret H;
      [discriminate|].
    injection H as <-. now repeat split. }
  destruct recursive.
  - back Hrun as r1 h1 E1. destruct r1 as [[err|] u1];
      [back_ret Hrun; discriminate|].
    back Hrun as r2 h3 E2. destruct r2 as [[err|] u2];
      [back_ret Hrun; discriminate|].
    destruct (Hparent _ Hrun) as (-> & -> & Hdel).
    split; [reflexivity|]. split; [now exists h3|discriminate].
  - destruct (Hparent _ Hrun) as (-> & -> & Hdel).
    apply nonEmpty_Returns in Et, Ef. destruct Et as [-> ->].
    destruct Ef as [-> ->].
    split; [reflexivity|]. split; [eauto|]. intros _.
    exists folder. repeat split; try assumption.
    rewrite !mutations_app. cbn. now rewrite !app_nil_r.
Qed.

Lemma DeleteFolder_reports_true_witness :
  exists h1,
    [Service_GetFolder "\A\B"; Folder_GetTasks "\A\B" TASK_ENUM_HIDDEN;
     Folder_GetFolders "\A\B" TASK_ENUM_HIDDEN;
     Get_Property (OTask "\A\B\TaskB") "Path";
     Root_DeleteTask "\A\B\TaskB" 0; Root_DeleteFolder "\A\B" 0]
    = h1 ++ [Root_DeleteFolder "\A\B" 0] /\
    answer_DeleteFolder mockBridge h1 "\A\B" = None.
Proof.
  apply (DeleteFolder_reports_true mockBridge mockService "\A\B" true [] _
           None).
  vm_compute. reflexivity.
Defined.

(** ** The parent folder of a task *)

Lemma LastIndex_lower (s : string) (sep : ascii) : -1 <= LastIndex s sep.
Proof.
  induction s as [|c rest IH]; cbn [LastIndex]; [lia|].
  destruct (0 <=? LastIndex rest sep) eqn:E.
  - apply Z.leb_le in E. lia.
  - destruct (Ascii.eqb c sep); lia.
Qed.





(** ** The connection and the operations *)

(** [Disconnect] clears the flags and keeps the handles, and no operation
    looks at the flags: on the connection a [Disconnect] leaves behind,
    [DeleteTask] on a valid path still makes its call, through the root
    folder handle that was released just before. *)
Theorem DeleteTask_after_Disconnect (B : Bridge) (t : TaskService)
  (path : string) (h : Trace) :
  hasHandles t ->
  isConnected t = true ->
  startsWithRoot path = true ->
  exists t' h1 root,
    Disconnect t h = (Returns t', h1) /\
    isConnected t' = false /\
    rootFolderObj t' = Some root /\
    In (Release_Folder root) h1 /\
    snd (DeleteTask B t' path h1) = h1 ++ [Root_DeleteTask path 0].
Proof.
  intros Hh Hc Hp. destruct (hasHandles_inv t Hh) as (s & r & Hs & Hr).
  rewrite (Disconnect_run t h s r Hs Hr), Hc.
  eexists _, _, r. split; [reflexivity|]. split; [reflexivity|].
  split; [reflexivity|]. split.
  - apply in_or_app. right. apply in_or_app. left. right. now left.
  - unfold DeleteTask. rewrite (path_check _ _ _ _ Hp). cbn [rootFolderObj].
    step. now destruct (answer_DeleteTask B _ path).
Qed.

Lemma DeleteTask_after_Disconnect_witness :
  exists t' h1 root,
    Disconnect mockService [] = (Returns t', h1) /\
    isConnected t' = false /\
    rootFolderObj t' = Some root /\
    In (Release_Folder root) h1 /\
    snd (DeleteTask mockBridge t' "\A\TaskA" h1)
    = h1 ++ [Root_DeleteTask "\A\TaskA" 0].
Proof.
  apply (DeleteTask_after_Disconnect mockBridge mockService "\A\TaskA" []).
  - split; discriminate.
  - reflexivity.
  - reflexivity.
Defined.

(** On a connection that holds no handle (the zero value, before
    [ConnectWithOptions]) every operation that reaches the service faults
    on the nil handle: with a valid path, and for the two writers a
    definition that passes validation, none of them returns an error and
    none makes a call. *)
Theorem unconnected_service_faults (B : Bridge) (t : TaskService)
  (path : string) (def : TaskDefinition) (username password : string)
  (logonType : TaskLogonType) (overwrite recursive : bool) (h : Trace) :
  taskServiceObj t = None ->
  rootFolderObj t = None ->
  startsWithRoot path = true ->
  validateDefinition def = None ->
  let fault {A : Type} : Outcome A * Trace :=
    (Panics "invalid memory address or nil pointer dereference", h) in
  GetRegisteredTask B t path h = fault /\
  GetRegisteredTasks B t h = fault /\
  GetTaskFolder B t path h = fault /\
  CreateTaskEx B t path def username password logonType overwrite h = fault /\
  UpdateTaskEx B t path def username password logonType h = fault /\
  DeleteFolder B t path recursive h = fault /\
  DeleteTask B t path h = fault.
Proof.
  intros Hs Hr Hp Hv fault. subst fault.
  unfold GetRegisteredTask, GetRegisteredTasks, GetTaskFolder, CreateTaskEx,
    UpdateTaskEx, DeleteFolder, DeleteTask, modifyTask, taskFolderExist.
  rewrite !(path_check _ _ _ _ Hp), Hv, Hs, Hr. cbv zeta.
  repeat split.
  destruct (path =? "\")%string; reflexivity.
Qed.

Lemma unconnected_service_faults_witness :
  DeleteTask mockBridge zeroTaskService "\A\TaskA" []
  = (Panics "invalid memory address or nil pointer dereference", []).
Proof.
  apply (unconnected_service_faults mockBridge zeroTaskService "\A\TaskA"
           oneAction "" "" TASK_LOGON_NONE false false [] eq_refl eq_refl
           eq_refl eq_refl).
Defined.

(** ** Registration *)

(** [modifyTask] registers nothing but an object it has filled.  If a
    registration appears among its calls, then these calls are exactly
    three: [NewTask], the fill of the object [NewTask] handed out from the
    definition (with the default identity in place), and the registration
    of that same object at [path] with the flag and the credentials given;
    and the fill returned no error. *)
Theorem modifyTask_registers_filled_object (B : Bridge) (t : TaskService)
  (path : string) (def : TaskDefinition) (username password : string)
  (logonType : TaskLogonType) (flags : TaskCreationFlags) (h calls : Trace)
  (p : string) (obj : DefObj) (f : TaskCreationFlags) (u pw : string)
  (lt : TaskLogonType) (sddl : string) :
  snd (modifyTask B t path def username password logonType flags h)
  = h ++ calls ->
  In (Root_RegisterTaskDefinition p obj f u pw lt sddl) calls ->
  calls = [Service_NewTask 0;
           Fill (withDefaultUserID t def) obj;
           Root_RegisterTaskDefinition path obj flags username password
             logonType ""] /\
  answer_NewTask B h = inr obj /\
  answer_fillDefinitionObj B (h ++ [Service_NewTask 0])
    (withDefaultUserID t def) obj = None.
Proof.
  unfold modifyTask. cbv zeta. intros Hrun Hin.
  destruct (taskServiceObj t) as [s|].
  2:{ cbn in Hrun. rewrite <- (app_nil_r h) in Hrun at 1.
      apply app_inv_head in Hrun. subst calls. destruct Hin. }
  revert Hrun. step. destruct (answer_NewTask B h) as [e|obj'] eqn:Hnew.
  { step. cbn [snd ret]. intros Hrun. apply app_inv_head in Hrun.
    subst calls. destruct Hin as [Hin|[]]. discriminate. }
  unfold fillDefinitionObj. step.
  destruct (answer_fillDefinitionObj B _ _ obj') as [e|] eqn:Hfill.
  { step. cbn [snd ret]. rewrite <- app_assoc. intros Hrun.
    apply app_inv_head in Hrun. subst calls.
    destruct Hin as [Hin|[Hin|[]]]; discriminate. }
  destruct (rootFolderObj t) as [r|].
  2:{ cbn [deref bind panic snd]. rewrite <- app_assoc. intros Hrun.
      apply app_inv_head in Hrun. subst calls.
      destruct Hin as [Hin|[Hin|[]]]; discriminate. }
  step.
  match goal with
  | |- context [answer_RegisterTaskDefinition ?a ?b ?c ?d ?e ?g ?i ?j] =>
      destruct (answer_RegisterTaskDefinition a b c d e g i j)
  end; step; cbn [snd ret]; rewrite <- !app_assoc; intros Hrun;
    apply app_inv_head in Hrun; subst calls;
    (destruct Hin as [Hin|[Hin|[Hin|[]]]]; try discriminate);
    injection Hin as _ <- _ _ _ _ _; now repeat split.
Qed.

Lemma modifyTask_registers_filled_object_witness :
  [Service_NewTask 0;
   Fill (withDefaultUserID mockService oneAction) (mkDefObj 1);
   Root_RegisterTaskDefinition "\A\X" (mkDefObj 1) TASK_UPDATE "" ""
     TASK_LOGON_NONE ""]
  = [Service_NewTask 0;
     Fill (withDefaultUserID mockService oneAction) (mkDefObj 1);
     Root_RegisterTaskDefinition "\A\X" (mkDefObj 1) TASK_UPDATE "" ""
       TASK_LOGON_NONE ""] /\
  answer_NewTask mockBridge [] = inr (mkDefObj 1) /\
  answer_fillDefinitionObj mockBridge ([] ++ [Service_NewTask 0])
    (withDefaultUserID mockService oneAction) (mkDefObj 1) = None.
Proof.
  apply (modifyTask_registers_filled_object mockBridge mockService "\A\X"
           oneAction "" "" TASK_LOGON_NONE TASK_UPDATE [] _ "\A\X"
           (mkDefObj 1) TASK_UPDATE "" "" TASK_LOGON_NONE "" eq_refl).
  right. right. left. reflexivity.
Defined.

(** ** The codes the translators let through *)

Lemma uint32_range (x : Z) : 0 <= uint32 x < 2 ^ 32.
Proof. unfold uint32. apply Z.mod_pos_bound. lia. Qed.

Lemma ErrorsGo_failure (err : option error) (code : Z) (pe : error) :
  ErrorsGo.getOLEErrorCode err = (code, Some pe) ->
  exists msg, pe = errorString msg.
Proof.
  destruct err as [[| | | | | | | | |hr d [[| | | | | | | | | |sc]|]|]|];
    simpl; intros [= <- <-]; eauto.
Qed.

Lemma Part000_success_range (err : option error) (code : Z) :
  Part000.getOLEErrorCode err = (code, None) -> 0 <= code < 2 ^ 32.
Proof.
  destruct err as [[| | | | | | | | |hr d [[| | | | | | | | | |sc]|]|]|];
    simpl; try discriminate; destruct (Code hr =? 0); simpl;
    try discriminate; intros [= <-]; apply uint32_range.
Qed.

(** A [syscall.Errno] produced by a translator, in either revision, carries
    a 32-bit code that has no named error of its own: never 50, 53 or
    0x80070032 from [getTaskSchedulerError], never 0x8004130B from
    [getRunningTaskError]. *)
Theorem Errno_carries_an_unnamed_code (err : option error) (c : Z) :
  (ErrorsGo.getTaskSchedulerError err = Errno c \/
   Part000.getTaskSchedulerError err = Errno c ->
   0 <= c < 2 ^ 32 /\ c <> 50 /\ c <> 53 /\ c <> 0x80070032) /\
  (ErrorsGo.getRunningTaskError err = Errno c \/
   Part000.getRunningTaskError err = Errno c ->
   0 <= c < 2 ^ 32 /\ c <> 0x8004130B).
Proof.
  assert (Hs : forall code, schedulerErrorOf code = Errno c ->
                 c = code /\ c <> 50 /\ c <> 53 /\ c <> 0x80070032).
  { intros code. unfold schedulerErrorOf.
    destruct (code =? 50) eqn:E1; [discriminate|].
    destruct (code =? 53) eqn:E2; [discriminate|].
    destruct (code =? 0x80070032) eqn:E3; [discriminate|].
    cbn [orb]. intros [= <-].
    apply Z.eqb_neq in E1, E2, E3. auto. }
  assert (Hs' : forall code,
            (if code =? 50 then ErrTargetUnsupported
             else if (code =? 0x80070032) || (code =? 53)
                  then ErrConnectionFailure else Errno code) = Errno c ->
            c = code /\ c <> 50 /\ c <> 53 /\ c <> 0x80070032).
  { intros code H. apply Hs. unfold schedulerErrorOf. rewrite <- H.
    destruct (code =? 50); [reflexivity|]. now rewrite orb_comm. }
  assert (Hr : forall code, runningErrorOf code = Errno c ->
                 c = code /\ c <> 0x8004130B).
  { intros code. unfold runningErrorOf.
    destruct (code =? 0x8004130B) eqn:E1; [discriminate|].
    intros [= <-]. apply Z.eqb_neq in E1. auto. }
  split; intros [H|H].
  - unfold ErrorsGo.getTaskSchedulerError in H.
    destruct (ErrorsGo.getOLEErrorCode err) as [code [pe|]] eqn:E.
    { destruct (ErrorsGo_failure _ _ _ E) as (msg & ->). discriminate. }
    destruct (ErrorsGo_success_inv _ _ E) as (hr & d & sc & -> & ->).
    destruct (Hs' _ H) as (-> & ?). split; [apply uint32_range|assumption].
  - unfold Part000.getTaskSchedulerError in H.
    destruct (Part000.getOLEErrorCode err) as [code [pe|]] eqn:E;
      [discriminate|].
    destruct (Hs' _ H) as (-> & ?).
    split; [exact (Part000_success_range _ _ E)|assumption].
  - unfold ErrorsGo.getRunningTaskError in H.
    destruct (ErrorsGo.getOLEErrorCode err) as [code [pe|]] eqn:E.
    { destruct (ErrorsGo_failure _ _ _ E) as (msg & ->). discriminate. }
    destruct (ErrorsGo_success_inv _ _ E) as (hr & d & sc & -> & ->).
    destruct (Hr _ H) as (-> & ?). split; [apply uint32_range|assumption].
  - unfold Part000.getRunningTaskError in H.
    destruct (Part000.getOLEErrorCode err) as [code [pe|]] eqn:E;
      [discriminate|].
    destruct (Hr _ H) as (-> & ?).
    split; [exact (Part000_success_range _ _ E)|assumption].
Qed.

(** ** Connecting *)

Lemma hbind_Returns {A B : Type} (m : HostM A) (k : A -> HostM B)
  (h h2 : HostTrace) (b : B) :
  hbind m k h = (Returns b, h2) ->
  exists a h1, m h = (Returns a, h1) /\ k a h1 = (Returns b, h2).
Proof.
  unfold hbind. destruct (m h) as [[a|msg] h1]; [|discriminate].
  intros E. now exists a, h1.
Qed.

Lemma hinvoke_Returns {A : Type} (c : HostCall) (answer : HostTrace -> A)
  (h h1 : HostTrace) (a : A) :
  hinvoke c answer h = (Returns a, h1) -> a = answer h /\ h1 = h ++ [c].
Proof. unfold hinvoke. intros [= <- <-]. now split. Qed.

Lemma hret_Returns {A : Type} (a b : A) (h h1 : HostTrace) :
  hret a h = (Returns b, h1) -> a = b /\ h1 = h.
Proof. unfold hret. intros [= <- <-]. now split. Qed.

Lemma hderef_Returns {A : Type} (p : option A) (a : A) (h h1 : HostTrace) :
  hderef p h = (Returns a, h1) -> p = Some a /\ h1 = h.
Proof.
  destruct p as [a'|]; [|discriminate]. intros E.
  apply hret_Returns in E. destruct E as [-> ->]. now split.
Qed.

Tactic Notation "hback" hyp(H) "as" ident(a) ident(h1) ident(E) :=
  apply hbind_Returns in H; destruct H as (a & h1 & E & H); cbv beta in H.

Ltac hback_ret H :=
  apply hret_Returns in H; destruct H as [H ?]; subst.

Ltac hback_invoke E :=
  apply hinvoke_Returns in E; destruct E as [? ?]; subst.

Ltac hback_deref E :=
  apply hderef_Returns in E; destruct E as [E ?]; subst.

(** [CoInitializeEx] did not stop [initialize]: it returned no error, or an
    [OleError] whose code is [S_OK] or [S_FALSE]. *)
Lemma initialize_Returns (host : Host) (t t' : TaskService)
  (e : option error) (h h2 : HostTrace) :
  initialize host t h = (Returns (t', e), h2) ->
  (e <> None /\ t' = t /\
   (h2 = h ++ [Ole_CoInitializeEx 0 COINIT_MULTITHREADED] \/
    exists calls,
      h2 = h ++ calls ++ [Ole_CoUninitialize] /\
      Forall (fun c => c <> Ole_CoUninitialize /\
                       forall sn un dom pw, c <> Service_Connect sn un dom pw)
        calls)) \/
  (e = None /\
   exists clsid unk s,
     t' = mkTaskService s (rootFolderObj t) true (isConnected t)
            (connectedDomain t) (connectedComputerName t) (connectedUser t) /\
     h2 = h ++ [Ole_CoInitializeEx 0 COINIT_MULTITHREADED;
                Ole_ClassIDFrom "Schedule.Service.1";
                Ole_CreateInstance clsid;
                Unknown_MustQueryInterface unk;
                Unknown_Release unk]).
Proof.
  unfold initialize. intros Hrun. hback Hrun as err h1 E1. hback_invoke E1.
  hback Hrun as fatal h1 E1.
  assert (Hh1 : h1 = h ++ [Ole_CoInitializeEx 0 COINIT_MULTITHREADED] /\
                (fatal = true -> answer_CoInitializeEx host h <> None)).
  { destruct (answer_CoInitializeEx host h) as [[]|];
      try discriminate; hback_ret E1; split; congruence. }
  destruct Hh1 as [-> Hfatal]. clear E1.
  destruct fatal.
  { hback_ret Hrun. injection Hrun as <- <-. left.
    split; [now apply Hfatal|]. split; [reflexivity|now left]. }
  hback Hrun as r h1 E1. hback_invoke E1.
  destruct (answer_ClassIDFrom host _ _) as [err|clsid].
  { hback Hrun as u h1 E1. hback_invoke E1. hback_ret Hrun.
    injection Hrun as <- <-. left. split; [discriminate|].
    split; [reflexivity|]. right. eexists [_; _].
    rewrite <- !app_assoc. split; [reflexivity|].
    repeat constructor; discriminate. }
  hback Hrun as r h1 E1. hback_invoke E1.
  destruct (answer_CreateInstance host _ clsid) as [err|[unk|]].
  - hback Hrun as u h1 E1. hback_invoke E1. hback_ret Hrun.
    injection Hrun as <- <-. left. split; [discriminate|].
    split; [reflexivity|]. right. eexists [_; _; _].
    rewrite <- !app_assoc. split; [reflexivity|].
    repeat constructor; discriminate.
  - hback Hrun as s h1 E1. hback_invoke E1.
    hback Hrun as u h1 E1. hback_invoke E1. hback_ret Hrun.
    injection Hrun as <- <-. right. split; [reflexivity|].
    eexists clsid, unk, _. split; [reflexivity|].
    rewrite <- !app_assoc. reflexivity.
  - hback Hrun as u h1 E1. hback_invoke E1. hback_ret Hrun.
    injection Hrun as <- <-. left. split; [discriminate|].
    split; [reflexivity|]. right. eexists [_; _; _].
    rewrite <- !app_assoc. split; [reflexivity|].
    repeat constructor; discriminate.
Qed.

Lemma ConnectWithOptions_Returns (host : Host)
  (serverName domain username password : string) (t : TaskService)
  (e : option error) (h h2 : HostTrace) :
  ConnectWithOptions host serverName domain username password h
  = (Returns (t, e), h2) ->
  (e <> None /\ t = zeroTaskService /\
   ((h2 = h ++ [Ole_CoInitializeEx 0 COINIT_MULTITHREADED] \/
     exists calls,
       h2 = h ++ calls ++ [Ole_CoUninitialize] /\
       Forall (fun c => c <> Ole_CoUninitialize /\
                        forall sn un dom pw, c <> Service_Connect sn un dom pw)
         calls) \/
    exists calls,
      h2 = h ++ calls /\
      In (Service_Connect serverName username domain password) calls /\
      Forall (fun c => c <> Ole_CoUninitialize) calls)) \/
  (e = None /\
   exists clsid unk s root computer user,
     t = mkTaskService (Some s) (Some root) true true
           (if (domain =? "")%string then computer else domain)
           computer user /\
     h2 = h ++ [Ole_CoInitializeEx 0 COINIT_MULTITHREADED;
                Ole_ClassIDFrom "Schedule.Service.1";
                Ole_CreateInstance clsid;
                Unknown_MustQueryInterface unk;
                Unknown_Release unk;
                Service_Connect serverName username domain password]
            ++ (if (serverName =? "")%string then [Os_Hostname] else [])
            ++ (if (username =? "")%string then [User_Current] else [])
            ++ [Service_GetRootFolder "\"] /\
     (if (serverName =? "")%string
      then exists h1, answer_Hostname host h1 = (computer, None)
      else computer = serverName) /\
     (if (username =? "")%string
      then exists h1 name first rest,
             answer_Current host h1 = inr name /\
             Split name backslash = first :: user :: rest
      else user = username)).
Proof.
  unfold ConnectWithOptions. cbv zeta. cbn [isInitialized zeroTaskService negb].
  intros Hrun. hback Hrun as r h1 E1. destruct r as [t1 e1].
  destruct (initialize_Returns _ _ _ _ _ _ E1)
    as [(He1 & -> & Hcalls)|(-> & clsid & unk & s & -> & ->)].
  { destruct e1 as [err|]; [|congruence]. hback_ret Hrun.
    injection Hrun as <- <-. left. split; [discriminate|].
    split; [reflexivity|]. left. exact Hcalls. }
  clear E1. cbn [taskServiceObj rootFolderObj isInitialized isConnected
                connectedDomain connectedComputerName connectedUser
                zeroTaskService] in Hrun.
  hback Hrun as s' h1 E1. hback_deref E1.
  hback Hrun as connected h1 E2. hback_invoke E2.
  set (init := [Ole_CoInitializeEx 0 COINIT_MULTITHREADED;
                Ole_ClassIDFrom "Schedule.Service.1";
                Ole_CreateInstance clsid;
                Unknown_MustQueryInterface unk;
                Unknown_Release unk]) in *.
  assert (Hlate : forall (err : error) (calls : HostTrace),
    h2 = ((h ++ init)
            ++ [Service_Connect serverName username domain password])
           ++ calls ->
    Forall (fun c => c <> Ole_CoUninitialize) calls ->
    (t, e) = (zeroTaskService, Some err) ->
    e <> None /\ t = zeroTaskService /\
    ((h2 = h ++ [Ole_CoInitializeEx 0 COINIT_MULTITHREADED] \/
      exists calls,
        h2 = h ++ calls ++ [Ole_CoUninitialize] /\
        Forall (fun c => c <> Ole_CoUninitialize /\
                         forall sn un dom pw,
                           c <> Service_Connect sn un dom pw)
          calls) \/
     exists calls,
       h2 = h ++ calls /\
       In (Service_Connect serverName username domain password) calls /\
       Forall (fun c => c <> Ole_CoUninitialize) calls)).
  { intros err calls -> Hcalls [= -> ->]. split; [discriminate|].
    split; [reflexivity|]. right.
    exists (init ++ Service_Connect serverName username domain password
                 :: calls).
    split; [now rewrite <- !app_assoc|]. split.
    - apply in_or_app. right. now left.
    - apply Forall_app. split; [repeat constructor; discriminate|].
      constructor; [discriminate|exact Hcalls]. }
  destruct (answer_Connect host _ _ _ _ _) as [err|].
  { hback_ret Hrun. left. symmetry in Hrun.
    eapply (Hlate _ []); [now rewrite app_nil_r|constructor|exact Hrun]. }
  hback Hrun as named h1 E1. destruct named as [computer herr].
  assert (Hhost : h1 = ((h ++ init)
                          ++ [Service_Connect serverName username domain
                                password])
                         ++ (if (serverName =? "")%string
                             then [Os_Hostname] else []) /\
                  (herr = None ->
                   if (serverName =? "")%string
                   then exists h0, answer_Hostname host h0 = (computer, None)
                   else computer = serverName)).
  { destruct (serverName =? "")%string.
    - hback_invoke E1. split; [reflexivity|]. intros ->. eexists.
      symmetry. eassumption.
    - hback_ret E1. injection E1 as <- <-. rewrite app_nil_r. now split. }
  destruct Hhost as [-> Hcomputer]. clear E1.
  assert (Hnames : Forall (fun c => c <> Ole_CoUninitialize)
                     (if (serverName =? "")%string
                      then [Os_Hostname] else [])).
  { destruct (serverName =? "")%string; repeat constructor; discriminate. }
  destruct herr as [err|].
  { hback_ret Hrun. left. symmetry in Hrun.
    eapply Hlate; [reflexivity|exact Hnames|exact Hrun]. }
  specialize (Hcomputer eq_refl).
  hback Hrun as who h1 E1.
  assert (Hwho : h1 = (((h ++ init)
                          ++ [Service_Connect serverName username domain
                                password])
                         ++ (if (serverName =? "")%string
                             then [Os_Hostname] else []))
                        ++ (if (username =? "")%string
                            then [User_Current] else []) /\
                 forall user, who = inr user ->
                   if (username =? "")%string
                   then exists h0 name first rest,
                          answer_Current host h0 = inr name /\
                          Split name backslash = first :: user :: rest
                   else user = username).
  { destruct (username =? "")%string.
    - hback E1 as c h3 E3. hback_invoke E3.
      destruct (answer_Current host _) as [err|name] eqn:Hcurrent.
      + hback_ret E1. split; [reflexivity|]. intros user [=].
      + hback E1 as piece h3 E3.
        destruct (Split name backslash) as [|first [|second rest]] eqn:Hsplit;
          try discriminate.
        hback_ret E3. hback_ret E1. split; [reflexivity|].
        intros user [= <-]. eexists _, name, first, rest.
        split; [exact Hcurrent|exact Hsplit].
    - hback_ret E1. rewrite app_nil_r. split; [reflexivity|].
      now intros user [= <-]. }
  destruct Hwho as [-> Huser]. clear E1.
  assert (Hcurrent : Forall (fun c => c <> Ole_CoUninitialize)
                       ((if (serverName =? "")%string
                         then [Os_Hostname] else [])
                        ++ (if (username =? "")%string
                            then [User_Current] else []))).
  { apply Forall_app. split; [exact Hnames|].
    destruct (username =? "")%string; repeat constructor; discriminate. }
  destruct who as [err|user].
  { hback_ret Hrun. left. symmetry in Hrun.
    eapply Hlate; [|exact Hcurrent|exact Hrun].
    now rewrite <- !app_assoc. }
  specialize (Huser user eq_refl).
  hback Hrun as s'' h1 E3. hback_deref E3.
  hback Hrun as res h1 E4. hback_invoke E4.
  destruct (answer_GetRootFolder host _ _) as [err|root].
  { hback_ret Hrun. left. symmetry in Hrun.
    eapply (Hlate _ (_ ++ [Service_GetRootFolder "\"]));
      [|apply Forall_app; split;
         [exact Hcurrent|repeat constructor; discriminate]
       |exact Hrun].
    now rewrite <- !app_assoc. }
  hback_ret Hrun. injection Hrun as <- <-. right. split; [reflexivity|].
  exists clsid, unk, s', root, computer, user. split; [reflexivity|].
  split; [|now split].
  unfold init. rewrite <- !app_assoc. reflexivity.
Qed.

(** What a successful [ConnectWithOptions] returns: a connection flagged
    initialized and connected that holds both handles.  The computer name
    is the server name given, or the host name when none is given; the
    domain is the one given, or the computer name when none is given; the
    user is the one given, or else the second of the pieces that the
    separator cuts the name of the current user into. *)
Theorem ConnectWithOptions_success (host : Host)
  (serverName domain username password : string) (t : TaskService)
  (h h2 : HostTrace) :
  ConnectWithOptions host serverName domain username password h
  = (Returns (t, None), h2) ->
  isInitialized t = true /\ isConnected t = true /\ hasHandles t /\
  (if (serverName =? "")%string
   then exists h1, answer_Hostname host h1 = (connectedComputerName t, None)
   else connectedComputerName t = serverName) /\
  connectedDomain t
  = (if (domain =? "")%string then connectedComputerName t else domain) /\
  (if (username =? "")%string
   then exists h1 name first rest,
          answer_Current host h1 = inr name /\
          Split name backslash = first :: connectedUser t :: rest
   else connectedUser t = username).
Proof.
  intros Hrun.
  destruct (ConnectWithOptions_Returns _ _ _ _ _ _ _ _ _ Hrun)
    as [(He & _)|(_ & clsid & unk & s & root & computer & user & -> & _
                   & Hcomputer & Huser)]; [congruence|].
  cbn [isInitialized isConnected connectedComputerName connectedDomain
         connectedUser].
  repeat split; try discriminate; assumption.
Qed.

Lemma ConnectWithOptions_success_witness :
  isInitialized
    (mkTaskService (Some (mkServiceObj 1)) (Some folderRoot) true true
       "CORP" "SERVER" "alice") = true /\
  isConnected
    (mkTaskService (Some (mkServiceObj 1)) (Some folderRoot) true true
       "CORP" "SERVER" "alice") = true /\
  hasHandles
    (mkTaskService (Some (mkServiceObj 1)) (Some folderRoot) true true
       "CORP" "SERVER" "alice") /\
  "SERVER" = "SERVER" /\ "CORP" = "CORP" /\
  exists h1 name first rest,
    answer_Current mockHost h1 = inr name /\
    Split name backslash = first :: "alice" :: rest.
Proof.
  apply (ConnectWithOptions_success mockHost "SERVER" "CORP" "" "secret"
           (mkTaskService (Some (mkServiceObj 1)) (Some folderRoot) true true
              "CORP" "SERVER" "alice")
           [] _ eq_refl).
Defined.

(** The calls of a successful [ConnectWithOptions], in order: the
    initialization of the thread, the class identifier, the instance, the
    query for its dispatch interface, the release of the instance, the
    [Connect] of the session with the server name, the user, the domain and
    the password in this order, the host name only if no server name was
    given, the current user only if no user name was given, and the root
    folder.  The context is never uninitialized. *)
Theorem ConnectWithOptions_success_calls (host : Host)
  (serverName domain username password : string) (t : TaskService)
  (h h2 : HostTrace) :
  ConnectWithOptions host serverName domain username password h
  = (Returns (t, None), h2) ->
  exists clsid unk,
    h2 = h ++ [Ole_CoInitializeEx 0 COINIT_MULTITHREADED;
               Ole_ClassIDFrom "Schedule.Service.1";
               Ole_CreateInstance clsid;
               Unknown_MustQueryInterface unk;
               Unknown_Release unk;
               Service_Connect serverName username domain password]
           ++ (if (serverName =? "")%string then [Os_Hostname] else [])
           ++ (if (username =? "")%string then [User_Current] else [])
           ++ [Service_GetRootFolder "\"].
Proof.
  intros Hrun.
  destruct (ConnectWithOptions_Returns _ _ _ _ _ _ _ _ _ Hrun)
    as [(He & _)|(_ & clsid & unk & s & root & computer & user & _ & Hcalls
                   & _)]; [congruence|].
  now exists clsid, unk.
Qed.

Lemma ConnectWithOptions_success_calls_witness :
  exists clsid unk,
    [Ole_CoInitializeEx 0 COINIT_MULTITHREADED;
     Ole_ClassIDFrom "Schedule.Service.1";
     Ole_CreateInstance (mkGUID 1);
     Unknown_MustQueryInterface (mkUnknown 1);
     Unknown_Release (mkUnknown 1);
     Service_Connect "" "" "" "";
     Os_Hostname; User_Current; Service_GetRootFolder "\"]
    = [] ++ [Ole_CoInitializeEx 0 COINIT_MULTITHREADED;
             Ole_ClassIDFrom "Schedule.Service.1";
             Ole_CreateInstance clsid;
             Unknown_MustQueryInterface unk;
             Unknown_Release unk;
             Service_Connect "" "" "" ""]
         ++ [Os_Hostname] ++ [User_Current] ++ [Service_GetRootFolder "\"].
Proof.
  apply (ConnectWithOptions_success_calls mockHost "" "" "" ""
           (mkTaskService (Some (mkServiceObj 1)) (Some folderRoot) true true
              "HOST" "HOST" "alice")
           [] _ eq_refl).
Defined.

(** What a failed [ConnectWithOptions] leaves behind.  The connection it
    returns with an error is the zero value, so the caller holds no
    handle.  If the failure came before the [Connect] of the session, the
    thread initialization was either refused (it is then the only call) or
    undone: [CoUninitialize] is the last call and the only one of its kind.
    If the failure came with or after that [Connect], nothing is undone:
    [CoUninitialize] is not called. *)
Theorem ConnectWithOptions_failure (host : Host)
  (serverName domain username password : string) (t : TaskService)
  (err : error) (h h2 : HostTrace) :
  ConnectWithOptions host serverName domain username password h
  = (Returns (t, Some err), h2) ->
  t = zeroTaskService /\
  ((h2 = h ++ [Ole_CoInitializeEx 0 COINIT_MULTITHREADED] \/
    exists calls,
      h2 = h ++ calls ++ [Ole_CoUninitialize] /\
      Forall (fun c => c <> Ole_CoUninitialize /\
                       forall sn un dom pw, c <> Service_Connect sn un dom pw)
        calls) \/
   exists calls,
     h2 = h ++ calls /\
     In (Service_Connect serverName username domain password) calls /\
     Forall (fun c => c <> Ole_CoUninitialize) calls).
Proof.
  intros Hrun.
  destruct (ConnectWithOptions_Returns _ _ _ _ _ _ _ _ _ Hrun)
    as [(_ & Ht & Hcalls)|(He & _)]; [|discriminate].
  now split.
Qed.

(** [Connect], then [Disconnect]: whatever a successful [Connect] returns,
    [Disconnect] releases the service object and the root folder it holds
    and uninitializes the thread, once each and in this order, and leaves
    both flags false. *)
Theorem Connect_then_Disconnect (host : Host) (t : TaskService)
  (h h2 : HostTrace) (tr : Trace) :
  Connect host h = (Returns (t, None), h2) ->
  exists s root,
    Disconnect t tr
    = (Returns (mkTaskService (Some s) (Some root) false false
                  (connectedDomain t) (connectedComputerName t)
                  (connectedUser t)),
       tr ++ [Release_Service s; Release_Folder root; CoUninitialize]).
Proof.
  unfold Connect. intros Hrun.
  destruct (ConnectWithOptions_Returns _ _ _ _ _ _ _ _ _ Hrun)
    as [(He & _)|(_ & clsid & unk & s & root & computer & user & -> & _)];
    [congruence|].
  exists s, root.
  match goal with
  | |- context [Disconnect ?t0 tr] =>
      rewrite (Disconnect_run t0 tr s root eq_refl eq_refl)
  end.
  reflexivity.
Qed.

Lemma Connect_then_Disconnect_witness :
  exists s root,
    Disconnect
      (mkTaskService (Some (mkServiceObj 1)) (Some folderRoot) true true
         "HOST" "HOST" "alice") []
    = (Returns (mkTaskService (Some s) (Some root) false false
                  "HOST" "HOST" "alice"),
       [] ++ [Release_Service s; Release_Folder root; CoUninitialize]).
Proof.
  apply (Connect_then_Disconnect mockHost
           (mkTaskService (Some (mkServiceObj 1)) (Some folderRoot) true true
              "HOST" "HOST" "alice")
           [] _ [] eq_refl).
Defined.

Lemma ConnectWithOptions_failure_witness :
  zeroTaskService = zeroTaskService /\
  (([Ole_CoInitializeEx 0 COINIT_MULTITHREADED;
     Ole_ClassIDFrom "Schedule.Service.1";
     Ole_CreateInstance (mkGUID 1);
     Unknown_MustQueryInterface (mkUnknown 1);
     Unknown_Release (mkUnknown 1);
     Service_Connect "REMOTE" "" "" ""]
    = [] ++ [Ole_CoInitializeEx 0 COINIT_MULTITHREADED] \/
    exists calls,
      [Ole_CoInitializeEx 0 COINIT_MULTITHREADED;
       Ole_ClassIDFrom "Schedule.Service.1";
       Ole_CreateInstance (mkGUID 1);
       Unknown_MustQueryInterface (mkUnknown 1);
       Unknown_Release (mkUnknown 1);
       Service_Connect "REMOTE" "" "" ""]
      = [] ++ calls ++ [Ole_CoUninitialize] /\
      Forall (fun c => c <> Ole_CoUninitialize /\
                       forall sn un dom pw, c <> Service_Connect sn un dom pw)
        calls) \/
   exists calls,
     [Ole_CoInitializeEx 0 COINIT_MULTITHREADED;
      Ole_ClassIDFrom "Schedule.Service.1";
      Ole_CreateInstance (mkGUID 1);
      Unknown_MustQueryInterface (mkUnknown 1);
      Unknown_Release (mkUnknown 1);
      Service_Connect "REMOTE" "" "" ""]
     = [] ++ calls /\
     In (Service_Connect "REMOTE" "" "" "") calls /\
     Forall (fun c => c <> Ole_CoUninitialize) calls).
Proof.
  apply (ConnectWithOptions_failure unreachableHost "REMOTE" "" "" ""
           zeroTaskService
           (Errorf "error connecting to Task Scheduler service: %v"
              [opError (Some ErrConnectionFailure)])
           [] _ eq_refl).
Defined.

Lemma hbind_hret {A B : Type} (a : A) (k : A -> HostM B) (h : HostTrace) :
  hbind (hret a) k h = k a h.
Proof. reflexivity. Qed.

Lemma hbind_hinvoke {A B : Type} (c : HostCall) (answer : HostTrace -> A)
  (k : A -> HostM B) (h : HostTrace) :
  hbind (hinvoke c answer) k h = k (answer h) (h ++ [c]).
Proof. reflexivity. Qed.

Lemma hbind_run {A B : Type} (m : HostM A) (k : A -> HostM B)
  (h h' : HostTrace) (a : A) :
  m h = (Returns a, h') -> hbind m k h = k a h'.
Proof. intros E. unfold hbind. now rewrite E. Qed.

(** How [initialize] reads the answer of [CoInitializeEx] when it is an
    [OleError].  With the code [S_OK] or [S_FALSE] (the thread was
    initialized before) it goes on, and asks for the class identifier
    next.  With any other code it returns that error as it is, not
    translated, having made no other call. *)
Theorem initialize_CoInitializeEx_codes (host : Host) (t : TaskService)
  (h : HostTrace) (hr : Z) (description : string) (sub : option error) :
  answer_CoInitializeEx host h = Some (OleError hr description sub) ->
  if (Code hr =? S_OK) || (Code hr =? S_FALSE)
  then exists rest,
         snd (initialize host t h)
         = h ++ Ole_CoInitializeEx 0 COINIT_MULTITHREADED
             :: Ole_ClassIDFrom "Schedule.Service.1" :: rest
  else initialize host t h
       = (Returns (t, Some (OleError hr description sub)),
          h ++ [Ole_CoInitializeEx 0 COINIT_MULTITHREADED]).
Proof.
  intros Hanswer. unfold initialize.
  rewrite hbind_hinvoke, Hanswer, hbind_hret. cbv zeta.
  destruct (Code hr =? S_OK), (Code hr =? S_FALSE); cbn [negb andb orb];
    try reflexivity;
    (rewrite hbind_hinvoke;
     match goal with
     | |- context [answer_ClassIDFrom host ?tr ?p] =>
         destruct (answer_ClassIDFrom host tr p) as [e|clsid]
     end;
     [eexists; cbn; rewrite <- !app_assoc; reflexivity|];
     rewrite hbind_hinvoke;
     match goal with
     | |- context [answer_CreateInstance host ?tr ?c] =>
         destruct (answer_CreateInstance host tr c) as [e|[unk|]]
     end;
     eexists; cbn; rewrite <- !app_assoc; reflexivity).
Qed.

Lemma initialize_CoInitializeEx_codes_witness :
  exists rest,
    snd (initialize mockHost zeroTaskService [])
    = [] ++ Ole_CoInitializeEx 0 COINIT_MULTITHREADED
        :: Ole_ClassIDFrom "Schedule.Service.1" :: rest.
Proof.
  apply (initialize_CoInitializeEx_codes mockHost zeroTaskService [] S_FALSE
           "" None eq_refl).
Defined.

(** ** The user name of a local connection *)

Lemma Split_without_separator (s : string) (sep : ascii) :
  LastIndex s sep = -1 -> Split s sep = [s].
Proof.
  induction s as [|c rest IH]; [reflexivity|]. cbn [LastIndex Split].
  pose proof (LastIndex_lower rest sep) as Hlow.
  destruct (0 <=? LastIndex rest sep) eqn:E.
  { apply Z.leb_le in E. lia. }
  destruct (Ascii.eqb c sep); [discriminate|].
  intros _. rewrite IH; [reflexivity|]. apply Z.leb_gt in E. lia.
Qed.

(** When no user name is given and the name of the current user holds no
    separator, [ConnectWithOptions] (and so [Connect]) faults: it takes
    the second piece of a name that has only one.  This happens after the
    session is connected, whatever the server name, the domain and the
    password. *)
Theorem ConnectWithOptions_user_without_domain (host : Host)
  (serverName domain password name : string) (t : TaskService)
  (h init : HostTrace) :
  initialize host zeroTaskService h = (Returns (t, None), h ++ init) ->
  taskServiceObj t <> None ->
  (forall h', answer_Connect host h' serverName "" domain password = None) ->
  (forall h', snd (answer_Hostname host h') = None) ->
  (forall h', answer_Current host h' = inr name) ->
  LastIndex name backslash = -1 ->
  exists calls,
    ConnectWithOptions host serverName domain "" password h
    = (Panics "index out of range [1] with length 1", h ++ calls) /\
    In (Service_Connect serverName "" domain password) calls.
Proof.
  intros Hinit Hs Hconnect Hhost Hcurrent Hname.
  unfold ConnectWithOptions. cbv zeta.
  cbn [isInitialized zeroTaskService negb].
  rewrite (hbind_run _ _ _ _ _ Hinit). cbv iota.
  destruct (taskServiceObj t) as [s|]; [|congruence].
  cbn [hderef]. rewrite hbind_hret, hbind_hinvoke, Hconnect.
  set (h1 := (h ++ _) ++ [Service_Connect serverName "" domain password]).
  assert (Hnamed : exists computer more,
    (if (serverName =? "")%string
     then hinvoke Os_Hostname (answer_Hostname host)
     else hret (serverName, None)) h1
    = (Returns (computer, None), h1 ++ more)).
  { destruct (serverName =? "")%string.
    - unfold hinvoke. specialize (Hhost h1).
      destruct (answer_Hostname host h1) as [computer e].
      cbn in Hhost. subst e. now exists computer, [Os_Hostname].
    - exists serverName, []. now rewrite app_nil_r. }
  destruct Hnamed as (computer & more & Hnamed).
  rewrite (hbind_run _ _ _ _ _ Hnamed). cbv iota zeta.
  change ("" =? "")%string with true. cbv iota.
  assert (Hinner :
    (c <~ hinvoke User_Current (answer_Current host) ;;
     match c with
     | inl err => hret (inl err)
     | inr currentUser =>
         piece <~ index1 (Split currentUser backslash) ;; hret (inr piece)
     end) (h1 ++ more)
    = (@Panics (error + string) "index out of range [1] with length 1",
       (h1 ++ more) ++ [User_Current])).
  { rewrite hbind_hinvoke, Hcurrent. unfold hbind.
    now rewrite (Split_without_separator _ _ Hname). }
  unfold hbind at 1. rewrite Hinner. subst h1.
  eexists. rewrite <- !app_assoc. split; [reflexivity|].
  apply in_or_app. right. now left.
Qed.

Lemma ConnectWithOptions_user_without_domain_witness :
  exists calls,
    ConnectWithOptions localUserHost "" "" "" "" []
    = (Panics "index out of range [1] with length 1", [] ++ calls) /\
    In (Service_Connect "" "" "" "") calls.
Proof.
  apply (ConnectWithOptions_user_without_domain localUserHost "" "" ""
           "alice"
           (mkTaskService (Some (mkServiceObj 1)) None true false "" "" "")
           []
           [Ole_CoInitializeEx 0 COINIT_MULTITHREADED;
            Ole_ClassIDFrom "Schedule.Service.1";
            Ole_CreateInstance (mkGUID 1);
            Unknown_MustQueryInterface (mkUnknown 1);
            Unknown_Release (mkUnknown 1)]).
  - reflexivity.
  - discriminate.
  - reflexivity.
  - reflexivity.
  - reflexivity.
  - reflexivity.
Defined.

(** ** The running tasks *)

Lemma hForEach_nil {A S : Type}
  (visitor : A -> S -> HostM (option error * S)) (st : S) :
  hForEach visitor [] st = hret (None, st).
Proof. reflexivity. Qed.

Lemma hForEach_cons {A S : Type}
  (visitor : A -> S -> HostM (option error * S)) (v : A) (rest : list A)
  (st : S) :
  hForEach visitor (v :: rest) st
  = hbind (visitor v st)
      (fun r => match r with
                | (Some err, st') => hret (Some err, st')
                | (None, st') => hForEach visitor rest st'
                end).
Proof. reflexivity. Qed.

Section RunningTasks.

Variable RunningTask : Type.
Variable answer_GetRunningTasks : HostTrace -> error + list RunningObj.
Variable answer_parseRunningTask :
  HostTrace -> RunningObj -> RunningTask * option error.
Variable parse : RunningObj -> RunningTask * option error.
Hypothesis Hparse : forall h task, answer_parseRunningTask h task = parse task.

Lemma collectRunningTasks_run (items : list RunningObj) :
  Forall (fun task => snd (parse task) = None) items ->
  forall (acc : list RunningTask) (h : HostTrace),
    hForEach (collectRunningTask RunningTask answer_parseRunningTask) items
      acc h
    = (Returns (None, acc ++ List.map (fun task => fst (parse task)) items),
       h ++ List.map ParseRunning items).
Proof.
  induction 1 as [|task items Htask _ IH]; intros acc h.
  - rewrite hForEach_nil. unfold hret. cbn [List.map].
    now rewrite !app_nil_r.
  - rewrite hForEach_cons. unfold collectRunningTask at 1, parseRunningTask.
    unfold hbind at 1. rewrite hbind_hinvoke, Hparse.
    destruct (parse task) as [running e] eqn:E. cbn in Htask. subst e.
    unfold hret at 1. cbv beta iota. rewrite IH. cbn [List.map fst].
    rewrite E. rewrite <- !app_assoc. reflexivity.
Qed.

Lemma collectRunningTasks_stop (before after : list RunningObj)
  (bad : RunningObj) (err : error) :
  Forall (fun task => snd (parse task) = None) before ->
  snd (parse bad) = Some err ->
  forall (acc : list RunningTask) (h : HostTrace),
    hForEach (collectRunningTask RunningTask answer_parseRunningTask)
      (before ++ bad :: after) acc h
    = (Returns (Some (Errorf "error parsing running task: %v"
                        [opError (Some err)]),
                acc ++ List.map (fun task => fst (parse task)) before),
       h ++ List.map ParseRunning (before ++ [bad])).
Proof.
  intros Hbefore Hbad.
  induction Hbefore as [|task items Htask _ IH]; intros acc h.
  - cbn [app]. rewrite hForEach_cons.
    unfold collectRunningTask at 1, parseRunningTask.
    unfold hbind at 1. rewrite hbind_hinvoke, Hparse.
    destruct (parse bad) as [running e]. cbn in Hbad. subst e.
    unfold hret. cbn [List.map app]. now rewrite !app_nil_r.
  - cbn [app]. rewrite hForEach_cons.
    unfold collectRunningTask at 1, parseRunningTask.
    unfold hbind at 1. rewrite hbind_hinvoke, Hparse.
    destruct (parse task) as [running e] eqn:E. cbn in Htask. subst e.
    unfold hret at 1. cbv beta iota. rewrite IH. cbn [List.map fst app].
    rewrite E. rewrite <- !app_assoc. reflexivity.
Qed.

End RunningTasks.

(** [GetRunningTasks] on the collection the service hands out.  When every
    entry parses, it returns the parsed tasks in the order of the
    collection.  When an entry does not parse, it returns no task at all
    together with the error of that entry, wrapped; the entries before it
    have been parsed and their results are dropped, the entries after it
    are not parsed. *)
Theorem GetRunningTasks_all_or_nothing (RunningTask : Type)
  (answer_GetRunningTasks : HostTrace -> error + list RunningObj)
  (answer_parseRunningTask :
     HostTrace -> RunningObj -> RunningTask * option error)
  (parse : RunningObj -> RunningTask * option error)
  (t : TaskService) (h : HostTrace) (items : list RunningObj) :
  (forall h task, answer_parseRunningTask h task = parse task) ->
  taskServiceObj t <> None ->
  answer_GetRunningTasks h = inr items ->
  (Forall (fun task => snd (parse task) = None) items ->
   GetRunningTasks RunningTask answer_GetRunningTasks answer_parseRunningTask
     t h
   = (Returns (List.map (fun task => fst (parse task)) items, None),
      h ++ Service_GetRunningTasks TASK_ENUM_HIDDEN
        :: List.map ParseRunning items)) /\
  (forall before bad after err,
     items = before ++ bad :: after ->
     Forall (fun task => snd (parse task) = None) before ->
     snd (parse bad) = Some err ->
     GetRunningTasks RunningTask answer_GetRunningTasks
       answer_parseRunningTask t h
     = (Returns ([], Some (Errorf "error parsing running task: %v"
                             [opError (Some err)])),
        h ++ Service_GetRunningTasks TASK_ENUM_HIDDEN
          :: List.map ParseRunning (before ++ [bad]))).
Proof.
  intros Hparse Hs Hitems.
  destruct (taskServiceObj t) as [s|] eqn:Es; [|congruence].
  split.
  - intros Hall. unfold GetRunningTasks. rewrite Es. cbn [hderef].
    rewrite hbind_hret, hbind_hinvoke, Hitems.
    rewrite (hbind_run _ _ _ _ _
               (collectRunningTasks_run RunningTask answer_parseRunningTask
                  parse Hparse items Hall [] _)).
    unfold hret. cbn [app]. now rewrite <- app_assoc.
  - intros before bad after err -> Hbefore Hbad.
    unfold GetRunningTasks. rewrite Es. cbn [hderef].
    rewrite hbind_hret, hbind_hinvoke, Hitems.
    rewrite (hbind_run _ _ _ _ _
               (collectRunningTasks_stop RunningTask answer_parseRunningTask
                  parse Hparse before after bad err Hbefore Hbad [] _)).
    unfold hret. now rewrite <- app_assoc.
Qed.

Lemma GetRunningTasks_all_or_nothing_witness :
  GetRunningTasks nat
    (fun _ => inr [mkRunningObj 1; mkRunningObj 2; mkRunningObj 3])
    (fun _ task =>
       let 'mkRunningObj id := task in
       (id, if Nat.eqb id 2 then Some ErrRunningTaskCompleted else None))
    mockService []
  = (Returns ([], Some (Errorf "error parsing running task: %v"
                          [opError (Some ErrRunningTaskCompleted)])),
     [] ++ Service_GetRunningTasks TASK_ENUM_HIDDEN
        :: List.map ParseRunning ([mkRunningObj 1] ++ [mkRunningObj 2])).
Proof.
  refine (proj2 (GetRunningTasks_all_or_nothing nat
           (fun _ => inr [mkRunningObj 1; mkRunningObj 2; mkRunningObj 3])
           (fun _ task =>
              let 'mkRunningObj id := task in
              (id, if Nat.eqb id 2 then Some ErrRunningTaskCompleted
                   else None))
           (fun task =>
              let 'mkRunningObj id := task in
              (id, if Nat.eqb id 2 then Some ErrRunningTaskCompleted
                   else None))
           mockService [] [mkRunningObj 1; mkRunningObj 2; mkRunningObj 3]
           ltac:(reflexivity) ltac:(discriminate) eq_refl)
          [mkRunningObj 1] (mkRunningObj 2) [mkRunningObj 3]
          ErrRunningTaskCompleted eq_refl _ eq_refl).
  repeat constructor.
Defined.
